(** * Study Timer: timer, session recorder, storage hook and streak

  A shallow embedding of the parts of the Study Timer application that
  decide its session bookkeeping:

  - [types/index.ts]           : [Course], [Session], [TimerState];
  - [lib/utils.ts]             : [uid], [isoNow], [minutesToSeconds],
                                  [calculateStreak];
  - [hooks/useStorage.tsx]     : [loadData], [addSession], [removeCourse];
  - [screens/CourseScreen.tsx] : the duration buttons that open a timer;
  - [screens/TimerScreen.tsx]  : the timer effect, the app-state effect and
                                  the press handlers.

  Conventions of the embedding.

  - JavaScript numbers that hold seconds, minutes and epoch milliseconds
    are integers in this program; they are values of [Z].  [Math.floor (a / b)]
    for a positive [b] is [Z.div].  [NaN] (only produced by [parseInt]) is
    [None].
  - An ISO-8601 time stamp, as produced by [new Date().toISOString()], is
    represented by the instant it denotes, in epoch milliseconds; its date
    part [s.split('T')[0]] is the UTC calendar day of that instant,
    represented by its day number.  The time zone of the device is a
    parameter of what [Date.prototype.setDate] computes.
  - A React component is a record of its state cells; each handler is a
    function from the state (and the persistent store) to the next one.
    A callback that React keeps from an older render sees the values of
    that render: the values it reads are stored in the record when the
    effect that installs it runs.
  - Every component that calls [useStorage ()] has lists of its own; the
    store under them is shared.  The timer screen renders its tiles and
    dialogs only when its own course list holds the course of the route.
  - [AsyncStorage.setItem] may reject; each write takes a boolean saying
    whether it resolves.  [JSON.stringify] followed by [JSON.parse] is the
    identity on the records stored here. *)

From Stdlib Require Import ZArith List String Ascii Bool Lia Permutation.
From Stdlib Require Import QArith Qround DecimalString.
Import ListNotations.
Close Scope Q_scope.
Open Scope string_scope.
Open Scope list_scope.
Open Scope Z_scope.

(** ** Data model ([types/index.ts]) *)

Module Course.
Record t : Type := mk {
  id : string;
  name : string;
  createdAt : Z;
  color : option string
}.
End Course.

Module Session.
Record t : Type := mk {
  id : string;
  courseId : string;
  startAt : Z;
  durationSeconds : Z;
  targetSeconds : Z;
  isPartial : bool
}.
End Session.

Module TimerState.
Record t : Type := mk {
  isRunning : bool;
  remainingSeconds : Z;
  elapsedSeconds : Z;
  targetSeconds : Z;
  startTime : option Z
}.
End TimerState.

(** [Omit<Session, 'id'>], the argument of [addSession]. *)
Record SessionData : Type := mkData {
d_courseId : string;
d_startAt : Z;
d_durationSeconds : Z;
d_targetSeconds : Z;
d_isPartial : bool
}.

(** ** The clock of the device

    [Date] computes with the time zone of the device.  ECMAScript gives it
    as the offset of local time from UTC, in milliseconds, read off either
    at a UTC instant or at a local wall-clock reading
    ([LocalTZA (t, isUTC)]); a wall-clock reading that occurs twice, or not
    at all, around a change of the clocks is taken with the offset in force
    before the change. *)

Module JsDate.

Record Zone : Type := mkZone {
  offsetAtUTC : Z -> Z;
  offsetAtLocal : Z -> Z
}.

(** [LocalTime (t)] and [UTC (t)] of ECMAScript. *)
Definition LocalTime (zone : Zone) (t : Z) : Z := t + offsetAtUTC zone t.

Definition UTC (zone : Zone) (t : Z) : Z := t - offsetAtLocal zone t.

(** A zone that never changes its clocks, [off] milliseconds east of
    UTC. *)
Definition fixedZone (off : Z) : Zone := mkZone (fun _ => off) (fun _ => off).

End JsDate.

(** ** Utilities ([lib/utils.ts]) *)

Module Utils.

(** [uid prefix]: [`${prefix}_${timestamp}${randomStr}`]; the base-36 text
    of the clock and of the random number is the argument [stamp]. *)
Definition uid (prefix stamp : string) : string :=
  String.append prefix (String.append "_" stamp).

(** [isoNow ()] at the instant [now]. *)
Definition isoNow (now : Z) : Z := now.

Definition minutesToSeconds (minutes : Z) : Z := minutes * 60.

Definition msPerDay : Z := 86400000.

(** [iso.split('T')[0]]: the UTC calendar day of a time stamp. *)
Definition dateOf (iso : Z) : Z := iso / msPerDay.

(** [Array.prototype.includes] on day numbers. *)
Definition includes (d : Z) (l : list Z) : bool := existsb (Z.eqb d) l.

(** [[...new Set(l)]]: the distinct elements, in order of first
    appearance. *)
Definition setOf (l : list Z) : list Z :=
  fold_left (fun acc d => if includes d acc then acc else acc ++ [d]) l [].

(** [Array.prototype.sort] on date strings of equal length: ascending. *)
Fixpoint insertSorted (d : Z) (l : list Z) : list Z :=
  match l with
  | [] => [d]
  | x :: r => if d <=? x then d :: l else x :: insertSorted d r
  end.

Definition sort (l : list Z) : list Z := fold_right insertSorted [] l.

(** [new Date(day)] for a date string: the instant of its UTC midnight. *)
Definition dateFromDay (day : Z) : Z := day * msPerDay.

(** [d.setDate(d.getDate() - i)]: [setDate] takes the local wall-clock
    reading of the instant, moves its day of the month back by [i], which
    moves the reading back by [i] whole days, and converts the result to
    UTC with the offset in force at that reading. *)
Definition setDateBack (zone : JsDate.Zone) (instant i : Z) : Z :=
  let wallClock := JsDate.LocalTime zone instant in
  JsDate.UTC zone (wallClock - i * msPerDay).

(** The [for] loop of [calculateStreak]: [n] iterations remain, the
    counter is [i]. *)
Fixpoint streakLoop (zone : JsDate.Zone) (uniqueDates : list Z) (today : Z)
         (n : nat) (i streak : Z) : Z :=
  match n with
  | O => streak
  | S n' =>
      let expectedDate := setDateBack zone (dateFromDay today) i in
      let expectedDateStr := dateOf expectedDate in
      if includes expectedDateStr uniqueDates
      then streakLoop zone uniqueDates today n' (i + 1) (streak + 1)
      else streak
  end.

(** [calculateStreak sessions] at the instant [now] on a device in the
    time zone [zone]. *)
Definition calculateStreak (zone : JsDate.Zone) (now : Z)
           (sessions : list Session.t) : Z :=
  if (List.length sessions =? 0)%nat then 0
  else
    let sessionDates := map (fun s => dateOf (Session.startAt s)) sessions in
    let uniqueDates := sort (setOf sessionDates) in
    let today := dateOf now in
    streakLoop zone uniqueDates today (List.length uniqueDates) 0 0.

(** *** [parseInt] *)

Definition isWhiteSpace (a : ascii) : bool :=
  let n := nat_of_ascii a in
  ((n =? 32) || (n =? 9) || (n =? 10) || (n =? 11) || (n =? 12)
   || (n =? 13))%nat.

Fixpoint trimStart (s : string) : string :=
  match s with
  | String a r => if isWhiteSpace a then trimStart r else s
  | EmptyString => s
  end.

(** The value of a character as a digit, up to base 36. *)
Definition digitValue (a : ascii) : option Z :=
  let n := Z.of_nat (nat_of_ascii a) in
  if (48 <=? n) && (n <=? 57) then Some (n - 48)
  else if (97 <=? n) && (n <=? 122) then Some (n - 97 + 10)
  else if (65 <=? n) && (n <=? 90) then Some (n - 65 + 10)
  else None.

(** The longest prefix of digits below [radix]; [acc] is [None] until a
    digit has been read. *)
Fixpoint parseDigits (radix : Z) (s : string) (acc : option Z) : option Z :=
  match s with
  | EmptyString => acc
  | String a r =>
      match digitValue a with
      | Some d =>
          if d <? radix
          then parseDigits radix r
                 (Some (radix * match acc with Some v => v | None => 0 end + d))
          else acc
      | None => acc
      end
  end.

(** [parseInt s] with no radix argument: leading white space, an optional
    sign, an optional [0x] prefix, then digits; [None] is [NaN]. *)
Definition parseInt (s : string) : option Z :=
  let s1 := trimStart s in
  let '(sign, s2) :=
    match s1 with
    | String "-" r => (-1, r)
    | String "+" r => (1, r)
    | _ => (1, s1)
    end in
  let '(radix, s3) :=
    match s2 with
    | String "0" (String "x" r) => (16, r)
    | String "0" (String "X" r) => (16, r)
    | _ => (10, s2)
    end in
  match parseDigits radix s3 None with
  | Some v => Some (sign * v)
  | None => None
  end.

(** [x > 0 && x <= 480] on a possibly-[NaN] number: every comparison with
    [NaN] is false. *)
Definition inRange1to480 (x : option Z) : bool :=
  match x with
  | Some v => (0 <? v) && (v <=? 480)
  | None => false
  end.

End Utils.


(** ** The storage hook ([hooks/useStorage.tsx]) *)

Module UseStorage.

(** The two [AsyncStorage] keys used by the session bookkeeping,
    [STORAGE_KEYS.COURSES] and [STORAGE_KEYS.SESSIONS]; [None] is a key that
    was never written ([getItem] gives [null]). *)
Record Store : Type := mkStore {
  COURSES : option (list Course.t);
  SESSIONS : option (list Session.t)
}.

(** The state cells of one instance of the hook.  Every component that
    calls [useStorage ()] has its own. *)
Record t : Type := mkHook {
  courses : list Course.t;
  sessions : list Session.t;
  error : option string
}.

(** How an [async] operation of the hook ends: the promise resolves, or the
    [catch] block rethrows. *)
Inductive outcome : Type := Resolved | Rejected.

Definition initial : t := mkHook [] [] None.

Definition setSessions (l : list Session.t) (h : t) : t :=
  mkHook (courses h) l (error h).

Definition setCourses (l : list Course.t) (h : t) : t :=
  mkHook l (sessions h) (error h).

Definition setError (e : option string) (h : t) : t :=
  mkHook (courses h) (sessions h) e.

(** [loadData]: a collection is replaced only when its key holds a value.
    The reads are taken to succeed. *)
Definition loadData (h : t) (st : Store) : t :=
  let h0 := setError None h in
  let h1 := match COURSES st with
            | Some coursesData => setCourses coursesData h0
            | None => h0
            end in
  match SESSIONS st with
  | Some sessionsData => setSessions sessionsData h1
  | None => h1
  end.

(** [addSession sessionData]: [w] tells whether [AsyncStorage.setItem]
    resolves.  [setSessions] is called before the write is awaited. *)
Definition addSession (w : bool) (stamp : string) (sessionData : SessionData)
           (h : t) (st : Store) : t * Store * outcome :=
  let newSession :=
    Session.mk (Utils.uid "s_" stamp)
               (d_courseId sessionData) (d_startAt sessionData)
               (d_durationSeconds sessionData) (d_targetSeconds sessionData)
               (d_isPartial sessionData) in
  let updatedSessions := sessions h ++ [newSession] in
  let h1 := setSessions updatedSessions h in
  if w
  then (h1, mkStore (COURSES st) (Some updatedSessions), Resolved)
  else (setError (Some "Failed to add session") h1, st, Rejected).

(** [removeCourse id]: two writes, [w1] for the courses and [w2] for the
    sessions; the second part is not reached when the first write rejects. *)
Definition removeCourse (w1 w2 : bool) (id : string)
           (h : t) (st : Store) : t * Store * outcome :=
  let updatedCourses :=
    filter (fun course => negb (String.eqb (Course.id course) id)) (courses h) in
  let h1 := setCourses updatedCourses h in
  if negb w1
  then (setError (Some "Failed to remove course") h1, st, Rejected)
  else
    let st1 := mkStore (Some updatedCourses) (SESSIONS st) in
    let updatedSessions :=
      filter (fun session => negb (String.eqb (Session.courseId session) id))
             (sessions h) in
    let h2 := setSessions updatedSessions h1 in
    if negb w2
    then (setError (Some "Failed to remove course") h2, st1, Rejected)
    else (h2, mkStore (COURSES st1) (Some updatedSessions), Resolved).

(** The persisted session collection, [[]] when the key is absent. *)
Definition persisted (st : Store) : list Session.t :=
  match SESSIONS st with Some l => l | None => [] end.

Definition persistedCourses (st : Store) : list Course.t :=
  match COURSES st with Some l => l | None => [] end.

(** The in-memory lists mirror the store. *)
Definition inSync (h : t) (st : Store) : Prop :=
  COURSES st = Some (courses h) /\ SESSIONS st = Some (sessions h).

(** Every session refers to a course of the list. *)
Definition noOrphans (cs : list Course.t) (ss : list Session.t) : Prop :=
  forall s, In s ss -> exists c, In c cs /\ Course.id c = Session.courseId s.

End UseStorage.

(** ** Starting a timer from the course screen ([screens/CourseScreen.tsx]) *)

Module CourseScreen.

(** The parameters of [navigation.navigate('TimerScreen', ...)]. *)
Record TimerParams : Type := mkParams {
  p_courseId : string;
  p_durationMinutes : Z
}.

(** The preset duration buttons. *)
Definition presets : list Z := [10; 20; 30; 40; 60].

(** [handleStartTimer durationMinutes], the [onPress] of a preset button. *)
Definition handleStartTimer (courseId : string) (durationMinutes : Z)
  : TimerParams :=
  mkParams courseId durationMinutes.

(** [onPress] of the Start button of the custom duration input: [Some] is a
    navigation to the timer screen, [None] the "Invalid Duration" alert. *)
Definition customStartPress (courseId customDuration : string)
  : option TimerParams :=
  if negb (String.eqb customDuration "")
     && Utils.inRange1to480 (Utils.parseInt customDuration)
  then match Utils.parseInt customDuration with
       | Some m => Some (mkParams courseId m)
       | None => None
       end
  else None.

End CourseScreen.

(** ** The timer screen ([screens/TimerScreen.tsx]) *)

Module TimerScreen.

Import UseStorage.

(** [AppStateStatus] of React Native. *)
Inductive AppStateStatus : Type :=
  active | background | inactive | unknown | extension.

(** [status.match(/inactive|background/)] *)
Definition matchesInactiveOrBackground (a : AppStateStatus) : bool :=
  match a with
  | background | inactive => true
  | _ => false
  end.

(** The component: the route parameters, its state cells and refs, its own
    instance of the storage hook, and the two values that the callback given
    to [setInterval] reads from the render in which the timer effect ran
    ([timerState.targetSeconds], through [handleTimerComplete], and
    [sessions], through [addSession]).  [mounted] is false once the screen
    has been removed from the navigation stack. *)
Record t : Type := mk {
  courseId : string;
  durationMinutes : Z;
  timerState : TimerState.t;
  storage : UseStorage.t;
  appStateRef : AppStateStatus;
  showCompletionModal : bool;
  showNewCycleModal : bool;
  customTimeInput : string;
  showCustomTimeInput : bool;
  tickTarget : Z;
  tickSessions : list Session.t;
  mounted : bool
}.

Definition setTimerState (ts : TimerState.t) (sc : t) : t :=
  mk (courseId sc) (durationMinutes sc) ts (storage sc) (appStateRef sc)
     (showCompletionModal sc) (showNewCycleModal sc) (customTimeInput sc)
     (showCustomTimeInput sc) (tickTarget sc) (tickSessions sc) (mounted sc).

Definition setStorage (h : UseStorage.t) (sc : t) : t :=
  mk (courseId sc) (durationMinutes sc) (timerState sc) h (appStateRef sc)
     (showCompletionModal sc) (showNewCycleModal sc) (customTimeInput sc)
     (showCustomTimeInput sc) (tickTarget sc) (tickSessions sc) (mounted sc).

Definition setAppStateRef (a : AppStateStatus) (sc : t) : t :=
  mk (courseId sc) (durationMinutes sc) (timerState sc) (storage sc) a
     (showCompletionModal sc) (showNewCycleModal sc) (customTimeInput sc)
     (showCustomTimeInput sc) (tickTarget sc) (tickSessions sc) (mounted sc).

Definition setShowCompletionModal (b : bool) (sc : t) : t :=
  mk (courseId sc) (durationMinutes sc) (timerState sc) (storage sc)
     (appStateRef sc) b (showNewCycleModal sc) (customTimeInput sc)
     (showCustomTimeInput sc) (tickTarget sc) (tickSessions sc) (mounted sc).

Definition setShowNewCycleModal (b : bool) (sc : t) : t :=
  mk (courseId sc) (durationMinutes sc) (timerState sc) (storage sc)
     (appStateRef sc) (showCompletionModal sc) b (customTimeInput sc)
     (showCustomTimeInput sc) (tickTarget sc) (tickSessions sc) (mounted sc).

Definition setCustomTimeInput (s : string) (sc : t) : t :=
  mk (courseId sc) (durationMinutes sc) (timerState sc) (storage sc)
     (appStateRef sc) (showCompletionModal sc) (showNewCycleModal sc) s
     (showCustomTimeInput sc) (tickTarget sc) (tickSessions sc) (mounted sc).

Definition setShowCustomTimeInput (b : bool) (sc : t) : t :=
  mk (courseId sc) (durationMinutes sc) (timerState sc) (storage sc)
     (appStateRef sc) (showCompletionModal sc) (showNewCycleModal sc)
     (customTimeInput sc) b (tickTarget sc) (tickSessions sc) (mounted sc).

(** The screen leaves the navigation stack: the effect cleanups clear the
    interval and remove the app-state subscription, and nothing else. *)
Definition unmount (sc : t) : t :=
  mk (courseId sc) (durationMinutes sc) (timerState sc) (storage sc)
     (appStateRef sc) (showCompletionModal sc) (showNewCycleModal sc)
     (customTimeInput sc) (showCustomTimeInput sc) (tickTarget sc)
     (tickSessions sc) false.

(** The timer effect has [[timerState.isRunning]] as dependencies: it runs
    again, and installs a callback of the new render, when that value
    differs between two renders.  [commit old new] is the render of [new]
    after [old]. *)
Definition commit (old new : t) : t :=
  if negb (Bool.eqb (TimerState.isRunning (timerState old))
                    (TimerState.isRunning (timerState new)))
     && TimerState.isRunning (timerState new)
  then mk (courseId new) (durationMinutes new) (timerState new) (storage new)
          (appStateRef new) (showCompletionModal new) (showNewCycleModal new)
          (customTimeInput new) (showCustomTimeInput new)
          (TimerState.targetSeconds (timerState new))
          (sessions (storage new)) (mounted new)
  else new.

(** A fresh run: the initial [useState] value, and the value set by
    [handleSameTime] and [handleCustomTimeSubmit]. *)
Definition startedRun (minutes now : Z) : TimerState.t :=
  TimerState.mk true (Utils.minutesToSeconds minutes) 0
                (Utils.minutesToSeconds minutes) (Some now).

(** The first render and the effects of the mount, at the instant [now] and
    with [AppState.currentState = current]. The hook has not loaded yet. *)
Definition mount (courseId : string) (durationMinutes : Z)
           (current : AppStateStatus) (now : Z) : t :=
  mk courseId durationMinutes (startedRun durationMinutes now)
     UseStorage.initial current false false "" false
     (Utils.minutesToSeconds durationMinutes) [] true.

(** [prev.startTime ? Math.floor((now - prev.startTime) / 1000) : 0]; a start
    time of [0] is falsy as [null] is. *)
Definition elapsedSince (startTime : option Z) (now : Z) : Z :=
  match startTime with
  | Some t0 => if t0 =? 0 then 0 else (now - t0) / 1000
  | None => 0
  end.

(** The state updater of the interval callback; the boolean tells whether
    it called [handleTimerComplete]. *)
Definition tickUpdate (now : Z) (prev : TimerState.t) : TimerState.t * bool :=
  let elapsed := elapsedSince (TimerState.startTime prev) now in
  let remaining := Z.max 0 (TimerState.targetSeconds prev - elapsed) in
  if remaining <=? 0
  then (TimerState.mk false 0 (TimerState.targetSeconds prev)
                      (TimerState.targetSeconds prev)
                      (TimerState.startTime prev), true)
  else (TimerState.mk (TimerState.isRunning prev) remaining elapsed
                      (TimerState.targetSeconds prev)
                      (TimerState.startTime prev), false).

(** [handleTimerComplete], as the interval callback sees it: target and
    session list are those of the render in which the timer effect ran.
    After a successful write the completion modal is shown and the hook
    reloads. *)
Definition handleTimerComplete (now : Z) (stamp : string) (w : bool)
           (sc : t) (st : Store) : t * Store :=
  let sessionData :=
    mkData (courseId sc) (Utils.isoNow now) (tickTarget sc) (tickTarget sc)
           false in
  match addSession w stamp sessionData
                   (setSessions (tickSessions sc) (storage sc)) st with
  | (h, st', Resolved) =>
      (setShowCompletionModal true (setStorage (loadData h st') sc), st')
  | (h, st', Rejected) => (setStorage h sc, st')
  end.

(** One firing of the interval.  There is no interval while the timer is
    not running. *)
Definition tick (now : Z) (stamp : string) (w : bool)
           (sc : t) (st : Store) : t * Store :=
  if TimerState.isRunning (timerState sc)
  then
    let '(ts, completed) := tickUpdate now (timerState sc) in
    if completed
    then handleTimerComplete now stamp w (setTimerState ts sc) st
    else (setTimerState ts sc, st)
  else (sc, st).

(** [handleAppStateChange nextAppState].  Its effect depends on
    [isRunning], [startTime] and [targetSeconds], so the handler always
    reads their current values. *)
Definition handleAppStateChange (nextAppState : AppStateStatus) (now : Z)
           (sc : t) : t :=
  let ts := timerState sc in
  let sc' :=
    if matchesInactiveOrBackground (appStateRef sc)
       && match nextAppState with active => true | _ => false end
    then
      match TimerState.startTime ts with
      | Some t0 =>
          if TimerState.isRunning ts && negb (t0 =? 0)
          then
            let elapsed := (now - t0) / 1000 in
            let remaining := Z.max 0 (TimerState.targetSeconds ts - elapsed) in
            setTimerState
              (TimerState.mk (TimerState.isRunning ts) remaining elapsed
                             (TimerState.targetSeconds ts)
                             (TimerState.startTime ts)) sc
          else sc
      | None => sc
      end
    else sc in
  setAppStateRef nextAppState sc'.

Definition handleResume (now : Z) (sc : t) : t :=
  let prev := timerState sc in
  setTimerState
    (TimerState.mk true (TimerState.remainingSeconds prev)
       (TimerState.elapsedSeconds prev) (TimerState.targetSeconds prev)
       (Some (now - (TimerState.targetSeconds prev
                     - TimerState.remainingSeconds prev) * 1000))) sc.

Definition handlePause (sc : t) : t :=
  let prev := timerState sc in
  setTimerState
    (TimerState.mk false (TimerState.remainingSeconds prev)
       (TimerState.elapsedSeconds prev) (TimerState.targetSeconds prev)
       (TimerState.startTime prev)) sc.

Definition handleReset (sc : t) : t :=
  setTimerState
    (TimerState.mk false (Utils.minutesToSeconds (durationMinutes sc)) 0
       (Utils.minutesToSeconds (durationMinutes sc)) None) sc.

(** [handleTerminate]: [navigation.goBack ()] removes the screen. *)
Definition handleTerminate (now : Z) (stamp : string) (w : bool)
           (sc : t) (st : Store) : t * Store :=
  if TimerState.elapsedSeconds (timerState sc) =? 0
  then (unmount sc, st)
  else
    let sessionData :=
      mkData (courseId sc) (Utils.isoNow now)
             (TimerState.elapsedSeconds (timerState sc))
             (TimerState.targetSeconds (timerState sc)) true in
    match addSession w stamp sessionData (storage sc) st with
    | (h, st', Resolved) => (unmount (setStorage h sc), st')
    | (h, st', Rejected) => (setStorage h sc, st')
    end.

Definition handleStartNewCycle (sc : t) : t :=
  setShowNewCycleModal true (setShowCompletionModal false sc).

Definition handleExit (sc : t) : t :=
  unmount (setShowCompletionModal false sc).

Definition handleSameTime (now : Z) (sc : t) : t :=
  setTimerState (startedRun (durationMinutes sc) now)
                (setShowNewCycleModal false sc).

Definition handleCustomTime (sc : t) : t :=
  setShowCustomTimeInput true (setShowNewCycleModal false sc).

Definition handleCustomTimeSubmit (now : Z) (sc : t) : t :=
  let customMinutes := Utils.parseInt (customTimeInput sc) in
  if Utils.inRange1to480 customMinutes
  then
    match customMinutes with
    | Some m =>
        setTimerState (startedRun m now)
          (setCustomTimeInput "" (setShowCustomTimeInput false sc))
    | None => sc
    end
  else sc.

(** What can happen to a mounted screen. *)
Inductive event : Type :=
| Loaded
| Tick (now : Z) (stamp : string) (w : bool)
| AppStateChange (nextAppState : AppStateStatus) (now : Z)
| PressPauseResume (now : Z)
| PressReset
| PressTerminate (now : Z) (stamp : string) (w : bool)
| RequestCloseCompletion
| PressStartNewCycle
| PressExit
| PressSameTime (now : Z)
| PressCustomTime
| ChangeCustomTimeText (text : string)
| PressStartSession (now : Z)
| NavigateAway
| RequestCloseNewCycle
| RequestCloseCustomTime
| PressCancelCustomTime.

(** What the handler bound to an event does, followed by the render it
    causes.  [Loaded] is the end of the [loadData] started by the hook's
    mount effect; the Pause/Resume tile is
    [onPress={timerState.isRunning ? handlePause : handleResume}];
    [NavigateAway] is the header or hardware back action; the three
    [RequestClose] events are the [onRequestClose] of the three dialogs (the
    hardware back button while the dialog is open), [PressCancelCustomTime]
    the Cancel button of the custom duration dialog.  Which of these events
    the rendered screen can deliver in a given state is [offered], below. *)
Definition step (e : event) (x : t * Store) : t * Store :=
  let '(sc, st) := x in
  if negb (mounted sc) then x
  else
    let '(sc', st') :=
      match e with
      | Loaded => (setStorage (loadData (storage sc) st) sc, st)
      | Tick now stamp w => tick now stamp w sc st
      | AppStateChange next now => (handleAppStateChange next now sc, st)
      | PressPauseResume now =>
          (if TimerState.isRunning (timerState sc)
           then handlePause sc else handleResume now sc, st)
      | PressReset => (handleReset sc, st)
      | PressTerminate now stamp w => handleTerminate now stamp w sc st
      | RequestCloseCompletion => (setShowCompletionModal false sc, st)
      | PressStartNewCycle => (handleStartNewCycle sc, st)
      | PressExit => (handleExit sc, st)
      | PressSameTime now => (handleSameTime now sc, st)
      | PressCustomTime => (handleCustomTime sc, st)
      | ChangeCustomTimeText text => (setCustomTimeInput text sc, st)
      | PressStartSession now => (handleCustomTimeSubmit now sc, st)
      | NavigateAway => (unmount sc, st)
      | RequestCloseNewCycle => (setShowNewCycleModal false sc, st)
      | RequestCloseCustomTime => (setShowCustomTimeInput false sc, st)
      | PressCancelCustomTime =>
          (setCustomTimeInput "" (setShowCustomTimeInput false sc), st)
      end in
    (commit sc sc', st').

Definition run (es : list event) (x : t * Store) : t * Store :=
  fold_left (fun acc e => step e acc) es x.

(** The timer is running from the start time [t0]. *)
Definition runningFrom (t0 : Z) (sc : t) : Prop :=
  mounted sc = true
  /\ TimerState.isRunning (timerState sc) = true
  /\ TimerState.startTime (timerState sc) = Some t0
  /\ t0 <> 0.

(** [courses.find(c => c.id === courseId)], on the course list of the
    screen's own hook instance. *)
Definition course (sc : t) : option Course.t :=
  find (fun c => String.eqb (Course.id c) (courseId sc)) (courses (storage sc)).

(** [if (!course) return ...]: without the course the component renders
    the text "Course not found" and nothing else, neither the three tiles
    nor the dialogs. *)
Definition courseFound (sc : t) : bool :=
  match course sc with
  | Some _ => true
  | None => false
  end.

(** None of the three [Modal]s is visible. *)
Definition noDialog (sc : t) : bool :=
  negb (showCompletionModal sc || showNewCycleModal sc
        || showCustomTimeInput sc).

(** The events that the screen in state [sc] can receive.  The effects
    (load, app state) and the navigator do not go through the rendered
    tree; the interval exists while the timer runs; a tile can be pressed
    when the tiles are rendered and no [Modal] lies over them; a dialog
    takes the presses and the back button while it is visible. *)
Definition offered (sc : t) (e : event) : bool :=
  mounted sc
  && match e with
     | Loaded | AppStateChange _ _ | NavigateAway => true
     | Tick _ _ _ => TimerState.isRunning (timerState sc)
     | PressPauseResume _ | PressReset | PressTerminate _ _ _ =>
         courseFound sc && noDialog sc
     | RequestCloseCompletion | PressStartNewCycle | PressExit =>
         courseFound sc && showCompletionModal sc
     | RequestCloseNewCycle | PressSameTime _ | PressCustomTime =>
         courseFound sc && showNewCycleModal sc
     | RequestCloseCustomTime | PressCancelCustomTime
     | ChangeCustomTimeText _ | PressStartSession _ =>
         courseFound sc && showCustomTimeInput sc
     end.

(** Every event of the sequence is offered by the state it arrives in. *)
Fixpoint deliverable (es : list event) (x : t * Store) : bool :=
  match es with
  | [] => true
  | e :: rest => offered (fst x) e && deliverable rest (step e x)
  end.

End TimerScreen.

(** ** Concrete runs

    A one-minute timer for the course [c_a], opened at the instant 1000 on
    a device whose store is empty, on a device that holds the course, and
    on a device that holds two courses and three sessions, and the event
    sequences discussed below.  Instants are epoch milliseconds. *)

Module Scenario.

Import UseStorage TimerScreen.

Definition emptyStore : Store := mkStore None None.

Definition oneMinute : TimerScreen.t * Store :=
  (mount "c_a" 1 active 1000, emptyStore).

(** The application goes to the background before the first tick and comes
    back 100 seconds after the start; the user presses Terminate before the
    interval fires again. *)
Definition overshootThenTerminate : list event :=
  [Loaded; AppStateChange background 5000; AppStateChange active 101000;
   PressTerminate 101000 "k1" true].

(** The timer completes; the completion modal is dismissed with the back
    button; the user presses Terminate. *)
Definition completeThenTerminate : list event :=
  [Loaded; Tick 61000 "k1" true; RequestCloseCompletion;
   PressTerminate 62000 "k2" true].

(** The timer completes; the completion modal is dismissed with the back
    button; the user presses Resume and the interval fires once. *)
Definition completeThenResume : list event :=
  [Loaded; Tick 61000 "k1" true; RequestCloseCompletion;
   PressPauseResume 70000; Tick 71000 "k2" true].

(** A twenty-minute timer, five minutes in. *)
Definition fiveMinutesIn : TimerScreen.t * Store :=
  run [Loaded; Tick 301000 "k0" true]
      (mount "c_a" 20 active 1000, emptyStore).

(** Two courses and three sessions, in memory and in the store. *)
Definition courseA : Course.t := Course.mk "c_a" "Algebra" 1000 None.
Definition courseB : Course.t := Course.mk "c_b" "Biology" 2000 None.
Definition sessionA1 : Session.t := Session.mk "s__1" "c_a" 3000 300 1200 true.
Definition sessionB1 : Session.t := Session.mk "s__2" "c_b" 4000 600 600 false.
Definition sessionA2 : Session.t := Session.mk "s__3" "c_a" 5000 600 600 false.

Definition hookAB : UseStorage.t :=
  mkHook [courseA; courseB] [sessionA1; sessionB1; sessionA2] None.

Definition storeAB : Store :=
  mkStore (Some [courseA; courseB]) (Some [sessionA1; sessionB1; sessionA2]).

(** A session that starts at the given instant. *)
Definition sessionAt (startAt : Z) : Session.t :=
  Session.mk "s__x" "c__x" startAt 600 600 false.

(** The device of a user who has created the course [c_a] and recorded
    nothing yet: [addCourse] has written the course list, and the key of
    the sessions has never been written. *)
Definition storeA : Store := mkStore (Some [courseA]) None.

(** The one-minute timer for [c_a], opened at 1000 on that device. *)
Definition oneMinuteA : TimerScreen.t * Store :=
  (mount "c_a" 1 active 1000, storeA).

(** The one-minute timer for [c_a], opened at 10000 on the device that
    holds two courses and three sessions. *)
Definition oneMinuteAB : TimerScreen.t * Store :=
  (mount "c_a" 1 active 10000, storeAB).

(** The timer runs to its end without a pause. *)
Definition runToCompletion : list event :=
  [Loaded; Tick 70000 "k1" true].

(** Then the completion dialog is dismissed with the back button, Resume
    is pressed and the interval fires once. *)
Definition runToCompletionThenResume : list event :=
  runToCompletion
  ++ [RequestCloseCompletion; PressPauseResume 80000; Tick 81000 "k2" true].

(** The zone Europe/Berlin for the instants of the year 2025: one hour
    east of UTC until 30 March, 01:00 UTC, two hours until 26 October,
    01:00 UTC, one hour afterwards.  The wall-clock readings between 02:00
    and 03:00 that do not occur on 30 March, and those that occur twice on
    26 October, take the offset from before the change. *)
Definition berlin : JsDate.Zone :=
  JsDate.mkZone
    (fun t => if t <? 1743296400000 then 3600000
              else if t <? 1761440400000 then 7200000 else 3600000)
    (fun l => if l <? 1743296400000 + 7200000 then 3600000
              else if l <? 1761440400000 + 7200000 then 7200000
                   else 3600000).

(** Noon (UTC) of Monday 27 October 2025, the day after the clocks went
    back in that zone; day number 20388. *)
Definition noonOct27 : Z := 1761566400000.

(** Sessions started at 09:00 UTC on 27, 26 and 25 October 2025. *)
Definition sessionOct27 : Session.t := sessionAt 1761555600000.
Definition sessionOct26 : Session.t := sessionAt 1761469200000.
Definition sessionOct25 : Session.t := sessionAt 1761382800000.

End Scenario.

(** ** Events that leave a run in progress

    A tick before the target is reached, an app-state change and the end of
    the hook's load neither stop the timer nor move its start time or its
    target. *)

Module Inv.

Import TimerScreen.

Definition quiet (t0 target : Z) (e : event) : Prop :=
  match e with
  | Tick t _ _ => (t - t0) / 1000 < target
  | AppStateChange _ _ => True
  | Loaded => True
  | _ => False
  end.

(** The target of the screen is a whole number of minutes between 1 and
    480, as is the route parameter. *)
Definition validTarget (sc : TimerScreen.t) : Prop :=
  1 <= durationMinutes sc <= 480
  /\ exists m, 1 <= m <= 480
               /\ TimerState.targetSeconds (timerState sc)
                  = Utils.minutesToSeconds m.

End Inv.

(** ** The streak in the words of the specification

    The streak is the number of consecutive calendar days, counting backward
    from today, each containing at least one session, stopping at the first
    missing day.  Calendar days are those of the date part of the time
    stamps, which is in UTC. *)

Module StreakSpec.

(** The instant [iso] lies in the UTC calendar day of number [day]. *)
Definition onDay (iso day : Z) : Prop :=
  day * Utils.msPerDay <= iso < (day + 1) * Utils.msPerDay.

(** Some session starts on the calendar day [day]. *)
Definition hasSessionOn (sessions : list Session.t) (day : Z) : Prop :=
  exists s, In s sessions /\ onDay (Session.startAt s) day.

(** [k] days [today], [today - 1], ..., [today - (k - 1)] all have a session
    and the day [today - k] has none. *)
Definition isStreak (sessions : list Session.t) (today k : Z) : Prop :=
  0 <= k
  /\ (forall i, 0 <= i < k -> hasSessionOn sessions (today - i))
  /\ ~ hasSessionOn sessions (today - k).

(** The days [today], ..., [today - (n - 1)], as a list. *)
Fixpoint lastDays (today : Z) (n : nat) : list Z :=
  match n with
  | O => []
  | S n' => (today - Z.of_nat n') :: lastDays today n'
  end.

(** The two offsets that meet in iteration [i] of the loop: the one in
    force at the midnight (UTC) that begins [today], and the one in force
    at the wall-clock reading [i] days before the reading of that
    midnight. *)
Definition offsetToday (zone : JsDate.Zone) (today : Z) : Z :=
  JsDate.offsetAtUTC zone (Utils.dateFromDay today).

Definition offsetBack (zone : JsDate.Zone) (today i : Z) : Z :=
  JsDate.offsetAtLocal zone
    (JsDate.LocalTime zone (Utils.dateFromDay today) - i * Utils.msPerDay).

(** The offset [i] days back is today's, or below it by less than a day:
    the clocks were not set back in between. *)
Definition keepsDay (zone : JsDate.Zone) (today i : Z) : Prop :=
  0 <= offsetToday zone today - offsetBack zone today i < Utils.msPerDay.

(** The offset [i] days back is above today's, by a day at most: the clocks
    were set back in between. *)
Definition losesDay (zone : JsDate.Zone) (today i : Z) : Prop :=
  - Utils.msPerDay <= offsetToday zone today - offsetBack zone today i < 0.

(** The clocks were not set back over the [n] days that end today. *)
Definition keepsDays (zone : JsDate.Zone) (today n : Z) : Prop :=
  forall i, 0 <= i < n -> keepsDay zone today i.

End StreakSpec.

(** ** Text helpers

    [String.prototype.trim] on ASCII text, with the white space of
    [Utils.isWhiteSpace]. *)

Module Text.

(** [s.trimEnd ()] *)
Fixpoint trimEnd (s : string) : string :=
  match s with
  | EmptyString => EmptyString
  | String a r =>
      match trimEnd r with
      | EmptyString =>
          if Utils.isWhiteSpace a then EmptyString else String a EmptyString
      | r' => String a r'
      end
  end.

(** [s.trim ()] *)
Definition trim (s : string) : string := trimEnd (Utils.trimStart s).

(** [!s.trim ()]: the text is empty or white space only. *)
Definition blank (s : string) : bool := String.eqb (trim s) "".

(** Every character of the text satisfies [p]. *)
Fixpoint allChars (p : ascii -> bool) (s : string) : bool :=
  match s with
  | EmptyString => true
  | String a r => p a && allChars p r
  end.

(** The number of characters of the text that satisfy [p]. *)
Fixpoint countChars (p : ascii -> bool) (s : string) : nat :=
  match s with
  | EmptyString => O
  | String a r => ((if p a then 1 else 0) + countChars p r)%nat
  end.

End Text.

(** ** Display helpers ([lib/utils.ts])

    A quotient of two integers is the exact rational; [Math.floor],
    [Math.round] and [Math.ceil] of it are those of the rational. *)

Module Format.

(** [n.toString ()] for an integer. *)
Definition toString (n : Z) : string := NilZero.string_of_int (Z.to_int n).

(** [s.padStart (2, '0')] *)
Definition padStart2 (s : string) : string :=
  match String.length s with
  | O => "00"
  | S O => String "0" s
  | _ => s
  end.

(** The three numbers that [secondsToHms] prints; [%] is the remainder
    that takes the sign of the dividend. *)
Definition hmsHours (seconds : Z) : Z := seconds / 3600.
Definition hmsMinutes (seconds : Z) : Z := Z.rem seconds 3600 / 60.
Definition hmsSeconds (seconds : Z) : Z := Z.rem seconds 60.

Definition secondsToHms (seconds : Z) : string :=
  let hours := hmsHours seconds in
  let minutes := hmsMinutes seconds in
  let remainingSeconds := hmsSeconds seconds in
  if 0 <? hours
  then String.append (toString hours)
         (String.append ":"
            (String.append (padStart2 (toString minutes))
               (String.append ":" (padStart2 (toString remainingSeconds)))))
  else String.append (toString minutes)
         (String.append ":" (padStart2 (toString remainingSeconds))).

(** [Math.round x]: the integer nearest to [x], halves going up. *)
Definition round (x : Q) : Z := Qfloor (x + (1 # 2))%Q.

(** [secondsToMinutes seconds = Math.round (seconds / 60)] *)
Definition secondsToMinutes (seconds : Z) : Z :=
  round (inject_Z seconds / inject_Z 60)%Q.

(** [daysBetween date1 date2], on the instants of the two time stamps. *)
Definition daysBetween (date1 date2 : Z) : Z :=
  let diffTime := Z.abs (date2 - date1) in
  Qceiling (inject_Z diffTime / inject_Z (1000 * 60 * 60 * 24))%Q.

End Format.

(** ** E-mail validation ([lib/utils.ts])

    Regular expressions over the characters of ASCII text, matched by
    derivatives, and the expression of [isValidEmail]. *)

Module Email.

Inductive regex : Type :=
| Empty
| Eps
| Class (f : ascii -> bool)
| Seq (r1 r2 : regex)
| Alt (r1 r2 : regex)
| Star (r : regex).

(** [r+] *)
Definition Plus (r : regex) : regex := Seq r (Star r).

(** The expression matches the empty text. *)
Fixpoint nullable (r : regex) : bool :=
  match r with
  | Empty => false
  | Eps => true
  | Class _ => false
  | Seq r1 r2 => nullable r1 && nullable r2
  | Alt r1 r2 => nullable r1 || nullable r2
  | Star _ => true
  end.

(** What remains to be matched after the character [a]. *)
Fixpoint deriv (a : ascii) (r : regex) : regex :=
  match r with
  | Empty => Empty
  | Eps => Empty
  | Class f => if f a then Eps else Empty
  | Seq r1 r2 =>
      if nullable r1
      then Alt (Seq (deriv a r1) r2) (deriv a r2)
      else Seq (deriv a r1) r2
  | Alt r1 r2 => Alt (deriv a r1) (deriv a r2)
  | Star r1 => Seq (deriv a r1) (Star r1)
  end.

(** [/^r$/.test (s)]: the whole text matches. *)
Fixpoint test (r : regex) (s : string) : bool :=
  match s with
  | EmptyString => nullable r
  | String a t => test (deriv a r) t
  end.

(** The texts an expression denotes. *)
Inductive Matches : regex -> string -> Prop :=
| MEps : Matches Eps EmptyString
| MClass f a : f a = true -> Matches (Class f) (String a EmptyString)
| MSeq r1 r2 s1 s2 :
    Matches r1 s1 -> Matches r2 s2 -> Matches (Seq r1 r2) (String.append s1 s2)
| MAltL r1 r2 s : Matches r1 s -> Matches (Alt r1 r2) s
| MAltR r1 r2 s : Matches r2 s -> Matches (Alt r1 r2) s
| MStarNil r : Matches (Star r) EmptyString
| MStarApp r s1 s2 :
    Matches r s1 -> Matches (Star r) s2 -> Matches (Star r) (String.append s1 s2).

(** [[^\s@]] *)
Definition notSpaceOrAt (a : ascii) : bool :=
  negb (Utils.isWhiteSpace a || Ascii.eqb a "@").

(** [/^[^\s@]+@[^\s@]+\.[^\s@]+$/] *)
Definition emailRegex : regex :=
  Seq (Plus (Class notSpaceOrAt))
      (Seq (Class (Ascii.eqb "@"))
           (Seq (Plus (Class notSpaceOrAt))
                (Seq (Class (Ascii.eqb "."))
                     (Plus (Class notSpaceOrAt))))).

Definition isValidEmail (email : string) : bool := test emailRegex email.

(** A non-empty text without white space and without [@]. *)
Definition word (s : string) : Prop :=
  s <> EmptyString /\ Text.allChars notSpaceOrAt s = true.

End Email.

(** ** Course operations of the storage hook ([hooks/useStorage.tsx]) *)

Module CourseOps.

Import UseStorage.

Definition palette : list string :=
  ["#FF6B6B"; "#4ECDC4"; "#FFD166"; "#6C63FF"; "#FF8C42"].

(** [addCourse name]: [pick] is [Math.floor (Math.random () * 5)], [w]
    tells whether the write resolves. *)
Definition addCourse (w : bool) (stamp : string) (now : Z) (pick : nat)
           (name : string) (h : t) (st : Store) : t * Store * outcome :=
  let assignedColor := nth_error palette pick in
  let newCourse :=
    Course.mk (Utils.uid "c_" stamp) (Text.trim name) (Utils.isoNow now)
              assignedColor in
  let updatedCourses := courses h ++ [newCourse] in
  let h1 := setCourses updatedCourses h in
  if w
  then (h1, mkStore (Some updatedCourses) (SESSIONS st), Resolved)
  else (setError (Some "Failed to add course") h1, st, Rejected).

(** [Partial<Course>]: the fields that are present. *)
Record Updates : Type := mkUpdates {
  u_id : option string;
  u_name : option string;
  u_createdAt : option Z;
  u_color : option string
}.

(** [{ ...course, ...updates }] *)
Definition merge (course : Course.t) (updates : Updates) : Course.t :=
  Course.mk
    (match u_id updates with Some v => v | None => Course.id course end)
    (match u_name updates with Some v => v | None => Course.name course end)
    (match u_createdAt updates with
     | Some v => v
     | None => Course.createdAt course
     end)
    (match u_color updates with
     | Some v => Some v
     | None => Course.color course
     end).

(** [updateCourse id updates] *)
Definition updateCourse (w : bool) (id : string) (updates : Updates)
           (h : t) (st : Store) : t * Store * outcome :=
  let updatedCourses :=
    map (fun course =>
           if String.eqb (Course.id course) id
           then merge course updates else course)
        (courses h) in
  let h1 := setCourses updatedCourses h in
  if w
  then (h1, mkStore (Some updatedCourses) (SESSIONS st), Resolved)
  else (setError (Some "Failed to update course") h1, st, Rejected).

(** The operations of the hook on courses and sessions, each with the
    outcome of its writes, and the reload. *)
Inductive op : Type :=
| AddCourse (stamp : string) (now : Z) (pick : nat) (name : string)
| UpdateCourse (id : string) (updates : Updates)
| RemoveCourse (id : string)
| AddSession (stamp : string) (sessionData : SessionData)
| Reload.

(** One operation whose writes all resolve. *)
Definition apply (o : op) (x : t * Store) : t * Store :=
  let '(h, st) := x in
  match o with
  | AddCourse stamp now pick name =>
      fst (addCourse true stamp now pick name h st)
  | UpdateCourse id updates => fst (updateCourse true id updates h st)
  | RemoveCourse id => fst (removeCourse true true id h st)
  | AddSession stamp sessionData => fst (addSession true stamp sessionData h st)
  | Reload => (loadData h st, st)
  end.

(** The in-memory lists are what the store holds, an absent key counting
    as an empty list. *)
Definition mirrors (h : t) (st : Store) : Prop :=
  persistedCourses st = courses h /\ persisted st = sessions h.

(** Some course of the list has the id. *)
Definition hasCourse (cs : list Course.t) (id : string) : Prop :=
  exists c, In c cs /\ Course.id c = id.

End CourseOps.

(** ** Several screens over one store

    [useStorage] keeps its lists in [useState] cells, so every component
    that calls it has lists of its own, loaded once by the mount effect,
    over the same [AsyncStorage] keys.  The home screen stays mounted under
    the timer screen; a write made through one instance is not seen by the
    others until they load again. *)

Module Screens.

Import UseStorage CourseOps.

(** The hook instances of the mounted screens, by position, and the
    store they share. *)
Definition world : Type := (list UseStorage.t * Store)%type.

(** [n] instances that have not loaded yet. *)
Definition fresh (n : nat) : list UseStorage.t := repeat UseStorage.initial n.

Fixpoint setNth (i : nat) (h : UseStorage.t) (hs : list UseStorage.t)
  : list UseStorage.t :=
  match hs, i with
  | [], _ => []
  | _ :: rest, O => h :: rest
  | x :: rest, S j => x :: setNth j h rest
  end.

(** The instance at position [i] performs one operation, its writes
    resolving; the other instances keep their lists. *)
Definition act (a : nat * op) (x : world) : world :=
  let '(i, o) := a in
  let '(hs, st) := x in
  match nth_error hs i with
  | Some h => let '(h', st') := apply o (h, st) in (setNth i h' hs, st')
  | None => x
  end.

Definition acts (l : list (nat * op)) (x : world) : world :=
  fold_left (fun acc a => act a acc) l x.

(** The instance at position [i]. *)
Definition instance (i : nat) (x : world) : UseStorage.t :=
  nth i (fst x) UseStorage.initial.

Definition mirrorsCourses (h : UseStorage.t) (st : Store) : Prop :=
  persistedCourses st = courses h.

Definition mirrorsSessions (h : UseStorage.t) (st : Store) : Prop :=
  persisted st = sessions h.

(** The keys that an operation writes or loads. *)
Definition touchesCourses (o : op) : bool :=
  match o with
  | AddSession _ _ => false
  | _ => true
  end.

Definition touchesSessions (o : op) : bool :=
  match o with
  | AddCourse _ _ _ _ | UpdateCourse _ _ => false
  | _ => true
  end.

(** A key that was never written is an empty list in every instance. *)
Definition unwrittenEmpty (x : world) : Prop :=
  forall h, In h (fst x) ->
    (COURSES (snd x) = None -> courses h = [])
    /\ (SESSIONS (snd x) = None -> sessions h = []).

(** The home screen (position 0) and a timer screen (position 1) on a
    device that holds the courses [c_a] and [c_b] and one session of
    [c_a], a ten-minute run completed at the instant 700000. *)
Definition home : nat := 0.
Definition timer : nat := 1.

Definition sessionOfA : Session.t :=
  Session.mk "s__1" "c_a" 700000 600 600 false.

Definition storeBefore : Store :=
  mkStore (Some [Scenario.courseA; Scenario.courseB]) (Some [sessionOfA]).

(** What [handleTerminate] passes to [addSession] when a ten-minute run
    for [c_b] is terminated at the instant 1100000 with five minutes
    elapsed, and the record that results. *)
Definition terminatedB : SessionData := mkData "c_b" 1100000 300 600 true.

Definition sessionOfB : Session.t :=
  Session.mk "s__2" "c_b" 1100000 300 600 true.

(** Both screens load; the session of [c_b] is recorded through the timer
    screen. *)
Definition recordOnTimerScreen : list (nat * op) :=
  [(home, Reload); (timer, Reload); (timer, AddSession "2" terminatedB)].

End Screens.

(** ** The home screen ([screens/HomeScreen.tsx]) *)

Module HomeScreen.

Import UseStorage.

(** [handleAddCourse]: [None] is the alert "Please enter a course name",
    with no call to the hook. *)
Definition handleAddCourse (w : bool) (stamp : string) (now : Z) (pick : nat)
           (newCourseName : string) (h : t) (st : Store)
  : option (t * Store * outcome) :=
  if Text.blank newCourseName then None
  else Some (CourseOps.addCourse w stamp now pick (Text.trim newCourseName)
                                 h st).

(** The confirm button of the rename modal: [None] is the early return. *)
Definition confirmRename (w : bool) (renameCourseId : option string)
           (renameValue renameColor : string) (h : t) (st : Store)
  : option (t * Store * outcome) :=
  let name := Text.trim renameValue in
  match renameCourseId with
  | None => None
  | Some id =>
      if String.eqb name "" || String.eqb id "" then None
      else Some (CourseOps.updateCourse w id
                   (CourseOps.mkUpdates None (Some name) None
                                        (Some renameColor)) h st)
  end.

(** [session.durationMinutes]: a [Session] has no such property, the read
    gives [undefined]. *)
Definition durationMinutes (session : Session.t) : option Z := None.

(** [totalMinutes[course.id]]: the sum of [session.durationMinutes || 0]
    over the sessions of the course. *)
Definition totalMinutesForCourse (sessions : list Session.t)
           (course : Course.t) : Z :=
  let courseSessions :=
    filter (fun s => String.eqb (Session.courseId s) (Course.id course))
           sessions in
  fold_left
    (fun sum session =>
       sum + match durationMinutes session with
             | Some v => if v =? 0 then 0 else v
             | None => 0
             end)
    courseSessions 0.

End HomeScreen.

(** ** Statistics of the course screen ([screens/CourseScreen.tsx]) *)

Module CourseStats.

Definition courseSessions (localSessions : list Session.t) (courseId : string)
  : list Session.t :=
  filter (fun s => String.eqb (Session.courseId s) courseId) localSessions.

(** The sessions listed under "Recent Sessions":
    [courseSessions.slice (0, 5)]. *)
Definition listedSessions (courseSessions : list Session.t)
  : list Session.t :=
  firstn 5 courseSessions.

(** The sessions of the course that are not listed. *)
Definition unlistedSessions (courseSessions : list Session.t)
  : list Session.t :=
  skipn 5 courseSessions.

(** The list is in the order of its time stamps. *)
Fixpoint chronological (l : list Session.t) : Prop :=
  match l with
  | [] => True
  | s :: r =>
      (forall s', In s' r -> Session.startAt s <= Session.startAt s')
      /\ chronological r
  end.

End CourseStats.

(** ** The analytics screen ([screens/AnalyticsScreen.tsx]) *)

Module Analytics.

(** An entry of [courseStats]; the start value of the [reduce] that finds
    the most studied course has [course: null]. *)
Record Stat : Type := mkStat {
  course : option Course.t;
  time : Z;
  sessionCount : nat
}.

Definition totalStudyTime (sessions : list Session.t) : Z :=
  fold_left (fun sum session => sum + Session.durationSeconds session)
            sessions 0.

Definition totalSessions (sessions : list Session.t) : nat :=
  List.length sessions.

Definition fullSessions (sessions : list Session.t) : nat :=
  List.length (filter (fun s => negb (Session.isPartial s)) sessions).

Definition partialSessions (sessions : list Session.t) : nat :=
  List.length (filter (fun s => Session.isPartial s) sessions).

Definition courseStats (courses : list Course.t) (sessions : list Session.t)
  : list Stat :=
  map (fun c =>
         let courseSessions :=
           filter (fun s => String.eqb (Session.courseId s) (Course.id c))
                  sessions in
         let courseTime :=
           fold_left (fun sum s => sum + Session.durationSeconds s)
                     courseSessions 0 in
         mkStat (Some c) courseTime (List.length courseSessions))
      courses.

Definition noCourse : Stat := mkStat None 0 O.

Definition mostStudiedCourse (stats : list Stat) : Stat :=
  fold_left (fun max current => if time max <? time current then current else max)
            stats noCourse.

End Analytics.

(** ** The sign-in screen ([screens/AuthScreen.tsx]) *)

Module AuthScreen.

(** [User] of [types/index.ts]. *)
Record User : Type := mkUser {
  id : string;
  email : string;
  name : option string;
  createdAt : Z
}.

(** What [handleAuth] does after its checks: an alert, or the user record
    it hands to [setUser]. *)
Inductive result : Type :=
| Alert (message : string)
| SetUser (user : User).

Definition handleAuth (isLogin : bool) (email password name : string)
           (stamp : string) (now : Z) : result :=
  if Text.blank email || Text.blank password
  then Alert "Please fill in all fields"
  else if negb (Email.isValidEmail email)
  then Alert "Please enter a valid email address"
  else if negb isLogin && Text.blank name
  then Alert "Please enter your name"
  else SetUser (mkUser (Utils.uid "u_" stamp) (Text.trim email)
                       (if Text.blank name then None else Some (Text.trim name))
                       (Utils.isoNow now)).

End AuthScreen.

(** ** Sums *)

Module Sum.

(** The sum of a list of integers. *)
Fixpoint sumZ (l : list Z) : Z :=
  match l with
  | [] => 0
  | x :: r => x + sumZ r
  end.

End Sum.

(** ** Elapsed and remaining time of a run *)

Module TimerFacts.

(** Elapsed and remaining seconds add up to the target. *)
Definition balanced (ts : TimerState.t) : Prop :=
  TimerState.elapsedSeconds ts + TimerState.remainingSeconds ts
  = TimerState.targetSeconds ts.

End TimerFacts.

(** * Properties *)

(** ** Streak *)

Section Streak.

Import Utils StreakSpec.

Lemma includes_In (d : Z) (l : list Z) : includes d l = true <-> In d l.
Proof.
  unfold includes. rewrite existsb_exists. split.
  - intros [x [Hin Heq]]. apply Z.eqb_eq in Heq. now subst.
  - intros Hin. exists d. split; [assumption | apply Z.eqb_refl].
Qed.

Lemma includes_false (d : Z) (l : list Z) : includes d l = false <-> ~ In d l.
Proof.
  rewrite <- includes_In. destruct (includes d l); split; intros; congruence.
Qed.

(** The accumulator of [setOf]: membership and absence of repetition. *)
Lemma setOf_acc (l acc : list Z) :
  let r := fold_left
             (fun acc d => if includes d acc then acc else acc ++ [d]) l acc in
  (forall d, In d r <-> In d acc \/ In d l) /\ (NoDup acc -> NoDup r).
Proof.
  revert acc. induction l as [|x l IH]; intros acc; cbn.
  - split; [intros d; tauto | trivial].
  - destruct (includes x acc) eqn:E.
    + destruct (IH acc) as [Hin Hnd]. split; [|exact Hnd].
      intros d. rewrite Hin. apply includes_In in E.
      split; [tauto|]. intros [H|[H|H]]; subst; tauto.
    + destruct (IH (acc ++ [x])) as [Hin Hnd]. split.
      * intros d. rewrite Hin, in_app_iff. cbn. tauto.
      * intros Hacc. apply Hnd. apply includes_false in E.
        apply NoDup_app; [assumption | repeat constructor; cbn; tauto |].
        intros a Ha [Hx|[]]. subst. contradiction.
Qed.

Lemma setOf_In (l : list Z) (d : Z) : In d (setOf l) <-> In d l.
Proof.
  destruct (setOf_acc l []) as [H _]. unfold setOf. rewrite H. cbn. tauto.
Qed.

Lemma setOf_NoDup (l : list Z) : NoDup (setOf l).
Proof.
  destruct (setOf_acc l []) as [_ H]. apply H. constructor.
Qed.

Lemma insertSorted_perm (d : Z) (l : list Z) :
  Permutation (insertSorted d l) (d :: l).
Proof.
  induction l as [|x l IH]; cbn; [reflexivity|].
  destruct (d <=? x); [reflexivity|].
  rewrite IH. apply perm_swap.
Qed.

Lemma sort_perm (l : list Z) : Permutation (sort l) l.
Proof.
  induction l as [|x l IH]; cbn; [constructor|].
  rewrite insertSorted_perm. now constructor.
Qed.

(** The date part of a time stamp is the number of the day it lies in. *)
Lemma dateOf_onDay (iso day : Z) : dateOf iso = day <-> onDay iso day.
Proof.
  unfold dateOf, onDay, msPerDay. split.
  - intros <-. pose proof (Z.mul_div_le iso 86400000).
    pose proof (Z.mul_succ_div_gt iso 86400000). lia.
  - intros H. symmetry.
    apply Z.div_unique with (r := iso - 86400000 * day); lia.
Qed.

(** The instant inspected in iteration [i]: the midnight [i] days before
    the one that begins today, moved by the difference of the two
    offsets. *)
Lemma expectedDate_offsets (zone : JsDate.Zone) (today i : Z) :
  setDateBack zone (dateFromDay today) i
  = (today - i) * msPerDay
    + (offsetToday zone today - offsetBack zone today i).
Proof.
  unfold setDateBack, offsetToday, offsetBack, JsDate.UTC, JsDate.LocalTime,
    dateFromDay. cbn zeta. ring.
Qed.

(** When the clocks were not set back in between, the date expected at
    iteration [i] is the day [i] days before today. *)
Lemma expectedDate_day (zone : JsDate.Zone) (today i : Z) :
  keepsDay zone today i ->
  dateOf (setDateBack zone (dateFromDay today) i) = today - i.
Proof.
  intros H. apply dateOf_onDay. rewrite expectedDate_offsets.
  unfold keepsDay, onDay, msPerDay in *. lia.
Qed.

(** When they were, it is the day before that one. *)
Lemma expectedDate_day_lost (zone : JsDate.Zone) (today i : Z) :
  losesDay zone today i ->
  dateOf (setDateBack zone (dateFromDay today) i) = today - i - 1.
Proof.
  intros H. apply dateOf_onDay. rewrite expectedDate_offsets.
  unfold losesDay, onDay, msPerDay in *. lia.
Qed.

Lemma fixedZone_keepsDay (off today i : Z) :
  keepsDay (JsDate.fixedZone off) today i.
Proof.
  unfold keepsDay, offsetToday, offsetBack, msPerDay. cbn. lia.
Qed.

(** The loop never counts more than its bound. *)
Lemma streakLoop_bound (zone : JsDate.Zone) (U : list Z) (today : Z)
      (n : nat) (i streak : Z) :
  streak <= streakLoop zone U today n i streak <= streak + Z.of_nat n.
Proof.
  revert i streak. induction n as [|n IH]; intros i streak; cbn [streakLoop].
  - lia.
  - cbn zeta. destruct (includes _ U); [|lia].
    specialize (IH (i + 1) (streak + 1)). lia.
Qed.

(** The loop reads its list of dates only through [includes]. *)
Lemma streakLoop_ext (zone : JsDate.Zone) (U U' : list Z) (today : Z)
      (n : nat) (i streak : Z) :
  (forall d, In d U <-> In d U') ->
  streakLoop zone U today n i streak = streakLoop zone U' today n i streak.
Proof.
  intros Hsame. revert i streak.
  induction n as [|n IH]; intros i streak; cbn [streakLoop]; [reflexivity|].
  cbn zeta.
  assert (E : forall d, includes d U = includes d U').
  { intros d. destruct (includes d U') eqn:E'.
    - apply includes_In. apply Hsame. now apply includes_In.
    - apply includes_false. intros Hin. apply includes_false in E'.
      apply E'. now apply Hsame. }
  rewrite E. destruct (includes _ U'); [apply IH | reflexivity].
Qed.

(** Over days that the zone keeps, the loop counts in step with its
    counter, stops at the first day that is missing, and is cut only by its
    bound. *)
Lemma streakLoop_spec (zone : JsDate.Zone) (U : list Z) (today : Z)
      (n : nat) (i : Z) :
  (forall j, i <= j < i + Z.of_nat n -> keepsDay zone today j) ->
  (forall j, 0 <= j < i -> In (today - j) U) ->
  let k := streakLoop zone U today n i i in
  i <= k <= i + Z.of_nat n
  /\ (forall j, 0 <= j < k -> In (today - j) U)
  /\ (k < i + Z.of_nat n -> ~ In (today - k) U).
Proof.
  revert i. induction n as [|n IH]; intros i Hkeep Hpre; cbn [streakLoop].
  - cbn. repeat split; try lia. exact Hpre.
  - cbn zeta. rewrite expectedDate_day by (apply Hkeep; lia).
    destruct (includes (today - i) U) eqn:E.
    + apply includes_In in E.
      assert (Hpre' : forall j, 0 <= j < i + 1 -> In (today - j) U).
      { intros j Hj. destruct (Z.eq_dec j i) as [->|]; [assumption|].
        apply Hpre. lia. }
      assert (Hkeep' : forall j, i + 1 <= j < i + 1 + Z.of_nat n ->
                                 keepsDay zone today j).
      { intros j Hj. apply Hkeep. lia. }
      specialize (IH (i + 1) Hkeep' Hpre'). cbn zeta in IH.
      destruct IH as (Hb & Hall & Hstop).
      repeat split; try lia; [exact Hall|].
      intros Hlt. apply Hstop. lia.
    + apply includes_false in E. cbn zeta.
      repeat split; try lia; [exact Hpre|]. intros _. exact E.
Qed.

Lemma lastDays_In (today : Z) (n : nat) (d : Z) :
  In d (lastDays today n) <-> exists j, 0 <= j < Z.of_nat n /\ d = today - j.
Proof.
  induction n as [|n IH]; cbn [lastDays In].
  - split; [tauto | intros (j & Hj & _); lia].
  - rewrite IH. split.
    + intros [H|(j & Hj & H)]; [exists (Z.of_nat n) | exists j]; split;
        try lia; congruence.
    + intros (j & Hj & H). destruct (Z.eq_dec j (Z.of_nat n)) as [->|];
        [left; congruence | right; exists j; split; [lia | assumption]].
Qed.

Lemma lastDays_NoDup (today : Z) (n : nat) : NoDup (lastDays today n).
Proof.
  induction n as [|n IH]; cbn [lastDays]; constructor; [|assumption].
  rewrite lastDays_In. intros (j & Hj & H). lia.
Qed.

Lemma lastDays_length (today : Z) (n : nat) :
  List.length (lastDays today n) = n.
Proof. induction n; cbn; congruence. Qed.

(** When the loop ran to its bound, the distinct dates are exactly the last
    [length U] days, so the next day back is not among them. *)
Lemma streak_bound_exact (U : list Z) (today : Z) :
  NoDup U ->
  (forall j, 0 <= j < Z.of_nat (List.length U) -> In (today - j) U) ->
  ~ In (today - Z.of_nat (List.length U)) U.
Proof.
  intros HU Hall Hin.
  assert (Hincl : incl (lastDays today (List.length U)) U).
  { intros d Hd. apply lastDays_In in Hd. destruct Hd as (j & Hj & ->).
    now apply Hall. }
  assert (Hback : incl U (lastDays today (List.length U))).
  { apply NoDup_length_incl; [apply lastDays_NoDup | | assumption].
    rewrite lastDays_length. lia. }
  apply Hback, lastDays_In in Hin. destruct Hin as (j & Hj & H). lia.
Qed.

Lemma uniqueDates_In (sessions : list Session.t) (d : Z) :
  In d (sort (setOf (map (fun s => dateOf (Session.startAt s)) sessions)))
  <-> hasSessionOn sessions d.
Proof.
  unfold hasSessionOn. split.
  - intros H. apply (Permutation_in _ (sort_perm _)) in H.
    apply setOf_In, in_map_iff in H. destruct H as (s & Hs & Hin).
    exists s. split; [assumption | now apply dateOf_onDay].
  - intros (s & Hin & Hs).
    apply (Permutation_in _ (Permutation_sym (sort_perm _))).
    apply setOf_In, in_map_iff. exists s.
    split; [now apply dateOf_onDay | assumption].
Qed.

Lemma uniqueDates_NoDup (sessions : list Session.t) :
  NoDup (sort (setOf (map (fun s => dateOf (Session.startAt s)) sessions))).
Proof.
  apply (Permutation_NoDup (Permutation_sym (sort_perm _))), setOf_NoDup.
Qed.

Lemma setOf_length (l : list Z) : (List.length (setOf l) <= List.length l)%nat.
Proof.
  apply NoDup_incl_length; [apply setOf_NoDup|].
  intros d Hd. now apply setOf_In.
Qed.

Lemma uniqueDates_length (sessions : list Session.t) :
  (List.length
     (sort (setOf (map (fun s => dateOf (Session.startAt s)) sessions)))
   <= List.length sessions)%nat.
Proof.
  rewrite (Permutation_length (sort_perm _)).
  etransitivity; [apply setOf_length|]. now rewrite length_map.
Qed.

Lemma isStreak_unique (sessions : list Session.t) (today k1 k2 : Z) :
  isStreak sessions today k1 -> isStreak sessions today k2 -> k1 = k2.
Proof.
  intros (H1 & A1 & N1) (H2 & A2 & N2).
  destruct (Z.lt_trichotomy k1 k2) as [Hlt|[Heq|Hgt]]; [|assumption|].
  - exfalso. apply N1, A2. lia.
  - exfalso. apply N2, A1. lia.
Qed.

(** In a zone whose clocks were not set back over the days inspected,
    [calculateStreak] is the streak of the specification. *)
Lemma calculateStreak_isStreak (zone : JsDate.Zone) (now : Z)
      (sessions : list Session.t) :
  keepsDays zone (dateOf now) (Z.of_nat (List.length sessions)) ->
  isStreak sessions (dateOf now) (calculateStreak zone now sessions).
Proof.
  intros Hkeep.
  unfold calculateStreak. destruct sessions as [|s0 rest] eqn:Es.
  - cbn. repeat split; try lia. intros (s & [] & _).
  - rewrite <- Es in *. replace (List.length sessions =? 0)%nat with false
      by (subst; reflexivity).
    pose proof (uniqueDates_length sessions) as Hlen.
    set (U := sort (setOf (map (fun s => dateOf (Session.startAt s)) sessions)))
      in *.
    destruct (streakLoop_spec zone U (dateOf now) (List.length U) 0)
      as (Hb & Hall & Hstop).
    { intros j Hj. apply Hkeep. lia. }
    { intros j Hj. lia. }
    set (k := streakLoop zone U (dateOf now) (List.length U) 0 0) in *.
    split; [lia|]. split.
    + intros i Hi. apply uniqueDates_In. now apply Hall.
    + intros Hhas. apply uniqueDates_In in Hhas. fold U in Hhas.
      destruct (Z.eq_dec k (Z.of_nat (List.length U))) as [Hk|Hk].
      * rewrite Hk in Hhas, Hall.
        revert Hhas. apply streak_bound_exact; [apply uniqueDates_NoDup | exact Hall].
      * apply Hstop; [lia | assumption].
Qed.

(** With sessions today and yesterday and none the day before, in a zone
    whose clocks were set back between the two days: the first iteration
    finds today, the second looks for the day before yesterday, and the
    loop stops at one. *)
Lemma calculateStreak_after_clocks_went_back (zone : JsDate.Zone) (now : Z)
      (sessions : list Session.t) :
  keepsDay zone (dateOf now) 0 ->
  losesDay zone (dateOf now) 1 ->
  hasSessionOn sessions (dateOf now) ->
  hasSessionOn sessions (dateOf now - 1) ->
  ~ hasSessionOn sessions (dateOf now - 2) ->
  calculateStreak zone now sessions = 1.
Proof.
  intros Hk0 Hl1 H0 H1 H2. unfold calculateStreak.
  destruct sessions as [|s0 rest] eqn:Es.
  - destruct H0 as (s & [] & _).
  - rewrite <- Es in *. replace (List.length sessions =? 0)%nat with false
      by (subst; reflexivity).
    pose proof (uniqueDates_NoDup sessions) as Hnd.
    set (U := sort (setOf (map (fun s => dateOf (Session.startAt s)) sessions)))
      in *.
    apply uniqueDates_In in H0, H1. fold U in H0, H1.
    assert (HU2 : ~ In (dateOf now - 2) U).
    { intros Hin. apply H2. now apply uniqueDates_In. }
    assert (Hlen : (2 <= List.length U)%nat).
    { apply (NoDup_incl_length (l := [dateOf now; dateOf now - 1])).
      - repeat constructor; cbn; [lia | tauto].
      - intros d [<-|[<-|[]]]; assumption. }
    destruct (List.length U) as [|[|n]]; try lia.
    cbn [streakLoop]. cbn zeta.
    rewrite (expectedDate_day zone (dateOf now) 0) by assumption.
    rewrite Z.sub_0_r.
    replace (includes (dateOf now) U) with true
      by (symmetry; now apply includes_In).
    rewrite (expectedDate_day_lost zone (dateOf now) (0 + 1)) by assumption.
    replace (dateOf now - (0 + 1) - 1) with (dateOf now - 2) by lia.
    replace (includes (dateOf now - 2) U) with false
      by (symmetry; now apply includes_false).
    reflexivity.
Qed.

End Streak.

(** C9: the run that breaks the count.  On a device in the zone
    Europe/Berlin, at noon (UTC) of 27 October 2025, the day after the
    clocks went back: with sessions on the 27th and the 26th and none on
    the 25th, the streak of the claim is 2 and [calculateStreak] returns 1;
    with sessions on the 27th and the 25th and none on the 26th, the streak
    of the claim is 1 and [calculateStreak] returns 2.  The date that the
    second iteration looks for is the 25th, not the 26th.  The same happens
    in every zone and on every day on which the offset of a day earlier is
    above today's: sessions today and yesterday and none the day before
    give 1. *)
Theorem C9_calculateStreak_skips_a_day_after_the_clocks_went_back :
  let now := Scenario.noonOct27 in
  let today := Utils.dateOf now in
  let lastTwoDays := [Scenario.sessionOct27; Scenario.sessionOct26] in
  let withGap := [Scenario.sessionOct27; Scenario.sessionOct25] in
  today = 20388
  /\ StreakSpec.isStreak lastTwoDays today 2
  /\ Utils.calculateStreak Scenario.berlin now lastTwoDays = 1
  /\ StreakSpec.isStreak withGap today 1
  /\ Utils.calculateStreak Scenario.berlin now withGap = 2
  /\ Utils.dateOf
       (Utils.setDateBack Scenario.berlin (Utils.dateFromDay today) 1)
     = today - 2
  /\ StreakSpec.keepsDay Scenario.berlin today 0
  /\ StreakSpec.losesDay Scenario.berlin today 1
  /\ (forall zone now' sessions,
        StreakSpec.keepsDay zone (Utils.dateOf now') 0 ->
        StreakSpec.losesDay zone (Utils.dateOf now') 1 ->
        StreakSpec.isStreak sessions (Utils.dateOf now') 2 ->
        Utils.calculateStreak zone now' sessions = 1).
Proof.
  cbn zeta.
  assert (Htoday : Utils.dateOf Scenario.noonOct27 = 20388) by reflexivity.
  rewrite Htoday.
  assert (H27 : StreakSpec.onDay (Session.startAt Scenario.sessionOct27) 20388)
    by (unfold StreakSpec.onDay, Utils.msPerDay; cbn; lia).
  assert (H26 : StreakSpec.onDay (Session.startAt Scenario.sessionOct26) 20387)
    by (unfold StreakSpec.onDay, Utils.msPerDay; cbn; lia).
  assert (H25 : StreakSpec.onDay (Session.startAt Scenario.sessionOct25) 20386)
    by (unfold StreakSpec.onDay, Utils.msPerDay; cbn; lia).
  split; [reflexivity|].
  split.
  { split; [lia|]. split.
    - intros i Hi. assert (i = 0 \/ i = 1) as [->| ->] by lia.
      + exists Scenario.sessionOct27. split; [now left | exact H27].
      + exists Scenario.sessionOct26. split; [right; now left | exact H26].
    - intros (s & [<-|[<-|[]]] & H);
        unfold StreakSpec.onDay, Utils.msPerDay in H; cbn in H; lia. }
  split; [vm_compute; reflexivity|].
  split.
  { split; [lia|]. split.
    - intros i Hi. assert (i = 0) as -> by lia.
      exists Scenario.sessionOct27. split; [now left | exact H27].
    - intros (s & [<-|[<-|[]]] & H);
        unfold StreakSpec.onDay, Utils.msPerDay in H; cbn in H; lia. }
  split; [vm_compute; reflexivity|].
  split; [vm_compute; reflexivity|].
  split; [vm_compute; split; [discriminate | reflexivity]|].
  split; [vm_compute; split; [discriminate | reflexivity]|].
  intros zone now' sessions Hk Hl (_ & Hall & Hstop).
  apply calculateStreak_after_clocks_went_back; try assumption.
  - rewrite <- (Z.sub_0_r (Utils.dateOf now')). apply Hall. lia.
  - apply Hall. lia.
Qed.

(** The four cases of the specification on the second of November 2025
    (day 20394), in a zone that stays one hour east of UTC, with sessions
    recorded one hour into a day. *)
Example streak_empty :
  Utils.calculateStreak (JsDate.fixedZone 3600000) 1762077600000 [] = 0.
Proof. reflexivity. Qed.

Example streak_today :
  Utils.calculateStreak (JsDate.fixedZone 3600000) 1762077600000
    [Scenario.sessionAt 1762045200000] = 1.
Proof. vm_compute. reflexivity. Qed.

Example streak_today_and_yesterday :
  Utils.calculateStreak (JsDate.fixedZone 3600000) 1762077600000
    [Scenario.sessionAt 1761613200000; Scenario.sessionAt 1761958800000;
     Scenario.sessionAt 1762045200000; Scenario.sessionAt 1762048800000] = 2.
Proof. vm_compute. reflexivity. Qed.

Example streak_yesterday_only :
  Utils.calculateStreak (JsDate.fixedZone 3600000) 1762077600000
    [Scenario.sessionAt 1761958800000] = 0.
Proof. vm_compute. reflexivity. Qed.

(** The day numbers of three dates: 1 January 1970, 27 October 2025 at
    its first and at its last millisecond. *)
Example dateOf_epoch : Utils.dateOf 0 = 0.
Proof. reflexivity. Qed.

Example dateOf_first_ms : Utils.dateOf 1761523200000 = 20388.
Proof. reflexivity. Qed.

Example dateOf_last_ms : Utils.dateOf 1761609599999 = 20388.
Proof. reflexivity. Qed.

(** ** The storage hook *)

Section Hook.

Import UseStorage.

Lemma filter_not_course_In (id : string) (ss : list Session.t) (s : Session.t) :
  In s (filter (fun session => negb (String.eqb (Session.courseId session) id)) ss)
  <-> In s ss /\ Session.courseId s <> id.
Proof.
  rewrite filter_In, negb_true_iff.
  destruct (String.eqb_spec (Session.courseId s) id); split; intros [H1 H2];
    split; congruence.
Qed.

Lemma filter_not_id_In (id : string) (cs : list Course.t) (c : Course.t) :
  In c (filter (fun course => negb (String.eqb (Course.id course) id)) cs)
  <-> In c cs /\ Course.id c <> id.
Proof.
  rewrite filter_In, negb_true_iff.
  destruct (String.eqb_spec (Course.id c) id); split; intros [H1 H2];
    split; congruence.
Qed.

Lemma app_one_neq {A : Type} (l : list A) (x : A) : l <> l ++ [x].
Proof.
  intros H. apply (f_equal (@List.length A)) in H.
  rewrite length_app in H. cbn in H. lia.
Qed.

End Hook.

(** What [removeCourse id] leaves in the store when both writes resolve
    is decided by the lists of its hook instance: the sessions of the
    instance that belong to another course, and the courses of the instance
    with another id. *)
Lemma removeCourse_keeps_from_memory (id : string) (h : UseStorage.t)
      (st : UseStorage.Store) :
  let st' := snd (fst (UseStorage.removeCourse true true id h st)) in
  (forall s, In s (UseStorage.persisted st')
             <-> In s (UseStorage.sessions h) /\ Session.courseId s <> id)
  /\ (forall c, In c (UseStorage.persistedCourses st')
                <-> In c (UseStorage.courses h) /\ Course.id c <> id)
  /\ (UseStorage.noOrphans (UseStorage.courses h) (UseStorage.sessions h) ->
      UseStorage.noOrphans (UseStorage.persistedCourses st')
                           (UseStorage.persisted st')).
Proof.
  cbn zeta. unfold UseStorage.removeCourse, UseStorage.persisted,
    UseStorage.persistedCourses. cbn.
  split; [intros s; apply filter_not_course_In|].
  split; [intros c; apply filter_not_id_In|].
  intros Hno s Hin. apply filter_not_course_In in Hin. destruct Hin as [Hin Hne].
  destruct (Hno s Hin) as (c & Hcin & Hid).
  exists c. split; [|assumption].
  apply filter_not_id_In. split; [assumption | congruence].
Qed.

(** On an instance whose lists are those of the store, the deletion does
    what the specification says: the persisted sessions afterwards are the
    former ones of the other courses, in their order. *)
Lemma removeCourse_on_mirroring_hook (id : string) (h : UseStorage.t)
      (st : UseStorage.Store) :
  UseStorage.inSync h st ->
  let res := UseStorage.removeCourse true true id h st in
  UseStorage.persisted (snd (fst res))
  = filter (fun s => negb (String.eqb (Session.courseId s) id))
           (UseStorage.persisted st)
  /\ UseStorage.inSync (fst (fst res)) (snd (fst res)).
Proof.
  intros [Hc Hs]. cbn zeta.
  unfold UseStorage.removeCourse, UseStorage.persisted. cbn. rewrite Hs.
  split; [reflexivity | split; reflexivity].
Qed.

(** C7: the run that deletes a session of another course.  The home screen
    and a timer screen have loaded the store, which holds the courses [c_a]
    and [c_b] and one session of [c_a]; a session of [c_b] is recorded
    through the timer screen, so the store holds both sessions.  Deleting
    [c_a] on the home screen, whose hook instance still holds the one
    session it loaded, leaves no session in the store: the session of
    [c_b] is deleted with that of [c_a].  In general the sessions that
    survive a deletion are those of other courses that the deleting
    instance holds in memory, whatever the store holds. *)
Theorem C7_removeCourse_deletes_sessions_recorded_on_other_screens :
  let recorded :=
    Screens.acts Screens.recordOnTimerScreen
                 (Screens.fresh 2, Screens.storeBefore) in
  let deleted :=
    Screens.act (Screens.home, CourseOps.RemoveCourse "c_a") recorded in
  UseStorage.persisted (snd recorded)
  = [Screens.sessionOfA; Screens.sessionOfB]
  /\ UseStorage.sessions (Screens.instance Screens.home recorded)
     = [Screens.sessionOfA]
  /\ Session.courseId Screens.sessionOfB <> "c_a"
  /\ In Screens.sessionOfB (UseStorage.persisted (snd recorded))
  /\ ~ In Screens.sessionOfB (UseStorage.persisted (snd deleted))
  /\ UseStorage.persisted (snd deleted) = []
  /\ UseStorage.persistedCourses (snd deleted) = [Scenario.courseB]
  /\ (forall (id : string) (h : UseStorage.t) (st : UseStorage.Store)
             (s : Session.t),
        In s (UseStorage.persisted
                (snd (fst (UseStorage.removeCourse true true id h st))))
        <-> In s (UseStorage.sessions h) /\ Session.courseId s <> id).
Proof.
  cbn zeta.
  split; [reflexivity|]. split; [reflexivity|]. split; [discriminate|].
  split; [right; left; reflexivity|]. split; [intros []|].
  split; [reflexivity|]. split; [reflexivity|].
  intros id h st s. apply (removeCourse_keeps_from_memory id h st).
Qed.

(** C10: when the write of [addSession] rejects, the call is rejected and
    the error cell is set, the store is untouched, and the in-memory list
    already ends with the new record: if memory mirrored the store before,
    it no longer does.  A second call on the resulting hook appends a second
    record with the same data. *)
Theorem C10_addSession_not_atomic_on_write_failure :
  forall (stamp : string) (d : SessionData) (h : UseStorage.t)
         (st : UseStorage.Store),
    let record := fun k =>
      Session.mk (Utils.uid "s_" k) (d_courseId d) (d_startAt d)
                 (d_durationSeconds d) (d_targetSeconds d) (d_isPartial d) in
    let res := UseStorage.addSession false stamp d h st in
    let h' := fst (fst res) in
    let st' := snd (fst res) in
    snd res = UseStorage.Rejected
    /\ UseStorage.error h' = Some "Failed to add session"
    /\ st' = st
    /\ UseStorage.sessions h' = UseStorage.sessions h ++ [record stamp]
    /\ (UseStorage.SESSIONS st = Some (UseStorage.sessions h) ->
        UseStorage.SESSIONS st' <> Some (UseStorage.sessions h'))
    /\ (forall (w2 : bool) (stamp2 : string),
          UseStorage.sessions
            (fst (fst (UseStorage.addSession w2 stamp2 d h' st')))
          = UseStorage.sessions h ++ [record stamp; record stamp2]).
Proof.
  intros stamp d h st record res h' st'.
  unfold res, h', st', UseStorage.addSession. cbn.
  repeat split.
  - intros Hsync Heq. rewrite Hsync in Heq. injection Heq as Heq.
    exact (app_one_neq _ _ Heq).
  - intros w2 stamp2. destruct w2; cbn; now rewrite <- app_assoc.
Qed.

(** ** The timer screen *)

Section Timer.

Import UseStorage TimerScreen.

Lemma elapsedSince_running (t0 now : Z) :
  t0 <> 0 -> elapsedSince (Some t0) now = (now - t0) / 1000.
Proof.
  intros H. unfold elapsedSince. destruct (Z.eqb_spec t0 0); congruence.
Qed.

(** The tick that finds no time left: the clock stops and the elapsed time
    is set to the target. *)
Lemma tickUpdate_complete (now t0 : Z) (prev : TimerState.t) :
  TimerState.startTime prev = Some t0 -> t0 <> 0 ->
  TimerState.targetSeconds prev <= (now - t0) / 1000 ->
  tickUpdate now prev
  = (TimerState.mk false 0 (TimerState.targetSeconds prev)
                   (TimerState.targetSeconds prev) (Some t0), true).
Proof.
  intros Hs Ht Hle. unfold tickUpdate. rewrite Hs, elapsedSince_running by assumption.
  replace (Z.max 0 (TimerState.targetSeconds prev - (now - t0) / 1000) <=? 0)
    with true by (symmetry; apply Z.leb_le; lia).
  reflexivity.
Qed.

(** Any other tick only refreshes the two counters. *)
Lemma tickUpdate_running (now t0 : Z) (prev : TimerState.t) :
  TimerState.startTime prev = Some t0 -> t0 <> 0 ->
  (now - t0) / 1000 < TimerState.targetSeconds prev ->
  tickUpdate now prev
  = (TimerState.mk (TimerState.isRunning prev)
                   (TimerState.targetSeconds prev - (now - t0) / 1000)
                   ((now - t0) / 1000)
                   (TimerState.targetSeconds prev) (Some t0), false).
Proof.
  intros Hs Ht Hlt. unfold tickUpdate. rewrite Hs, elapsedSince_running by assumption.
  replace (Z.max 0 (TimerState.targetSeconds prev - (now - t0) / 1000) <=? 0)
    with false by (symmetry; apply Z.leb_gt; lia).
  rewrite Z.max_r by lia. reflexivity.
Qed.

(** A render that leaves [isRunning] as it was does not run the timer
    effect again. *)
Lemma commit_same_running (old new : TimerScreen.t) :
  TimerState.isRunning (timerState new) = TimerState.isRunning (timerState old) ->
  commit old new = new.
Proof.
  intros H. unfold commit. rewrite H, Bool.eqb_reflx. reflexivity.
Qed.

Lemma commit_stopped (old new : TimerScreen.t) :
  TimerState.isRunning (timerState new) = false -> commit old new = new.
Proof.
  intros H. unfold commit. rewrite H, andb_false_r. reflexivity.
Qed.

(** Nothing happens to a screen that has left the stack. *)
Lemma step_unmounted (e : event) (sc : TimerScreen.t) (st : Store) :
  mounted sc = false -> step e (sc, st) = (sc, st).
Proof. intros H. unfold step. now rewrite H. Qed.

Lemma run_unmounted (es : list event) (sc : TimerScreen.t) (st : Store) :
  mounted sc = false -> run es (sc, st) = (sc, st).
Proof.
  intros H. induction es as [|e es IH]; [reflexivity|].
  unfold run in *. cbn [fold_left]. now rewrite step_unmounted.
Qed.

(** A tick of a running, mounted timer that completes. *)
Lemma step_tick_complete (sc : TimerScreen.t) (st : Store)
      (t0 now : Z) (stamp : string) (w : bool) :
  runningFrom t0 sc ->
  TimerState.targetSeconds (timerState sc) <= (now - t0) / 1000 ->
  step (Tick now stamp w) (sc, st)
  = handleTimerComplete now stamp w
      (setTimerState
         (TimerState.mk false 0 (TimerState.targetSeconds (timerState sc))
                        (TimerState.targetSeconds (timerState sc)) (Some t0))
         sc) st.
Proof.
  intros (Hm & Hr & Hs & Ht) Hle. unfold step, tick.
  rewrite Hm, Hr. cbn [negb].
  rewrite (tickUpdate_complete now t0) by assumption.
  unfold handleTimerComplete, addSession.
  destruct w; cbn; rewrite commit_stopped; reflexivity.
Qed.

(** A tick of a running, mounted timer that does not complete. *)
Lemma step_tick_running (sc : TimerScreen.t) (st : Store)
      (t0 now : Z) (stamp : string) (w : bool) :
  runningFrom t0 sc ->
  (now - t0) / 1000 < TimerState.targetSeconds (timerState sc) ->
  step (Tick now stamp w) (sc, st)
  = (setTimerState
       (TimerState.mk true
          (TimerState.targetSeconds (timerState sc) - (now - t0) / 1000)
          ((now - t0) / 1000)
          (TimerState.targetSeconds (timerState sc)) (Some t0)) sc, st).
Proof.
  intros (Hm & Hr & Hs & Ht) Hlt. unfold step, tick.
  rewrite Hm, Hr. cbn [negb].
  rewrite (tickUpdate_running now t0) by assumption.
  rewrite Hr, commit_same_running by (cbn; now rewrite Hr). reflexivity.
Qed.

(** No interval fires while the timer is stopped. *)
Lemma step_tick_stopped (sc : TimerScreen.t) (st : Store)
      (now : Z) (stamp : string) (w : bool) :
  TimerState.isRunning (timerState sc) = false ->
  step (Tick now stamp w) (sc, st) = (sc, st).
Proof.
  intros Hr. unfold step, tick. rewrite Hr.
  destruct (mounted sc); cbn; [|reflexivity].
  now rewrite commit_same_running.
Qed.

(** [handleTimerComplete] when the write resolves. *)
Lemma handleTimerComplete_resolved (now : Z) (stamp : string)
      (sc : TimerScreen.t) (st : Store) :
  let s := Session.mk (Utils.uid "s_" stamp) (courseId sc) (Utils.isoNow now)
                      (tickTarget sc) (tickTarget sc) false in
  let st' := mkStore (COURSES st) (Some (tickSessions sc ++ [s])) in
  handleTimerComplete now stamp true sc st
  = (setShowCompletionModal true
       (setStorage
          (loadData (setSessions (tickSessions sc ++ [s]) (storage sc)) st')
          sc), st').
Proof. reflexivity. Qed.

End Timer.

(** What a completing tick writes.  A tick of a running timer that finds
    no time left and whose write resolves writes the session list held by
    the interval callback, extended by one record that is not partial,
    whose duration and target are the target held by the callback, and
    whose [startAt] is the instant of the tick.  The clock stops with
    nothing remaining, and no later firing of the interval writes
    anything. *)
Lemma completing_tick_writes_callback_list
      (sc : TimerScreen.t) (st : UseStorage.Store)
      (t0 now : Z) (stamp : string) :
  TimerScreen.runningFrom t0 sc ->
  TimerState.targetSeconds (TimerScreen.timerState sc) <= (now - t0) / 1000 ->
  let res := TimerScreen.step (TimerScreen.Tick now stamp true) (sc, st) in
  UseStorage.SESSIONS (snd res)
  = Some (TimerScreen.tickSessions sc
          ++ [Session.mk (Utils.uid "s_" stamp) (TimerScreen.courseId sc)
                (Utils.isoNow now) (TimerScreen.tickTarget sc)
                (TimerScreen.tickTarget sc) false])
  /\ TimerState.isRunning (TimerScreen.timerState (fst res)) = false
  /\ TimerState.remainingSeconds (TimerScreen.timerState (fst res)) = 0
  /\ (forall now' stamp' w',
        TimerScreen.step (TimerScreen.Tick now' stamp' w') res = res).
Proof.
  intros Hrun Hle res.
  unfold res. rewrite (step_tick_complete sc st t0 now stamp true Hrun Hle).
  rewrite handleTimerComplete_resolved. cbn [fst snd].
  split; [reflexivity|]. split; [reflexivity|]. split; [reflexivity|].
  intros now' stamp' w'. apply step_tick_stopped. reflexivity.
Qed.

(** C2: the run that does not persist exactly one session.  The device
    holds the courses [c_a] and [c_b] and three sessions; a one-minute
    timer for [c_a] is opened and runs to its end without a pause.  The
    completing tick writes, as the whole persisted collection, the single
    new record: the interval callback dates from the first render, in which
    the hook had not loaded, and extends the empty list of that render.
    The three sessions recorded before are gone.  When the completion
    dialog is then dismissed with the back button and Resume is pressed,
    the next tick completes the same run again and a second full record is
    persisted.  The sequence is one that the rendered screen delivers. *)
Theorem C2_completed_run_replaces_collection_and_completes_twice :
  let opened := Scenario.oneMinuteAB in
  let completed := TimerScreen.run Scenario.runToCompletion opened in
  let resumed := TimerScreen.run Scenario.runToCompletionThenResume opened in
  TimerScreen.deliverable Scenario.runToCompletionThenResume opened = true
  /\ UseStorage.persisted (snd opened)
     = [Scenario.sessionA1; Scenario.sessionB1; Scenario.sessionA2]
  /\ UseStorage.sessions
       (TimerScreen.storage
          (fst (TimerScreen.step TimerScreen.Loaded opened)))
     = [Scenario.sessionA1; Scenario.sessionB1; Scenario.sessionA2]
  /\ UseStorage.persisted (snd completed)
     = [Session.mk "s__k1" "c_a" 70000 60 60 false]
  /\ UseStorage.persisted (snd completed)
     <> UseStorage.persisted (snd opened)
        ++ [Session.mk "s__k1" "c_a" 70000 60 60 false]
  /\ UseStorage.persisted (snd resumed)
     = [Session.mk "s__k1" "c_a" 70000 60 60 false;
        Session.mk "s__k2" "c_a" 81000 60 60 false].
Proof.
  cbn zeta.
  split; [reflexivity|]. split; [reflexivity|]. split; [reflexivity|].
  split; [reflexivity|]. split; [discriminate | reflexivity].
Qed.

(** C1: the run that breaks the bound.  The device holds the course
    [c_a]; the timer of one minute spends 100 seconds in the background; on
    return [handleAppStateChange] stores the elapsed time 100 without the
    cap that the tick applies, and Terminate, pressed before the next tick,
    persists a record whose duration exceeds its target.  The sequence is
    one that the rendered screen delivers. *)
Theorem C1_foreground_reconcile_then_terminate_exceeds_target :
  TimerScreen.deliverable Scenario.overshootThenTerminate Scenario.oneMinuteA
  = true
  /\ UseStorage.persisted
       (snd (TimerScreen.run Scenario.overshootThenTerminate
                             Scenario.oneMinuteA))
     = [Session.mk "s__k1" "c_a" 101000 100 60 true]
  /\ exists s,
       In s (UseStorage.persisted
               (snd (TimerScreen.run Scenario.overshootThenTerminate
                                     Scenario.oneMinuteA)))
       /\ ~ (0 <= Session.durationSeconds s <= Session.targetSeconds s).
Proof.
  split; [reflexivity|]. split; [reflexivity|].
  exists (Session.mk "s__k1" "c_a" 101000 100 60 true).
  split; [left; reflexivity|]. cbn. lia.
Qed.

(** On a device that does not hold the course, the screen shows "Course not
    found" and the same sequence cannot be delivered: there is no Terminate
    tile to press. *)
Example terminate_is_not_offered_without_the_course :
  TimerScreen.deliverable Scenario.overshootThenTerminate Scenario.oneMinute
  = false
  /\ TimerScreen.courseFound
       (fst (TimerScreen.step TimerScreen.Loaded Scenario.oneMinute)) = false
  /\ TimerScreen.courseFound
       (fst (TimerScreen.step TimerScreen.Loaded Scenario.oneMinuteA)) = true.
Proof. repeat split; reflexivity. Qed.

Section Terminate.

Import UseStorage TimerScreen.

(** What [handleTerminate] does in general: nothing is recorded when no
    second has elapsed; otherwise, when the write resolves, one partial
    record is appended with the elapsed time and the target of the run, and
    the screen is left. *)
Lemma handleTerminate_spec (now : Z) (stamp : string)
      (sc : TimerScreen.t) (st : Store) :
  let elapsed := TimerState.elapsedSeconds (timerState sc) in
  let res := handleTerminate now stamp true sc st in
  (elapsed = 0 -> snd res = st /\ sessions (storage (fst res)) = sessions (storage sc))
  /\ (elapsed <> 0 ->
      SESSIONS (snd res)
      = Some (sessions (storage sc)
              ++ [Session.mk (Utils.uid "s_" stamp) (courseId sc) now elapsed
                    (TimerState.targetSeconds (timerState sc)) true]))
  /\ mounted (fst res) = false.
Proof.
  cbn zeta. unfold handleTerminate.
  destruct (Z.eqb_spec (TimerState.elapsedSeconds (timerState sc)) 0) as [E|E].
  - split; [intros _; split; reflexivity|].
    split; [intros Hne; contradiction | reflexivity].
  - cbn. split; [intros H0; contradiction|].
    split; [intros _; reflexivity | reflexivity].
Qed.

End Terminate.

(** C3: two runs in which Terminate persists a partial record whose
    duration is not below its target, on the device that holds the course
    [c_a]: after the return from the background of C1 (duration 100, target
    60), and after the timer has completed and its dialog has been
    dismissed with the back button (duration 60, target 60, next to the
    full record of the same run).  Both sequences are ones that the
    rendered screen delivers. *)
Theorem C3_terminate_records_partial_not_below_target :
  (TimerScreen.deliverable Scenario.overshootThenTerminate Scenario.oneMinuteA
   = true
   /\ exists s,
        UseStorage.persisted
          (snd (TimerScreen.run Scenario.overshootThenTerminate
                                Scenario.oneMinuteA)) = [s]
        /\ Session.isPartial s = true
        /\ Session.targetSeconds s < Session.durationSeconds s)
  /\ (TimerScreen.deliverable Scenario.completeThenTerminate
                              Scenario.oneMinuteA = true
      /\ exists full s,
           UseStorage.persisted
             (snd (TimerScreen.run Scenario.completeThenTerminate
                                   Scenario.oneMinuteA)) = [full; s]
           /\ Session.isPartial full = false
           /\ Session.isPartial s = true
           /\ Session.durationSeconds s = Session.targetSeconds s).
Proof.
  split; (split; [reflexivity|]).
  - exists (Session.mk "s__k1" "c_a" 101000 100 60 true).
    repeat split; reflexivity.
  - exists (Session.mk "s__k1" "c_a" 61000 60 60 false),
           (Session.mk "s__k2" "c_a" 62000 60 60 true).
    repeat split; reflexivity.
Qed.

(** C4: the run that completes twice, on the device that holds the course
    [c_a].  After the completing tick the clock is stopped and ticks no
    longer fire; but Resume, pressed on the completed timer once its dialog
    has been dismissed with the back button, starts the clock again with
    no time remaining, and the next tick calls [handleTimerComplete] a
    second time: the run has two full records.  The sequence is one that
    the rendered screen delivers. *)
Theorem C4_resume_after_completion_completes_again :
  TimerScreen.deliverable Scenario.completeThenResume Scenario.oneMinuteA
  = true
  /\ UseStorage.persisted
       (snd (TimerScreen.run Scenario.completeThenResume Scenario.oneMinuteA))
     = [Session.mk "s__k1" "c_a" 61000 60 60 false;
        Session.mk "s__k2" "c_a" 71000 60 60 false]
  /\ (List.length
        (UseStorage.persisted
           (snd (TimerScreen.run Scenario.completeThenResume
                                 Scenario.oneMinuteA))) > 1)%nat.
Proof.
  split; [reflexivity|]. split; [reflexivity|]. cbn. lia.
Qed.

Section Reconcile.

Import UseStorage TimerScreen Inv.

(** [handleAppStateChange] on a running timer keeps it running from the
    same start; on a return to the foreground it stores the real elapsed
    time, uncapped, and what remains of the target. *)
Lemma handleAppStateChange_running (next : AppStateStatus) (now t0 : Z)
      (sc : TimerScreen.t) :
  runningFrom t0 sc ->
  let sc' := handleAppStateChange next now sc in
  runningFrom t0 sc'
  /\ TimerState.targetSeconds (timerState sc')
     = TimerState.targetSeconds (timerState sc)
  /\ appStateRef sc' = next
  /\ (matchesInactiveOrBackground (appStateRef sc) = true -> next = active ->
      TimerState.elapsedSeconds (timerState sc') = (now - t0) / 1000
      /\ TimerState.remainingSeconds (timerState sc')
         = Z.max 0 (TimerState.targetSeconds (timerState sc) - (now - t0) / 1000)).
Proof.
  intros (Hm & Hr & Hs & Ht). cbn zeta. unfold handleAppStateChange, runningFrom.
  rewrite Hs, Hr. destruct (Z.eqb_spec t0 0) as [E|_]; [contradiction|].
  destruct (matchesInactiveOrBackground (appStateRef sc)), next; cbn;
    rewrite ?Hm, ?Hr, ?Hs; repeat split; try assumption; try reflexivity;
    try discriminate.
Qed.

Lemma step_appState_running (next : AppStateStatus) (now t0 : Z)
      (sc : TimerScreen.t) (st : Store) :
  runningFrom t0 sc ->
  step (AppStateChange next now) (sc, st) = (handleAppStateChange next now sc, st).
Proof.
  intros Hrun. destruct (handleAppStateChange_running next now t0 sc Hrun)
    as ((_ & Hr' & _) & _).
  destruct Hrun as (Hm & Hr & _). unfold step. rewrite Hm. cbn [negb].
  rewrite commit_same_running; [reflexivity | congruence].
Qed.

Lemma step_loaded_running (t0 : Z) (sc : TimerScreen.t) (st : Store) :
  runningFrom t0 sc ->
  step Loaded (sc, st) = (setStorage (loadData (storage sc) st) sc, st).
Proof.
  intros (Hm & _). unfold step. rewrite Hm. cbn [negb].
  now rewrite commit_same_running.
Qed.

(** A quiet event leaves the run in progress, with its start and target. *)
Lemma quiet_step (t0 : Z) (e : event) (sc : TimerScreen.t) (st : Store) :
  runningFrom t0 sc ->
  quiet t0 (TimerState.targetSeconds (timerState sc)) e ->
  runningFrom t0 (fst (step e (sc, st)))
  /\ TimerState.targetSeconds (timerState (fst (step e (sc, st))))
     = TimerState.targetSeconds (timerState sc).
Proof.
  intros Hrun Hq. destruct e; cbn in Hq; try contradiction.
  - rewrite (step_loaded_running t0) by assumption. cbn. split; [|reflexivity].
    destruct Hrun as (Hm & Hr & Hs & Ht). repeat split; assumption.
  - rewrite (step_tick_running sc st t0) by assumption. cbn.
    destruct Hrun as (Hm & Hr & Hs & Ht). repeat split; assumption.
  - rewrite (step_appState_running _ _ t0) by assumption. cbn [fst].
    destruct (handleAppStateChange_running nextAppState now t0 sc Hrun)
      as (H1 & H2 & _). split; assumption.
Qed.

Lemma quiet_run (t0 : Z) (es : list event) (sc : TimerScreen.t) (st : Store) :
  runningFrom t0 sc ->
  Forall (quiet t0 (TimerState.targetSeconds (timerState sc))) es ->
  runningFrom t0 (fst (run es (sc, st)))
  /\ TimerState.targetSeconds (timerState (fst (run es (sc, st))))
     = TimerState.targetSeconds (timerState sc).
Proof.
  revert sc st. induction es as [|e es IH]; intros sc st Hrun Hall.
  - cbn. split; [assumption | reflexivity].
  - inversion Hall as [|? ? He Hes]; subst.
    destruct (quiet_step t0 e sc st Hrun He) as (Hrun' & Htgt).
    unfold run. cbn [fold_left]. fold (run es (step e (sc, st))).
    destruct (step e (sc, st)) as [sc1 st1] eqn:E. cbn [fst] in *.
    rewrite <- Htgt in Hes.
    destruct (IH sc1 st1 Hrun' Hes) as (H1 & H2). split; [assumption | congruence].
Qed.

(** What a tick stores, whether it completes or not. *)
Lemma tick_recomputes (t0 now : Z) (stamp : string) (w : bool)
      (sc : TimerScreen.t) (st : Store) :
  runningFrom t0 sc ->
  let target := TimerState.targetSeconds (timerState sc) in
  let real := (now - t0) / 1000 in
  let ts := timerState (fst (step (Tick now stamp w) (sc, st))) in
  TimerState.remainingSeconds ts = Z.max 0 (target - real)
  /\ TimerState.elapsedSeconds ts = Z.min target real.
Proof.
  intros Hrun target real. cbn zeta. subst target real.
  set (T := TimerState.targetSeconds (timerState sc)).
  set (R := (now - t0) / 1000).
  destruct (Z_le_gt_dec T R) as [Hle|Hgt].
  - rewrite (step_tick_complete sc st t0) by assumption.
    assert (Hts : timerState
                    (fst (handleTimerComplete now stamp w
                            (setTimerState
                               (TimerState.mk false 0 T T (Some t0)) sc) st))
                  = TimerState.mk false 0 T T (Some t0)).
    { unfold handleTimerComplete, addSession. destruct w; reflexivity. }
    fold T. rewrite Hts.
    cbn [TimerState.remainingSeconds TimerState.elapsedSeconds].
    split; [rewrite Z.max_l by lia | rewrite Z.min_l by lia]; reflexivity.
  - rewrite (step_tick_running sc st t0) by first [assumption | fold T R; lia].
    cbn [fst timerState setTimerState TimerState.remainingSeconds
         TimerState.elapsedSeconds].
    fold T R. split; [rewrite Z.max_r by lia | rewrite Z.min_r by lia];
      reflexivity.
Qed.

End Reconcile.

(** C5, as stated, fails on the tick that completes a run after a
    suspension: 100 seconds after the start of a one-minute timer the tick
    stores the target, 60, as elapsed time, not the 100 seconds that passed. *)
Lemma C5_counterexample_completing_tick_caps_elapsed :
  ~ (forall (sc : TimerScreen.t) (st : UseStorage.Store) (t0 now : Z)
            (stamp : string) (w : bool),
        TimerScreen.runningFrom t0 sc ->
        TimerState.elapsedSeconds
          (TimerScreen.timerState
             (fst (TimerScreen.step (TimerScreen.Tick now stamp w) (sc, st))))
        = (now - t0) / 1000).
Proof.
  intros H.
  specialize (H (fst Scenario.oneMinute) (snd Scenario.oneMinute)
                1000 101000 "k1" true).
  assert (Hrun : TimerScreen.runningFrom 1000 (fst Scenario.oneMinute)).
  { repeat split; try reflexivity. discriminate. }
  specialize (H Hrun). vm_compute in H. discriminate.
Qed.

(** C5 (amended): while a timer runs from the start time [t0], a tick at
    the instant [now] stores [max 0 (target - real)] as remaining time and
    [min target real] as elapsed time, where [real] is
    [floor ((now - t0) / 1000)]: the real elapsed time until the target is
    reached, the target on the completing tick.  A return to the foreground
    stores [real] itself and [max 0 (target - real)].  Both read only the
    start time, the target and the clock: after any sequence of earlier
    ticks, app-state changes and loads, whatever their number, the next
    tick, or the next return from the background, stores the same remaining
    time. *)
Theorem C5_time_is_recomputed_from_the_start_timestamp :
  forall (sc : TimerScreen.t) (st : UseStorage.Store) (t0 now : Z),
    TimerScreen.runningFrom t0 sc ->
    let target := TimerState.targetSeconds (TimerScreen.timerState sc) in
    let real := (now - t0) / 1000 in
    (forall stamp w,
        let ts := TimerScreen.timerState
                    (fst (TimerScreen.step (TimerScreen.Tick now stamp w)
                                           (sc, st))) in
        TimerState.remainingSeconds ts = Z.max 0 (target - real)
        /\ TimerState.elapsedSeconds ts = Z.min target real
        /\ (real < target -> TimerState.elapsedSeconds ts = real))
    /\ (TimerScreen.matchesInactiveOrBackground (TimerScreen.appStateRef sc)
        = true ->
        let ts := TimerScreen.timerState
                    (fst (TimerScreen.step
                            (TimerScreen.AppStateChange TimerScreen.active now)
                            (sc, st))) in
        TimerState.elapsedSeconds ts = real
        /\ TimerState.remainingSeconds ts
           = Z.max 0 (target - TimerState.elapsedSeconds ts))
    /\ (forall es stamp w,
          Forall (Inv.quiet t0 target) es ->
          TimerState.remainingSeconds
            (TimerScreen.timerState
               (fst (TimerScreen.step (TimerScreen.Tick now stamp w)
                                      (TimerScreen.run es (sc, st)))))
          = Z.max 0 (target - real))
    /\ (forall es t1,
          Forall (Inv.quiet t0 target) es ->
          TimerState.remainingSeconds
            (TimerScreen.timerState
               (fst (TimerScreen.run
                       (es ++ [TimerScreen.AppStateChange
                                 TimerScreen.background t1;
                               TimerScreen.AppStateChange
                                 TimerScreen.active now])
                       (sc, st))))
          = Z.max 0 (target - real)).
Proof.
  intros sc st t0 now Hrun target real.
  split; [|split; [|split]].
  - intros stamp w ts.
    destruct (tick_recomputes t0 now stamp w sc st Hrun) as (H1 & H2).
    fold target real ts in H1, H2.
    split; [assumption|]. split; [assumption|].
    intros Hlt. rewrite H2. apply Z.min_r. lia.
  - intros Hbg ts. unfold ts.
    rewrite (step_appState_running _ _ t0) by assumption. cbn [fst].
    destruct (handleAppStateChange_running TimerScreen.active now t0 sc Hrun)
      as (_ & _ & _ & H). destruct (H Hbg eq_refl) as (He & Hr).
    rewrite He. split; [reflexivity | exact Hr].
  - intros es stamp w Hq.
    destruct (quiet_run t0 es sc st Hrun Hq) as (Hrun' & Htgt).
    destruct (TimerScreen.run es (sc, st)) as [sc1 st1]. cbn [fst] in *.
    destruct (tick_recomputes t0 now stamp w sc1 st1 Hrun') as (H1 & _).
    rewrite H1, Htgt. reflexivity.
  - intros es t1 Hq.
    destruct (quiet_run t0 es sc st Hrun Hq) as (Hrun' & Htgt).
    unfold TimerScreen.run. rewrite fold_left_app.
    fold (TimerScreen.run es (sc, st)).
    destruct (TimerScreen.run es (sc, st)) as [sc1 st1]. cbn [fst] in *.
    cbn [fold_left].
    rewrite (step_appState_running _ _ t0) by assumption.
    destruct (handleAppStateChange_running TimerScreen.background t1 t0 sc1 Hrun')
      as (Hrun2 & Htgt2 & Href & _).
    rewrite (step_appState_running _ _ t0) by assumption. cbn [fst].
    destruct (handleAppStateChange_running TimerScreen.active now t0 _ Hrun2)
      as (_ & _ & _ & H).
    rewrite Href in H. destruct (H eq_refl eq_refl) as (_ & Hr).
    rewrite Hr, Htgt2, Htgt. reflexivity.
Qed.

(** A twenty-five-minute timer opened at 1000: after ten minutes, the tick
    leaves fifteen minutes, however many ticks fired before. *)
Lemma C5_witness_ten_minutes_in :
  TimerScreen.runningFrom 1000
    (TimerScreen.mount "c_a" 25 TimerScreen.active 1000)
  /\ TimerState.remainingSeconds
       (TimerScreen.timerState
          (fst (TimerScreen.step (TimerScreen.Tick 601000 "k" true)
                  (TimerScreen.mount "c_a" 25 TimerScreen.active 1000,
                   Scenario.emptyStore))))
     = 900.
Proof.
  assert (Hrun : TimerScreen.runningFrom 1000
                   (TimerScreen.mount "c_a" 25 TimerScreen.active 1000)).
  { repeat split; try reflexivity. discriminate. }
  split; [exact Hrun|].
  exact (proj1 (proj1 (C5_time_is_recomputed_from_the_start_timestamp
                         (TimerScreen.mount "c_a" 25 TimerScreen.active 1000)
                         Scenario.emptyStore 1000 601000 Hrun) "k" true)).
Defined.

(** C6, as stated, fails: five minutes into a twenty-minute run, leaving
    the screen adds no partial record to the persisted collection. *)
Lemma C6_counterexample_navigating_away_flushes_nothing :
  ~ (forall (sc : TimerScreen.t) (st : UseStorage.Store),
        TimerScreen.mounted sc = true ->
        0 < TimerState.elapsedSeconds (TimerScreen.timerState sc) ->
        exists s,
          Session.isPartial s = true
          /\ UseStorage.persisted
               (snd (TimerScreen.step TimerScreen.NavigateAway (sc, st)))
             = UseStorage.persisted st ++ [s]).
Proof.
  intros H.
  destruct (H (fst Scenario.fiveMinutesIn) (snd Scenario.fiveMinutesIn))
    as (s & _ & Heq); [reflexivity | reflexivity |].
  vm_compute in Heq. discriminate.
Qed.

(** C6 (amended): leaving the timer screen, whatever the state of the run
    and however much time has elapsed, writes nothing: the store and the
    in-memory session list are as before, the screen is gone, and no later
    event of that screen changes the store.  Only the Terminate button
    records a partial session. *)
Theorem C6_navigating_away_persists_nothing :
  forall (sc : TimerScreen.t) (st : UseStorage.Store),
    let res := TimerScreen.step TimerScreen.NavigateAway (sc, st) in
    snd res = st
    /\ UseStorage.sessions (TimerScreen.storage (fst res))
       = UseStorage.sessions (TimerScreen.storage sc)
    /\ TimerScreen.mounted (fst res) = false
    /\ (forall es, snd (TimerScreen.run es res) = st).
Proof.
  intros sc st res.
  assert (Hres : res = (sc, st) /\ TimerScreen.mounted sc = false
                 \/ res = (TimerScreen.unmount sc, st)).
  { unfold res, TimerScreen.step. destruct (TimerScreen.mounted sc) eqn:Hm.
    - right. cbn [negb]. now rewrite commit_same_running.
    - left. split; reflexivity. }
  destruct Hres as [[-> Hm]| ->]; cbn [fst snd].
  - repeat split; try assumption. intros es. now rewrite run_unmounted.
  - repeat split. intros es. now rewrite run_unmounted.
Qed.

Section Duration.

Import UseStorage TimerScreen Inv.

Lemma inRange1to480_spec (x : option Z) :
  Utils.inRange1to480 x = true <-> exists m, x = Some m /\ 1 <= m <= 480.
Proof.
  unfold Utils.inRange1to480. destruct x as [v|].
  - rewrite andb_true_iff, Z.ltb_lt, Z.leb_le. split.
    + intros [H1 H2]. exists v. split; [reflexivity | lia].
    + intros (m & Hm & H). injection Hm as ->. lia.
  - split; [discriminate | intros (m & Hm & _); discriminate].
Qed.

Lemma commit_fields (old new : TimerScreen.t) :
  timerState (commit old new) = timerState new
  /\ durationMinutes (commit old new) = durationMinutes new.
Proof.
  unfold commit.
  destruct (negb _ && _); split; reflexivity.
Qed.

Lemma tickUpdate_target (now : Z) (prev : TimerState.t) :
  TimerState.targetSeconds (fst (tickUpdate now prev))
  = TimerState.targetSeconds prev.
Proof.
  unfold tickUpdate. destruct (_ <=? 0); reflexivity.
Qed.

(** [handleCustomTimeSubmit] starts a run exactly when the text parses to a
    number of minutes between 1 and 480; otherwise the screen is unchanged. *)
Lemma handleCustomTimeSubmit_spec (now : Z) (sc : TimerScreen.t) :
  (exists m, Utils.parseInt (customTimeInput sc) = Some m /\ 1 <= m <= 480
             /\ timerState (handleCustomTimeSubmit now sc) = startedRun m now
             /\ durationMinutes (handleCustomTimeSubmit now sc)
                = durationMinutes sc)
  \/ ((forall m, Utils.parseInt (customTimeInput sc) = Some m ->
                 ~ 1 <= m <= 480)
      /\ handleCustomTimeSubmit now sc = sc).
Proof.
  unfold handleCustomTimeSubmit.
  destruct (Utils.inRange1to480 (Utils.parseInt (customTimeInput sc))) eqn:E.
  - apply inRange1to480_spec in E. destruct E as (m & Hm & Hr).
    left. exists m. rewrite Hm. repeat split; try lia.
  - right. split; [|reflexivity]. intros m Hm Hr.
    assert (Utils.inRange1to480 (Utils.parseInt (customTimeInput sc)) = true)
      by (apply inRange1to480_spec; exists m; split; assumption).
    congruence.
Qed.

(** Every event leaves the route parameter alone, and leaves the target as
    it was, or sets it to the route parameter, or to a checked number of
    minutes. *)
Lemma step_target (e : event) (sc : TimerScreen.t) (st : Store) :
  let sc' := fst (step e (sc, st)) in
  durationMinutes sc' = durationMinutes sc
  /\ (TimerState.targetSeconds (timerState sc')
      = TimerState.targetSeconds (timerState sc)
      \/ TimerState.targetSeconds (timerState sc')
         = Utils.minutesToSeconds (durationMinutes sc)
      \/ exists m, 1 <= m <= 480
                   /\ TimerState.targetSeconds (timerState sc')
                      = Utils.minutesToSeconds m).
Proof.
  cbn zeta. unfold step. destruct (mounted sc); cbn [negb]; [|cbn; auto].
  destruct e.
  - cbn [fst]. destruct (commit_fields sc (setStorage (loadData (storage sc) st) sc))
      as [-> ->]. cbn. auto.
  - unfold tick. destruct (TimerState.isRunning (timerState sc)).
    + pose proof (tickUpdate_target now (timerState sc)) as Ht.
      destruct (tickUpdate now (timerState sc)) as [ts completed].
      cbn [fst] in Ht. destruct completed.
      * unfold handleTimerComplete, addSession. destruct w; cbn [fst];
          match goal with |- context [commit ?a ?b] =>
            destruct (commit_fields a b) as [-> ->] end; cbn; auto.
      * cbn [fst]. match goal with |- context [commit ?a ?b] =>
            destruct (commit_fields a b) as [-> ->] end; cbn; auto.
    + cbn [fst]. destruct (commit_fields sc sc) as [-> ->]. auto.
  - cbn [fst]. match goal with |- context [commit ?a ?b] =>
      destruct (commit_fields a b) as [-> ->] end.
    unfold handleAppStateChange.
    destruct (matchesInactiveOrBackground (appStateRef sc)
              && match nextAppState with active => true | _ => false end);
      [destruct (TimerState.startTime (timerState sc)) as [t0|];
       [destruct (TimerState.isRunning (timerState sc) && negb (t0 =? 0))|]|];
      cbn; auto.
  - cbn [fst]. match goal with |- context [commit ?a ?b] =>
      destruct (commit_fields a b) as [-> ->] end.
    destruct (TimerState.isRunning (timerState sc)); cbn; auto.
  - cbn [fst]. match goal with |- context [commit ?a ?b] =>
      destruct (commit_fields a b) as [-> ->] end. cbn. auto.
  - unfold handleTerminate, addSession.
    destruct (TimerState.elapsedSeconds (timerState sc) =? 0); [|destruct w];
      cbn [fst]; match goal with |- context [commit ?a ?b] =>
        destruct (commit_fields a b) as [-> ->] end; cbn; auto.
  - cbn [fst]. match goal with |- context [commit ?a ?b] =>
      destruct (commit_fields a b) as [-> ->] end. cbn. auto.
  - cbn [fst]. match goal with |- context [commit ?a ?b] =>
      destruct (commit_fields a b) as [-> ->] end. cbn. auto.
  - cbn [fst]. match goal with |- context [commit ?a ?b] =>
      destruct (commit_fields a b) as [-> ->] end. cbn. auto.
  - cbn [fst]. match goal with |- context [commit ?a ?b] =>
      destruct (commit_fields a b) as [-> ->] end. cbn. auto.
  - cbn [fst]. match goal with |- context [commit ?a ?b] =>
      destruct (commit_fields a b) as [-> ->] end. cbn. auto.
  - cbn [fst]. match goal with |- context [commit ?a ?b] =>
      destruct (commit_fields a b) as [-> ->] end. cbn. auto.
  - cbn [fst]. match goal with |- context [commit ?a ?b] =>
      destruct (commit_fields a b) as [-> ->] end.
    destruct (handleCustomTimeSubmit_spec now sc)
      as [(m & _ & Hr & Hts & Hdm)|(_ & Heq)].
    + rewrite Hts, Hdm. split; [reflexivity|]. right. right.
      exists m. split; [assumption | reflexivity].
    + rewrite Heq. auto.
  - cbn [fst]. match goal with |- context [commit ?a ?b] =>
      destruct (commit_fields a b) as [-> ->] end. cbn. auto.
  - cbn [fst]. match goal with |- context [commit ?a ?b] =>
      destruct (commit_fields a b) as [-> ->] end. cbn. auto.
  - cbn [fst]. match goal with |- context [commit ?a ?b] =>
      destruct (commit_fields a b) as [-> ->] end. cbn. auto.
  - cbn [fst]. match goal with |- context [commit ?a ?b] =>
      destruct (commit_fields a b) as [-> ->] end. cbn. auto.
Qed.

Lemma step_validTarget (e : event) (sc : TimerScreen.t) (st : Store) :
  validTarget sc -> validTarget (fst (step e (sc, st))).
Proof.
  intros (Hdm & m & Hm & Ht).
  destruct (step_target e sc st) as (Hd & Hcases). unfold validTarget.
  rewrite Hd. split; [assumption|].
  destruct Hcases as [H|[H|(m' & Hm' & H)]].
  - exists m. split; [assumption | congruence].
  - exists (durationMinutes sc). split; assumption.
  - exists m'. split; assumption.
Qed.

Lemma run_validTarget (es : list event) (sc : TimerScreen.t) (st : Store) :
  validTarget sc -> validTarget (fst (run es (sc, st))).
Proof.
  revert sc st. induction es as [|e es IH]; intros sc st Hv; [exact Hv|].
  unfold run. cbn [fold_left]. fold (run es (step e (sc, st))).
  pose proof (step_validTarget e sc st Hv) as Hv'.
  destruct (step e (sc, st)) as [sc1 st1]. now apply IH.
Qed.

End Duration.

(** C8: a timer is opened with a duration that lies between 1 and 480
    minutes.  The preset buttons of the course screen are within the bound;
    its custom Start button navigates to the timer exactly when the text
    parses to a number of minutes within the bound, with that number, and
    otherwise does not navigate; the custom duration of a new cycle on the
    timer screen starts a run exactly when its text parses to a number
    within the bound, and otherwise leaves the screen as it was.  A timer
    screen opened with a duration within the bound keeps a target within
    the bound through every sequence of events. *)
Theorem C8_duration_checked_before_a_run_starts :
  (forall m, In m CourseScreen.presets -> 1 <= m <= 480)
  /\ (forall courseId input,
        match CourseScreen.customStartPress courseId input with
        | Some p =>
            CourseScreen.p_courseId p = courseId
            /\ Utils.parseInt input = Some (CourseScreen.p_durationMinutes p)
            /\ 1 <= CourseScreen.p_durationMinutes p <= 480
        | None =>
            forall m, Utils.parseInt input = Some m -> ~ 1 <= m <= 480
        end)
  /\ (forall now sc,
        (exists m,
            Utils.parseInt (TimerScreen.customTimeInput sc) = Some m
            /\ 1 <= m <= 480
            /\ TimerScreen.timerState (TimerScreen.handleCustomTimeSubmit now sc)
               = TimerScreen.startedRun m now)
        \/ ((forall m,
               Utils.parseInt (TimerScreen.customTimeInput sc) = Some m ->
               ~ 1 <= m <= 480)
            /\ TimerScreen.handleCustomTimeSubmit now sc = sc))
  /\ (forall courseId m current now st es,
        1 <= m <= 480 ->
        let sc := fst (TimerScreen.run es
                         (TimerScreen.mount courseId m current now, st)) in
        Inv.validTarget sc
        /\ 60 <= TimerState.targetSeconds (TimerScreen.timerState sc) <= 28800).
Proof.
  split; [|split; [|split]].
  - intros m Hin. cbn in Hin. lia.
  - intros courseId input. unfold CourseScreen.customStartPress.
    destruct (String.eqb_spec input "") as [->|Hne]; cbn [negb andb].
    + intros m Hm. discriminate.
    + destruct (Utils.inRange1to480 (Utils.parseInt input)) eqn:E.
      * apply inRange1to480_spec in E. destruct E as (m & Hm & Hr).
        rewrite Hm. cbn. repeat split; lia.
      * intros m Hm Hr.
        assert (Utils.inRange1to480 (Utils.parseInt input) = true)
          by (apply inRange1to480_spec; exists m; split; assumption).
        congruence.
  - intros now sc.
    destruct (handleCustomTimeSubmit_spec now sc)
      as [(m & Hm & Hr & Hts & _)|H]; [left; exists m; auto | right; exact H].
  - intros courseId m current now st es Hm sc.
    assert (Hv : Inv.validTarget sc).
    { apply run_validTarget. split; [exact Hm|]. exists m.
      split; [exact Hm | reflexivity]. }
    split; [exact Hv|].
    destruct Hv as (_ & m' & Hm' & ->). unfold Utils.minutesToSeconds. lia.
Qed.

(** [parseInt] on the texts a duration field can hold. *)
Example parseInt_25 : Utils.parseInt "25" = Some 25.
Proof. reflexivity. Qed.

Example parseInt_fraction : Utils.parseInt "12.5" = Some 12.
Proof. reflexivity. Qed.

Example parseInt_hex : Utils.parseInt "0x1f" = Some 31.
Proof. reflexivity. Qed.

Example parseInt_letters : Utils.parseInt "abc" = None.
Proof. reflexivity. Qed.

Example parseInt_negative : Utils.parseInt " -7" = Some (-7).
Proof. reflexivity. Qed.

Example customStart_rejects_zero :
  CourseScreen.customStartPress "c_a" "0" = None.
Proof. reflexivity. Qed.

Example customStart_rejects_481 :
  CourseScreen.customStartPress "c_a" "481" = None.
Proof. reflexivity. Qed.

Example customStart_accepts_480 :
  CourseScreen.customStartPress "c_a" "480"
  = Some (CourseScreen.mkParams "c_a" 480).
Proof. reflexivity. Qed.

(** ** The render that the interval callback dates from *)

Section Closure.

Import UseStorage TimerScreen.

(** When the timer starts or restarts, the callback reads the target and
    the session list of that render. *)
Lemma commit_started (old new : TimerScreen.t) :
  TimerState.isRunning (timerState old) = false ->
  TimerState.isRunning (timerState new) = true ->
  tickTarget (commit old new) = TimerState.targetSeconds (timerState new)
  /\ tickSessions (commit old new) = sessions (storage new).
Proof.
  intros Ho Hn. unfold commit. rewrite Ho, Hn. split; reflexivity.
Qed.

Lemma mount_tickTarget (courseId : string) (m : Z) (current : AppStateStatus)
      (now : Z) :
  tickTarget (mount courseId m current now)
  = TimerState.targetSeconds (timerState (mount courseId m current now))
  /\ tickSessions (mount courseId m current now) = [].
Proof. split; reflexivity. Qed.

End Closure.

(** A run that is never paused completes through the callback of the first
    render, in which the hook had not loaded: whatever the store held, the
    persisted collection afterwards is the single new record. *)
Theorem completion_of_unpaused_run_replaces_collection :
  forall (courseId : string) (m opened now : Z) (stamp : string)
         (current : TimerScreen.AppStateStatus)
         (cs : option (list Course.t)) (old : list Session.t),
    opened <> 0 ->
    Utils.minutesToSeconds m <= (now - opened) / 1000 ->
    let st := UseStorage.mkStore cs (Some old) in
    let loaded :=
      TimerScreen.step TimerScreen.Loaded
        (TimerScreen.mount courseId m current opened, st) in
    UseStorage.sessions (TimerScreen.storage (fst loaded)) = old
    /\ UseStorage.persisted
         (snd (TimerScreen.step (TimerScreen.Tick now stamp true) loaded))
       = [Session.mk (Utils.uid "s_" stamp) courseId now
            (Utils.minutesToSeconds m) (Utils.minutesToSeconds m) false].
Proof.
  intros courseId m opened now stamp current cs old Hop Hle st loaded.
  assert (Hrun0 : TimerScreen.runningFrom opened
                    (TimerScreen.mount courseId m current opened)).
  { repeat split; try reflexivity. assumption. }
  unfold loaded. rewrite (step_loaded_running opened) by assumption.
  cbn [fst snd]. split; [reflexivity|].
  rewrite (step_tick_complete _ _ opened now stamp true).
  - reflexivity.
  - repeat split; try reflexivity. assumption.
  - exact Hle.
Qed.

(** The store holds a session of another course; the one-minute timer for
    [c_a] completes: only its record is left. *)
Lemma completion_replaces_collection_witness :
  UseStorage.persisted
    (snd (TimerScreen.step (TimerScreen.Tick 61000 "k1" true)
            (TimerScreen.step TimerScreen.Loaded
               (TimerScreen.mount "c_a" 1 TimerScreen.active 1000,
                UseStorage.mkStore None (Some [Scenario.sessionB1])))))
  = [Session.mk "s__k1" "c_a" 61000 60 60 false].
Proof.
  assert (H0 : 1000 <> 0) by discriminate.
  assert (H1 : Utils.minutesToSeconds 1 <= (61000 - 1000) / 1000).
  { vm_compute. discriminate. }
  exact (proj2 (completion_of_unpaused_run_replaces_collection
                  "c_a" 1 1000 61000 "k1" TimerScreen.active None
                  [Scenario.sessionB1] H0 H1)).
Defined.

(** ** The two defects in general form *)

Section Defects.

Import UseStorage TimerScreen.

Lemma commit_mounted (old new : TimerScreen.t) :
  mounted (commit old new) = mounted new.
Proof. unfold commit. destruct (negb _ && _); reflexivity. Qed.

(** Whenever a running timer returns from the background after more time
    than its target and Terminate is pressed before the next tick, the
    record that is persisted has a duration above its target. *)
Lemma foreground_overshoot_is_persisted (sc : TimerScreen.t) (st : Store)
      (t0 now : Z) (stamp : string) :
  runningFrom t0 sc ->
  matchesInactiveOrBackground (appStateRef sc) = true ->
  0 <= TimerState.targetSeconds (timerState sc) < (now - t0) / 1000 ->
  exists s,
    In s (persisted
            (snd (run [AppStateChange active now;
                       PressTerminate now stamp true] (sc, st))))
    /\ Session.isPartial s = true
    /\ Session.targetSeconds s < Session.durationSeconds s.
Proof.
  intros Hrun Hbg Hover. unfold run. cbn [fold_left].
  rewrite (step_appState_running _ _ t0) by assumption.
  destruct (handleAppStateChange_running active now t0 sc Hrun)
    as ((Hm & _) & Htgt & _ & H).
  destruct (H Hbg eq_refl) as (Hel & _).
  set (sc1 := handleAppStateChange active now sc) in *.
  unfold step. rewrite Hm. cbn [negb]. unfold handleTerminate.
  rewrite Hel, Htgt.
  destruct (Z.eqb_spec ((now - t0) / 1000) 0) as [E|_]; [lia|].
  unfold addSession. cbn [fst snd persisted SESSIONS].
  eexists. split; [apply in_or_app; right; left; reflexivity|].
  cbn. split; [reflexivity | lia].
Qed.

(** Whenever Resume is pressed on a timer that has completed, the next tick
    completes it again and persists one more full record. *)
Lemma resume_after_completion_completes_again (sc : TimerScreen.t)
      (st : Store) (resumeAt tickAt : Z) (stamp : string) :
  mounted sc = true ->
  TimerState.isRunning (timerState sc) = false ->
  TimerState.remainingSeconds (timerState sc) = 0 ->
  resumeAt - TimerState.targetSeconds (timerState sc) * 1000 <> 0 ->
  resumeAt <= tickAt ->
  SESSIONS
    (snd (run [PressPauseResume resumeAt; Tick tickAt stamp true] (sc, st)))
  = Some (sessions (storage sc)
          ++ [Session.mk (Utils.uid "s_" stamp) (courseId sc) tickAt
                (TimerState.targetSeconds (timerState sc))
                (TimerState.targetSeconds (timerState sc)) false]).
Proof.
  intros Hm Hr Hrem Hne Hle. unfold run. cbn [fold_left].
  set (T := TimerState.targetSeconds (timerState sc)) in *.
  assert (Hstep : step (PressPauseResume resumeAt) (sc, st)
                  = (commit sc (handleResume resumeAt sc), st)).
  { unfold step. rewrite Hm, Hr. reflexivity. }
  rewrite Hstep.
  set (sc1 := commit sc (handleResume resumeAt sc)).
  destruct (commit_started sc (handleResume resumeAt sc) Hr eq_refl)
    as (Htt & Hts).
  destruct (commit_fields sc (handleResume resumeAt sc)) as (Hts1 & _).
  fold sc1 in Htt, Hts, Hts1.
  assert (Hrun : runningFrom (resumeAt - T * 1000) sc1).
  { unfold runningFrom. rewrite Hts1. unfold sc1. rewrite commit_mounted.
    cbn. rewrite Hrem, Z.sub_0_r. fold T. repeat split; assumption. }
  assert (Htgt : TimerState.targetSeconds (timerState sc1) = T).
  { rewrite Hts1. reflexivity. }
  rewrite (step_tick_complete sc1 st (resumeAt - T * 1000) tickAt stamp true Hrun).
  - rewrite handleTimerComplete_resolved. cbn [snd SESSIONS].
    cbn [tickSessions tickTarget courseId setTimerState].
    rewrite Htt, Hts. unfold sc1.
    replace (courseId (commit sc (handleResume resumeAt sc))) with (courseId sc)
      by (unfold commit; destruct (negb _ && _); reflexivity).
    reflexivity.
  - rewrite Htgt. apply Z.div_le_lower_bound; lia.
Qed.

End Defects.

(** ** Text *)

Section TextFacts.

Import Text.

Lemma trimStart_head (s : string) :
  Utils.trimStart s = EmptyString
  \/ exists a r, Utils.trimStart s = String a r /\ Utils.isWhiteSpace a = false.
Proof.
  induction s as [|a r IH]; cbn; [now left|].
  destruct (Utils.isWhiteSpace a) eqn:E; [exact IH|].
  right. exists a, r. split; [reflexivity | exact E].
Qed.

Lemma trimStart_fixed (a : ascii) (r : string) :
  Utils.isWhiteSpace a = false -> Utils.trimStart (String a r) = String a r.
Proof. intros H. cbn. now rewrite H. Qed.

(** [trimEnd] keeps a first character that is not white space. *)
Lemma trimEnd_head (a : ascii) (r : string) :
  Utils.isWhiteSpace a = false ->
  exists r', trimEnd (String a r) = String a r'.
Proof.
  intros H. cbn. destruct (trimEnd r) as [|b r'].
  - rewrite H. now exists EmptyString.
  - now exists (String b r').
Qed.

Lemma trimEnd_idempotent (s : string) : trimEnd (trimEnd s) = trimEnd s.
Proof.
  induction s as [|a r IH]; [reflexivity|].
  cbn. destruct (trimEnd r) as [|b r'] eqn:E.
  - destruct (Utils.isWhiteSpace a) eqn:Ea; [reflexivity|].
    cbn. now rewrite Ea.
  - cbn [trimEnd] in *. rewrite IH. reflexivity.
Qed.

(** Trimming twice is trimming once. *)
Lemma trim_idempotent (s : string) : trim (trim s) = trim s.
Proof.
  unfold trim. destruct (trimStart_head s) as [E|(a & r & E & Ha)]; rewrite E.
  - reflexivity.
  - destruct (trimEnd_head a r Ha) as (r' & E').
    rewrite E', (trimStart_fixed a r' Ha), <- E'. apply trimEnd_idempotent.
Qed.

Lemma trimEnd_no_space (s : string) :
  allChars (fun a => negb (Utils.isWhiteSpace a)) s = true -> trimEnd s = s.
Proof.
  induction s as [|a r IH]; [reflexivity|].
  cbn. rewrite andb_true_iff, negb_true_iff. intros [Ha Hr].
  rewrite (IH Hr). destruct r; [now rewrite Ha | reflexivity].
Qed.

(** A text without white space is its own trimmed form. *)
Lemma trim_no_space (s : string) :
  allChars (fun a => negb (Utils.isWhiteSpace a)) s = true -> trim s = s.
Proof.
  intros H. unfold trim. destruct s as [|a r]; [reflexivity|].
  pose proof H as H'. cbn in H'. rewrite andb_true_iff, negb_true_iff in H'.
  rewrite (trimStart_fixed a r (proj1 H')). now apply trimEnd_no_space.
Qed.

Lemma allChars_app (p : ascii -> bool) (s1 s2 : string) :
  allChars p (String.append s1 s2) = allChars p s1 && allChars p s2.
Proof.
  induction s1 as [|a r IH]; cbn; [reflexivity|].
  now rewrite IH, andb_assoc.
Qed.

Lemma countChars_app (p : ascii -> bool) (s1 s2 : string) :
  countChars p (String.append s1 s2)
  = (countChars p s1 + countChars p s2)%nat.
Proof.
  induction s1 as [|a r IH]; cbn; [reflexivity|]. rewrite IH. lia.
Qed.

Lemma allChars_weaken (p q : ascii -> bool) (s : string) :
  (forall a, p a = true -> q a = true) ->
  allChars p s = true -> allChars q s = true.
Proof.
  intros Hpq. induction s as [|a r IH]; cbn; [trivial|].
  rewrite !andb_true_iff. intros [Ha Hr]. split; [now apply Hpq | now apply IH].
Qed.

Lemma countChars_none (p q : ascii -> bool) (s : string) :
  (forall a, p a = true -> q a = false) ->
  allChars p s = true -> countChars q s = O.
Proof.
  intros Hpq. induction s as [|a r IH]; cbn; [trivial|].
  rewrite andb_true_iff. intros [Ha Hr]. now rewrite (Hpq a Ha), (IH Hr).
Qed.

End TextFacts.

(** ** Regular expressions and the e-mail pattern *)

Section EmailFacts.

Import Text Email.

Lemma append_empty (s1 s2 : string) :
  String.append s1 s2 = EmptyString -> s1 = EmptyString /\ s2 = EmptyString.
Proof. destruct s1; cbn; [auto | discriminate]. Qed.

Lemma seq_inv (r1 r2 : regex) (s : string) :
  Matches (Seq r1 r2) s ->
  exists s1 s2, s = String.append s1 s2 /\ Matches r1 s1 /\ Matches r2 s2.
Proof. intros H. inversion H; subst. eauto. Qed.

Lemma alt_inv (r1 r2 : regex) (s : string) :
  Matches (Alt r1 r2) s -> Matches r1 s \/ Matches r2 s.
Proof. intros H. inversion H; subst; auto. Qed.

Lemma class_inv (f : ascii -> bool) (s : string) :
  Matches (Class f) s -> exists a, s = String a EmptyString /\ f a = true.
Proof. intros H. inversion H; subst. eauto. Qed.

Lemma nullable_spec (r : regex) :
  nullable r = true <-> Matches r EmptyString.
Proof.
  induction r as [| |f|r1 IH1 r2 IH2|r1 IH1 r2 IH2|r IH]; cbn.
  - split; [discriminate | intros H; inversion H].
  - split; [intros _; constructor | reflexivity].
  - split; [discriminate|]. intros H.
    destruct (class_inv _ _ H) as (a & Ha & _). discriminate.
  - rewrite andb_true_iff, IH1, IH2. split.
    + intros [H1 H2]. exact (MSeq _ _ _ _ H1 H2).
    + intros H. destruct (seq_inv _ _ _ H) as (s1 & s2 & Hs & H1 & H2).
      symmetry in Hs. apply append_empty in Hs. destruct Hs; subst. now split.
  - rewrite orb_true_iff, IH1, IH2. split.
    + intros [H|H]; [now apply MAltL | now apply MAltR].
    + apply alt_inv.
  - split; [intros _; constructor | reflexivity].
Qed.

(** A non-empty match of a repetition starts with a non-empty match of its
    body. *)
Lemma star_cons (r : regex) (a : ascii) (s : string) :
  Matches (Star r) (String a s) ->
  exists s1 s2, s = String.append s1 s2
                /\ Matches r (String a s1) /\ Matches (Star r) s2.
Proof.
  intros H. remember (Star r) as r' eqn:Er. remember (String a s) as t eqn:Et.
  revert s Et.
  induction H as [|f b Hb|r1 r2 s1 s2 H1 _ H2 _|r1 r2 u Hu _|r1 r2 u Hu _|r0
                  |r0 s1 s2 H1 _ H2 IH2];
    intros s' Et; try discriminate.
  injection Er as ->. destruct s1 as [|b s1'].
  - cbn in Et. now apply IH2.
  - cbn in Et. injection Et as -> <-. now exists s1', s2.
Qed.

Lemma deriv_sound (a : ascii) (r : regex) (s : string) :
  Matches (deriv a r) s -> Matches r (String a s).
Proof.
  revert s.
  induction r as [| |f|r1 IH1 r2 IH2|r1 IH1 r2 IH2|r IH]; intros s H; cbn in H.
  - inversion H.
  - inversion H.
  - destruct (f a) eqn:E; inversion H; subst. now constructor.
  - assert (Hseq : forall t, Matches (Seq (deriv a r1) r2) t ->
                             Matches (Seq r1 r2) (String a t)).
    { intros t Ht. destruct (seq_inv _ _ _ Ht) as (s1 & s2 & -> & H1 & H2).
      exact (MSeq _ _ _ _ (IH1 _ H1) H2). }
    destruct (nullable r1) eqn:E; [|now apply Hseq].
    destruct (alt_inv _ _ _ H) as [Hl|Hr]; [now apply Hseq|].
    apply nullable_spec in E.
    exact (MSeq _ _ EmptyString _ E (IH2 _ Hr)).
  - destruct (alt_inv _ _ _ H) as [Hl|Hr]; [apply MAltL | apply MAltR]; auto.
  - destruct (seq_inv _ _ _ H) as (s1 & s2 & -> & H1 & H2).
    exact (MStarApp _ _ _ (IH _ H1) H2).
Qed.

Lemma deriv_complete (a : ascii) (r : regex) (s : string) :
  Matches r (String a s) -> Matches (deriv a r) s.
Proof.
  revert s.
  induction r as [| |f|r1 IH1 r2 IH2|r1 IH1 r2 IH2|r IH]; intros s H; cbn.
  - inversion H.
  - inversion H.
  - destruct (class_inv _ _ H) as (b & Hb & Hf). injection Hb as -> ->.
    rewrite Hf. constructor.
  - destruct (seq_inv _ _ _ H) as (s1 & s2 & Hs & H1 & H2).
    destruct s1 as [|b s1'].
    + cbn in Hs. subst s2. apply nullable_spec in H1. rewrite H1.
      apply MAltR. now apply IH2.
    + cbn in Hs. injection Hs as -> ->.
      pose proof (MSeq _ _ _ _ (IH1 _ H1) H2) as Hd.
      destruct (nullable r1); [now apply MAltL | exact Hd].
  - destruct (alt_inv _ _ _ H) as [Hl|Hr]; [apply MAltL | apply MAltR]; auto.
  - destruct (star_cons r a s H) as (s1 & s2 & -> & H1 & H2).
    exact (MSeq _ _ _ _ (IH _ H1) H2).
Qed.

(** The matcher decides the denotation. *)
Lemma test_spec (r : regex) (s : string) : test r s = true <-> Matches r s.
Proof.
  revert r. induction s as [|a t IH]; intros r; cbn.
  - apply nullable_spec.
  - rewrite IH. split; [apply deriv_sound | apply deriv_complete].
Qed.

Lemma star_class (f : ascii -> bool) (s : string) :
  Matches (Star (Class f)) s <-> allChars f s = true.
Proof.
  split.
  - intros H. remember (Star (Class f)) as r eqn:Er.
    induction H as [| | | | | |r0 s1 s2 H1 _ H2 IH2]; try discriminate.
    + reflexivity.
    + injection Er as ->. destruct (class_inv _ _ H1) as (a & -> & Ha). cbn.
      rewrite andb_true_iff. split; [assumption | now apply IH2].
  - induction s as [|a t IH]; cbn; [intros _; constructor|].
    rewrite andb_true_iff. intros [Ha Ht].
    exact (MStarApp _ (String a EmptyString) t (MClass f a Ha) (IH Ht)).
Qed.

Lemma plus_class (f : ascii -> bool) (s : string) :
  Matches (Plus (Class f)) s <-> s <> EmptyString /\ allChars f s = true.
Proof.
  unfold Plus. split.
  - intros H. destruct (seq_inv _ _ _ H) as (s1 & s2 & -> & H1 & H2).
    destruct (class_inv _ _ H1) as (a & -> & Ha).
    apply star_class in H2. cbn. split; [discriminate|].
    rewrite andb_true_iff. now split.
  - intros [Hne Hall]. destruct s as [|a t]; [contradiction|].
    cbn in Hall. rewrite andb_true_iff in Hall. destruct Hall as [Ha Ht].
    exact (MSeq _ _ (String a EmptyString) t (MClass f a Ha)
                (proj2 (star_class f t) Ht)).
Qed.

Lemma class_char (c : ascii) (s : string) :
  Matches (Class (Ascii.eqb c)) s <-> s = String c EmptyString.
Proof.
  split.
  - intros H. destruct (class_inv _ _ H) as (a & -> & Ha).
    apply Ascii.eqb_eq in Ha. now subst.
  - intros ->. constructor. apply Ascii.eqb_refl.
Qed.

(** The texts of the e-mail pattern: a word, [@], a word, a dot, a word. *)
Lemma emailRegex_spec (s : string) :
  Matches emailRegex s
  <-> exists a b c,
        s = String.append a (String "@" (String.append b (String "." c)))
        /\ word a /\ word b /\ word c.
Proof.
  unfold emailRegex, word. split.
  - intros H.
    destruct (seq_inv _ _ _ H) as (a & s1 & -> & Ha & H1).
    destruct (seq_inv _ _ _ H1) as (at_ & s2 & -> & Hat & H2).
    destruct (seq_inv _ _ _ H2) as (b & s3 & -> & Hb & H3).
    destruct (seq_inv _ _ _ H3) as (dot & c & -> & Hdot & Hc).
    apply class_char in Hat, Hdot. subst.
    apply plus_class in Ha, Hb, Hc. exists a, b, c. cbn. auto.
  - intros (a & b & c & -> & Ha & Hb & Hc).
    apply plus_class in Ha, Hb, Hc.
    apply MSeq; [assumption|].
    apply (MSeq _ _ (String "@" EmptyString)); [now apply class_char|].
    apply MSeq; [assumption|].
    apply (MSeq _ _ (String "." EmptyString)); [now apply class_char | assumption].
Qed.

End EmailFacts.

Section EmailUse.

Import Text Email.

Lemma notSpaceOrAt_not_space (a : ascii) :
  notSpaceOrAt a = true -> negb (Utils.isWhiteSpace a) = true.
Proof.
  unfold notSpaceOrAt. rewrite negb_true_iff, orb_false_iff.
  intros [H _]. now rewrite H.
Qed.

Lemma notSpaceOrAt_not_at (a : ascii) :
  notSpaceOrAt a = true -> Ascii.eqb "@" a = false.
Proof.
  unfold notSpaceOrAt. rewrite negb_true_iff, orb_false_iff.
  intros [_ H]. now rewrite Ascii.eqb_sym.
Qed.

(** What a text accepted by the pattern looks like as a whole. *)
Lemma valid_email_shape (email : string) :
  isValidEmail email = true ->
  email <> EmptyString
  /\ allChars (fun a => negb (Utils.isWhiteSpace a)) email = true
  /\ countChars (Ascii.eqb "@") email = 1%nat
  /\ trim email = email.
Proof.
  intros H. apply test_spec, emailRegex_spec in H.
  destruct H as (a & b & c & -> & (Hna & Ha) & (Hnb & Hb) & (Hnc & Hc)).
  assert (Hall : allChars (fun a => negb (Utils.isWhiteSpace a))
                   (String.append a
                      (String "@" (String.append b (String "." c)))) = true).
  { rewrite allChars_app. cbn [allChars]. rewrite allChars_app. cbn [allChars].
    rewrite (allChars_weaken _ _ a notSpaceOrAt_not_space Ha),
            (allChars_weaken _ _ b notSpaceOrAt_not_space Hb),
            (allChars_weaken _ _ c notSpaceOrAt_not_space Hc).
    reflexivity. }
  split; [destruct a; [contradiction | discriminate]|].
  split; [exact Hall|]. split; [|now apply trim_no_space].
  rewrite countChars_app. cbn [countChars]. rewrite countChars_app.
  cbn [countChars].
  rewrite (countChars_none _ _ a notSpaceOrAt_not_at Ha),
          (countChars_none _ _ b notSpaceOrAt_not_at Hb),
          (countChars_none _ _ c notSpaceOrAt_not_at Hc).
  reflexivity.
Qed.

End EmailUse.

(** [isValidEmail] accepts exactly the texts made of a word, [@], a word, a
    dot and a word, a word being a non-empty text without white space and
    without [@] (dots are allowed in words).  An accepted text is not empty,
    holds no white space and exactly one [@], and trimming leaves it as it
    is. *)
Theorem isValidEmail_accepts_exactly :
  forall email : string,
    (Email.isValidEmail email = true
     <-> exists a b c,
           email = String.append a
                     (String "@" (String.append b (String "." c)))
           /\ Email.word a /\ Email.word b /\ Email.word c)
    /\ (Email.isValidEmail email = true ->
        email <> EmptyString
        /\ Text.allChars (fun a => negb (Utils.isWhiteSpace a)) email = true
        /\ Text.countChars (Ascii.eqb "@") email = 1%nat
        /\ Text.trim email = email).
Proof.
  intros email. split; [|apply valid_email_shape].
  unfold Email.isValidEmail. rewrite test_spec. apply emailRegex_spec.
Qed.

Example isValidEmail_plain : Email.isValidEmail "ann@example.org" = true.
Proof. reflexivity. Qed.

Example isValidEmail_no_dot : Email.isValidEmail "ann@example" = false.
Proof. reflexivity. Qed.

Example isValidEmail_two_ats : Email.isValidEmail "a@b@c.d" = false.
Proof. reflexivity. Qed.

Example isValidEmail_trailing_space :
  Email.isValidEmail "ann@example.org " = false.
Proof. reflexivity. Qed.

Example isValidEmail_dot_first_in_domain : Email.isValidEmail "a@.b" = false.
Proof. reflexivity. Qed.

Example isValidEmail_dots_only : Email.isValidEmail ".@..." = true.
Proof. reflexivity. Qed.

Section Auth.

Import Text AuthScreen.

Lemma valid_email_not_blank (email : string) :
  Email.isValidEmail email = true -> blank email = false.
Proof.
  intros H. destruct (valid_email_shape email H) as (Hne & _ & _ & Ht).
  unfold blank. rewrite Ht. destruct email; [contradiction | reflexivity].
Qed.

End Auth.

(** [handleAuth] hands a user to [setUser] exactly when the password is not
    blank, the e-mail passes [isValidEmail] and, for a sign-up, the name is
    not blank.  The stored e-mail is then the text as typed, the stored name
    is the trimmed name or absent, and the password is not part of the
    record: any two non-blank passwords give the same result, for sign-in
    as for sign-up. *)
Theorem handleAuth_accepts_exactly :
  forall (isLogin : bool) (email password name stamp : string) (now : Z),
    ((exists u, AuthScreen.handleAuth isLogin email password name stamp now
                = AuthScreen.SetUser u)
     <-> Text.blank password = false
         /\ Email.isValidEmail email = true
         /\ (isLogin = true \/ Text.blank name = false))
    /\ (forall u,
          AuthScreen.handleAuth isLogin email password name stamp now
          = AuthScreen.SetUser u ->
          AuthScreen.email u = email
          /\ AuthScreen.id u = Utils.uid "u_" stamp
          /\ AuthScreen.createdAt u = now
          /\ AuthScreen.name u
             = (if Text.blank name then None else Some (Text.trim name)))
    /\ (forall password',
          Text.blank password = false -> Text.blank password' = false ->
          AuthScreen.handleAuth isLogin email password' name stamp now
          = AuthScreen.handleAuth isLogin email password name stamp now).
Proof.
  intros isLogin email password name stamp now.
  unfold AuthScreen.handleAuth. split; [|split].
  - split.
    + intros (u & H).
      destruct (Text.blank email) eqn:Ee; [discriminate|].
      destruct (Text.blank password) eqn:Ep; [discriminate|]. cbn in H.
      destruct (Email.isValidEmail email) eqn:Ev; [|discriminate]. cbn in H.
      destruct isLogin; [auto|]. cbn in H.
      destruct (Text.blank name); [discriminate | auto].
    + intros (Hp & Hv & Hn).
      rewrite (valid_email_not_blank email Hv), Hp, Hv. cbn.
      destruct Hn as [-> | ->]; [cbn | rewrite andb_false_r]; eauto.
  - intros u H.
    destruct (Text.blank email) eqn:Ee; [discriminate|].
    destruct (Text.blank password) eqn:Ep; [discriminate|]. cbn in H.
    destruct (Email.isValidEmail email) eqn:Ev; [|discriminate]. cbn in H.
    destruct (valid_email_shape email Ev) as (_ & _ & _ & Ht).
    destruct (negb isLogin && Text.blank name); [discriminate|].
    injection H as <-. cbn. rewrite Ht. repeat split.
  - intros password' Hp Hp'. now rewrite Hp, Hp'.
Qed.

(** ** Display helpers *)

Section FormatFacts.

Import Format.

(** [Math.round (seconds / 60)] in closed form. *)
Lemma secondsToMinutes_closed (seconds : Z) :
  secondsToMinutes seconds = (seconds + 30) / 60.
Proof.
  unfold secondsToMinutes, round, Qfloor.
  cbn [Qplus Qdiv Qmult Qinv inject_Z Qnum Qden].
  change (Z.pos (1 * 60 * 2)) with (60 * 2).
  change (Z.pos (1 * 60)) with 60.
  replace (seconds * 1 * 2 + 1 * 60) with ((seconds + 30) * 2) by ring.
  apply Z.div_mul_cancel_r; lia.
Qed.

Lemma ceil_div (d D : Z) : 0 < D -> - (- d / D) = (d + (D - 1)) / D.
Proof.
  intros HD.
  pose proof (Z.div_mod (- d) D ltac:(lia)) as Hdm.
  pose proof (Z.mod_pos_bound (- d) D HD) as Hb.
  apply Z.div_unique with (r := D - 1 - (- d) mod D); [left; lia | lia].
Qed.

(** [Math.ceil (diff / 86400000)] in closed form. *)
Lemma daysBetween_closed (date1 date2 : Z) :
  daysBetween date1 date2 = (Z.abs (date2 - date1) + 86399999) / 86400000.
Proof.
  unfold daysBetween, Qceiling, Qfloor.
  change (1000 * 60 * 60 * 24) with 86400000.
  cbn [Qplus Qdiv Qmult Qinv inject_Z Qnum Qden Qopp].
  change (Z.pos (1 * 86400000)) with 86400000.
  rewrite Z.mul_1_r. apply (ceil_div _ 86400000). lia.
Qed.

(** Numbers below one hundred print with one or two characters, so their
    padded form has exactly two. *)
Lemma padStart2_width (n : Z) :
  0 <= n < 100 -> String.length (padStart2 (toString n)) = 2%nat.
Proof.
  intros Hn.
  assert (Hall : forallb
                   (fun k => (String.length (padStart2 (toString (Z.of_nat k)))
                              =? 2)%nat)
                   (seq 0 100) = true) by (vm_compute; reflexivity).
  rewrite forallb_forall in Hall.
  specialize (Hall (Z.to_nat n)). rewrite Z2Nat.id in Hall by lia.
  apply Nat.eqb_eq, Hall, in_seq. lia.
Qed.

End FormatFacts.

(** [secondsToMinutes] rounds to the nearest minute, halves going up: the
    result is within thirty seconds of its argument, it grows with it, a
    duration under thirty seconds shows as zero minutes, and it undoes
    [minutesToSeconds]. *)
Theorem secondsToMinutes_rounds_to_nearest_minute :
  forall seconds : Z,
    let m := Format.secondsToMinutes seconds in
    (60 * m - 30 <= seconds < 60 * m + 30)
    /\ (forall seconds', seconds <= seconds' ->
                         m <= Format.secondsToMinutes seconds')
    /\ (0 <= seconds < 30 -> m = 0)
    /\ Format.secondsToMinutes (Utils.minutesToSeconds seconds) = seconds.
Proof.
  intros seconds m. unfold m. rewrite !secondsToMinutes_closed.
  pose proof (Z.div_mod (seconds + 30) 60 ltac:(lia)) as Hdm.
  pose proof (Z.mod_pos_bound (seconds + 30) 60 ltac:(lia)) as Hb.
  split; [lia|]. split; [|split].
  - intros seconds' Hle. rewrite secondsToMinutes_closed.
    apply Z.div_le_mono; lia.
  - intros Hs. apply Z.div_small. lia.
  - unfold Utils.minutesToSeconds.
    symmetry. apply Z.div_unique with (r := 30); lia.
Qed.

(** [daysBetween] counts started days between two instants: it does not
    depend on their order, it is zero only for equal instants, and for
    distinct ones it is the least [n] with [|date2 - date1| <= n] days, so
    two instants one millisecond apart are one day apart. *)
Theorem daysBetween_counts_started_days :
  forall date1 date2 : Z,
    let n := Format.daysBetween date1 date2 in
    Format.daysBetween date2 date1 = n
    /\ (n = 0 <-> date1 = date2)
    /\ ((n - 1) * Utils.msPerDay < Z.abs (date2 - date1)
        \/ date1 = date2)
    /\ Z.abs (date2 - date1) <= n * Utils.msPerDay
    /\ Format.daysBetween date1 (date1 + 1) = 1.
Proof.
  intros date1 date2 n. unfold n. rewrite !daysBetween_closed.
  unfold Utils.msPerDay.
  replace (Z.abs (date1 - date2)) with (Z.abs (date2 - date1)) by lia.
  set (d := Z.abs (date2 - date1)).
  assert (Hd : 0 <= d) by (unfold d; lia).
  pose proof (Z.div_mod (d + 86399999) 86400000 ltac:(lia)) as Hdm.
  pose proof (Z.mod_pos_bound (d + 86399999) 86400000 ltac:(lia)) as Hb.
  split; [reflexivity|]. split; [|split; [|split]].
  - split; intros H.
    + rewrite H in Hdm. unfold d in *. lia.
    + assert (d = 0) as -> by (unfold d; lia). reflexivity.
  - destruct (Z.eq_dec date1 date2); [now right | left; lia].
  - lia.
  - replace (date1 + 1 - date1) with 1 by lia. reflexivity.
Qed.

(** For a non-negative number of seconds, the three numbers printed by
    [secondsToHms] are the hours, the minutes below sixty and the seconds
    below sixty that add up to it; minutes and seconds after a colon are
    printed with exactly two characters; and the hours are left out exactly
    when the time is under one hour. *)
Theorem secondsToHms_fields :
  forall seconds : Z,
    0 <= seconds ->
    let h := Format.hmsHours seconds in
    let m := Format.hmsMinutes seconds in
    let r := Format.hmsSeconds seconds in
    0 <= h /\ 0 <= m < 60 /\ 0 <= r < 60
    /\ h * 3600 + m * 60 + r = seconds
    /\ String.length (Format.padStart2 (Format.toString m)) = 2%nat
    /\ String.length (Format.padStart2 (Format.toString r)) = 2%nat
    /\ (seconds < 3600 ->
        Format.secondsToHms seconds
        = String.append (Format.toString m)
            (String.append ":" (Format.padStart2 (Format.toString r))))
    /\ (3600 <= seconds ->
        Format.secondsToHms seconds
        = String.append (Format.toString h)
            (String.append ":"
               (String.append (Format.padStart2 (Format.toString m))
                  (String.append ":"
                     (Format.padStart2 (Format.toString r)))))).
Proof.
  intros seconds Hs h m r.
  unfold h, m, r, Format.secondsToHms, Format.hmsHours, Format.hmsMinutes,
    Format.hmsSeconds.
  rewrite !Z.rem_mod_nonneg by lia.
  pose proof (Z.div_mod seconds 3600 ltac:(lia)) as H1.
  pose proof (Z.mod_pos_bound seconds 3600 ltac:(lia)) as B1.
  pose proof (Z.div_mod (seconds mod 3600) 60 ltac:(lia)) as H2.
  pose proof (Z.mod_pos_bound (seconds mod 3600) 60 ltac:(lia)) as B2.
  pose proof (Z.mod_pos_bound seconds 60 ltac:(lia)) as B3.
  assert (Hmm : (seconds mod 3600) mod 60 = seconds mod 60).
  { apply Z.mod_mod_divide. exists 60. reflexivity. }
  assert (Hh : 0 <= seconds / 3600) by (apply Z.div_pos; lia).
  assert (Hm : 0 <= seconds mod 3600 / 60 < 60).
  { split; [apply Z.div_pos; lia | apply Z.div_lt_upper_bound; lia]. }
  split; [exact Hh|]. split; [exact Hm|]. split; [lia|]. split; [lia|].
  split; [apply padStart2_width; lia|].
  split; [apply padStart2_width; lia|]. split.
  - intros Hlt. rewrite (Z.div_small seconds 3600) by lia. reflexivity.
  - intros Hge.
    assert (0 < seconds / 3600) by (apply Z.div_str_pos; lia).
    replace (0 <? seconds / 3600) with true
      by (symmetry; apply Z.ltb_lt; assumption).
    reflexivity.
Qed.

(** One hour, one minute and one second. *)
Lemma secondsToHms_fields_witness :
  0 <= 3661 /\ Format.secondsToHms 3661 = "1:01:01".
Proof.
  assert (H : 0 <= 3661) by lia. split; [exact H|].
  destruct (secondsToHms_fields 3661 H) as (_ & _ & _ & _ & _ & _ & _ & Hfmt).
  rewrite Hfmt by lia. vm_compute. reflexivity.
Defined.

Example secondsToHms_125 : Format.secondsToHms 125 = "2:05".
Proof. vm_compute. reflexivity. Qed.

Example secondsToHms_59 : Format.secondsToHms 59 = "0:59".
Proof. vm_compute. reflexivity. Qed.

(** ** More on the timer screen *)

Section TimerMore.

Import UseStorage TimerScreen.

Lemma tickUpdate_remaining (now : Z) (prev : TimerState.t) :
  0 <= TimerState.remainingSeconds (fst (tickUpdate now prev)).
Proof.
  unfold tickUpdate. destruct (_ <=? 0); cbn; lia.
Qed.

(** Every event keeps the route parameter and leaves a remaining time that
    is not negative, provided both hold before. *)
Lemma step_remaining (e : event) (sc : TimerScreen.t) (st : Store) :
  0 <= durationMinutes sc ->
  0 <= TimerState.remainingSeconds (timerState sc) ->
  0 <= durationMinutes (fst (step e (sc, st)))
  /\ 0 <= TimerState.remainingSeconds (timerState (fst (step e (sc, st)))).
Proof.
  intros Hd Hr. unfold step. destruct (mounted sc); cbn [negb]; [|cbn; auto].
  destruct e;
    try (cbn [fst];
         match goal with |- context [commit ?a ?b] =>
           destruct (commit_fields a b) as [-> ->] end;
         cbn; unfold Utils.minutesToSeconds; split; lia).
  - unfold tick. destruct (TimerState.isRunning (timerState sc)).
    + pose proof (tickUpdate_remaining now (timerState sc)) as Ht.
      destruct (tickUpdate now (timerState sc)) as [ts completed].
      cbn [fst] in Ht. destruct completed.
      * unfold handleTimerComplete, addSession. destruct w; cbn [fst];
          match goal with |- context [commit ?a ?b] =>
            destruct (commit_fields a b) as [-> ->] end; cbn; auto.
      * cbn [fst]. match goal with |- context [commit ?a ?b] =>
            destruct (commit_fields a b) as [-> ->] end; cbn; auto.
    + cbn [fst]. destruct (commit_fields sc sc) as [-> ->]. auto.
  - cbn [fst]. match goal with |- context [commit ?a ?b] =>
      destruct (commit_fields a b) as [-> ->] end.
    unfold handleAppStateChange.
    destruct (matchesInactiveOrBackground (appStateRef sc)
              && match nextAppState with active => true | _ => false end);
      [destruct (TimerState.startTime (timerState sc)) as [t0|];
       [destruct (TimerState.isRunning (timerState sc) && negb (t0 =? 0))|]|];
      cbn; split; lia.
  - cbn [fst]. match goal with |- context [commit ?a ?b] =>
      destruct (commit_fields a b) as [-> ->] end.
    destruct (TimerState.isRunning (timerState sc)); cbn; auto.
  - unfold handleTerminate, addSession.
    destruct (TimerState.elapsedSeconds (timerState sc) =? 0); [|destruct w];
      cbn [fst]; match goal with |- context [commit ?a ?b] =>
        destruct (commit_fields a b) as [-> ->] end; cbn; auto.
  - cbn [fst]. match goal with |- context [commit ?a ?b] =>
      destruct (commit_fields a b) as [-> ->] end.
    destruct (handleCustomTimeSubmit_spec now sc)
      as [(m & _ & Hm & Hts & Hdm)|(_ & Heq)].
    + rewrite Hts, Hdm. cbn. unfold Utils.minutesToSeconds. split; lia.
    + rewrite Heq. auto.
Qed.

End TimerMore.

(** From the opening of the screen with a duration that is not negative,
    the remaining time is never negative, whatever events follow and
    whatever the clock reads at each of them. *)
Theorem remaining_time_is_never_negative :
  forall (courseId : string) (m : Z) (current : TimerScreen.AppStateStatus)
         (now : Z) (st : UseStorage.Store) (es : list TimerScreen.event),
    0 <= m ->
    0 <= TimerState.remainingSeconds
           (TimerScreen.timerState
              (fst (TimerScreen.run es
                      (TimerScreen.mount courseId m current now, st)))).
Proof.
  intros courseId m current now st es Hm.
  assert (H : forall (x : TimerScreen.t * UseStorage.Store),
             0 <= TimerScreen.durationMinutes (fst x) ->
             0 <= TimerState.remainingSeconds (TimerScreen.timerState (fst x)) ->
             0 <= TimerState.remainingSeconds
                    (TimerScreen.timerState (fst (TimerScreen.run es x)))).
  { induction es as [|e es IH]; intros [sc s0] Hd Hr; [exact Hr|].
    unfold TimerScreen.run. cbn [fold_left].
    fold (TimerScreen.run es (TimerScreen.step e (sc, s0))).
    destruct (step_remaining e sc s0 Hd Hr) as (Hd' & Hr').
    now apply IH. }
  apply H; cbn; unfold Utils.minutesToSeconds; lia.
Qed.

(** Two ticks with the clock set back in between. *)
Lemma remaining_time_witness :
  0 <= 25
  /\ 0 <= TimerState.remainingSeconds
            (TimerScreen.timerState
               (fst (TimerScreen.run
                       [TimerScreen.Tick 61000 "k" true;
                        TimerScreen.Tick (-5000000) "k" true]
                       (TimerScreen.mount "c_a" 25 TimerScreen.active 1000,
                        Scenario.emptyStore)))).
Proof.
  assert (H : 0 <= 25) by lia. split; [exact H|].
  exact (remaining_time_is_never_negative "c_a" 25 TimerScreen.active 1000
           Scenario.emptyStore _ H).
Defined.

(** Only a tick and the Terminate button can write: every other event (load,
    app-state change, Pause, Resume, Reset, the modal buttons, a new cycle,
    leaving the screen) leaves the store as it is, and so does a tick of a
    stopped timer, a tick before the target is reached, a tick or a
    Terminate whose write rejects, and a Terminate at zero elapsed seconds.
    In particular Reset discards the elapsed time without a record. *)
Theorem only_completion_and_terminate_write :
  (forall e sc st,
      match e with
      | TimerScreen.Tick _ _ _ | TimerScreen.PressTerminate _ _ _ => False
      | _ => True
      end ->
      snd (TimerScreen.step e (sc, st)) = st)
  /\ (forall es sc st,
        Forall (fun e => match e with
                         | TimerScreen.Tick _ _ _
                         | TimerScreen.PressTerminate _ _ _ => False
                         | _ => True
                         end) es ->
        snd (TimerScreen.run es (sc, st)) = st)
  /\ (forall now stamp sc st,
        snd (TimerScreen.step (TimerScreen.Tick now stamp false) (sc, st)) = st
        /\ snd (TimerScreen.step (TimerScreen.PressTerminate now stamp false)
                                 (sc, st)) = st)
  /\ (forall now stamp w sc st,
        TimerState.isRunning (TimerScreen.timerState sc) = false ->
        snd (TimerScreen.step (TimerScreen.Tick now stamp w) (sc, st)) = st)
  /\ (forall now stamp w sc st t0,
        TimerScreen.runningFrom t0 sc ->
        (now - t0) / 1000
        < TimerState.targetSeconds (TimerScreen.timerState sc) ->
        snd (TimerScreen.step (TimerScreen.Tick now stamp w) (sc, st)) = st)
  /\ (forall now stamp w sc st,
        TimerState.elapsedSeconds (TimerScreen.timerState sc) = 0 ->
        snd (TimerScreen.step (TimerScreen.PressTerminate now stamp w)
                              (sc, st)) = st).
Proof.
  assert (H1 : forall e sc st,
             match e with
             | TimerScreen.Tick _ _ _
             | TimerScreen.PressTerminate _ _ _ => False
             | _ => True
             end -> snd (TimerScreen.step e (sc, st)) = st).
  { intros e sc st He. unfold TimerScreen.step.
    destruct (TimerScreen.mounted sc); cbn [negb]; [|reflexivity].
    destruct e; try contradiction; reflexivity. }
  split; [exact H1|]. split; [|split; [|split; [|split]]].
  - intros es. induction es as [|e es IH]; intros sc st Hall; [reflexivity|].
    inversion Hall as [|? ? He Hes]; subst.
    unfold TimerScreen.run. cbn [fold_left].
    fold (TimerScreen.run es (TimerScreen.step e (sc, st))).
    pose proof (H1 e sc st He) as Hst.
    destruct (TimerScreen.step e (sc, st)) as [sc1 st1]. cbn in Hst. subst st1.
    now apply IH.
  - intros now stamp sc st. unfold TimerScreen.step.
    destruct (TimerScreen.mounted sc); cbn [negb]; [|split; reflexivity].
    split.
    + unfold TimerScreen.tick.
      destruct (TimerState.isRunning (TimerScreen.timerState sc));
        [|reflexivity].
      destruct (TimerScreen.tickUpdate now (TimerScreen.timerState sc))
        as [ts completed]. destruct completed; reflexivity.
    + unfold TimerScreen.handleTerminate.
      destruct (TimerState.elapsedSeconds (TimerScreen.timerState sc) =? 0);
        reflexivity.
  - intros now stamp w sc st Hr. now rewrite step_tick_stopped.
  - intros now stamp w sc st t0 Hrun Hlt.
    now rewrite (step_tick_running sc st t0).
  - intros now stamp w sc st He. unfold TimerScreen.step.
    destruct (TimerScreen.mounted sc); cbn [negb]; [|reflexivity].
    unfold TimerScreen.handleTerminate. rewrite He. reflexivity.
Qed.

(** Time spent paused does not count.  A running timer ticks at [t1] with
    [e1] whole seconds elapsed, is paused at any moment, is resumed at [t2]
    and ticks at [t3]: the elapsed time is then [e1] plus the whole seconds
    between [t2] and [t3], the remaining time is the target less that, and
    nothing was written. *)
Theorem paused_time_does_not_count :
  forall (sc : TimerScreen.t) (st : UseStorage.Store)
         (t0 t1 pausedAt t2 t3 : Z) (stamp : string) (w : bool),
    TimerScreen.runningFrom t0 sc ->
    let target := TimerState.targetSeconds (TimerScreen.timerState sc) in
    let e1 := (t1 - t0) / 1000 in
    e1 < target ->
    t2 - e1 * 1000 <> 0 ->
    e1 + (t3 - t2) / 1000 < target ->
    let res := TimerScreen.run
                 [TimerScreen.Tick t1 stamp w;
                  TimerScreen.PressPauseResume pausedAt;
                  TimerScreen.PressPauseResume t2;
                  TimerScreen.Tick t3 stamp w] (sc, st) in
    TimerState.elapsedSeconds (TimerScreen.timerState (fst res))
    = e1 + (t3 - t2) / 1000
    /\ TimerState.remainingSeconds (TimerScreen.timerState (fst res))
       = target - (e1 + (t3 - t2) / 1000)
    /\ TimerState.isRunning (TimerScreen.timerState (fst res)) = true
    /\ snd res = st.
Proof.
  intros sc st t0 t1 pausedAt t2 t3 stamp w Hrun target e1 H1 Hne H3 res.
  unfold res, TimerScreen.run. cbn [fold_left].
  rewrite (step_tick_running sc st t0 t1 stamp w Hrun H1).
  fold target e1.
  destruct Hrun as (Hm & Hr & Hs & Ht0).
  set (sc1 := TimerScreen.setTimerState _ sc).
  assert (Hp : TimerScreen.step (TimerScreen.PressPauseResume pausedAt) (sc1, st)
               = (TimerScreen.handlePause sc1, st)).
  { unfold TimerScreen.step. unfold sc1 at 1 2. cbn [TimerScreen.mounted
      TimerScreen.setTimerState TimerScreen.timerState TimerState.isRunning].
    rewrite Hm. cbn [negb]. rewrite commit_stopped; reflexivity. }
  rewrite Hp. set (sc2 := TimerScreen.handlePause sc1).
  assert (Hq : TimerScreen.step (TimerScreen.PressPauseResume t2) (sc2, st)
               = (TimerScreen.commit sc2 (TimerScreen.handleResume t2 sc2), st)).
  { unfold TimerScreen.step. unfold sc2 at 1 2, sc1 at 1 2.
    cbn [TimerScreen.mounted TimerScreen.handlePause TimerScreen.setTimerState
         TimerScreen.timerState TimerState.isRunning].
    rewrite Hm. reflexivity. }
  rewrite Hq. set (sc3 := TimerScreen.commit sc2 _).
  assert (Hts3 : TimerScreen.timerState sc3
                 = TimerState.mk true (target - e1) e1 target
                     (Some (t2 - e1 * 1000))).
  { unfold sc3. rewrite (proj1 (commit_fields _ _)). unfold sc2, sc1. cbn.
    fold target. do 2 f_equal. lia. }
  assert (Hrun3 : TimerScreen.runningFrom (t2 - e1 * 1000) sc3).
  { unfold TimerScreen.runningFrom. rewrite Hts3. unfold sc3.
    rewrite commit_mounted. cbn. repeat split; assumption. }
  assert (He3 : (t3 - (t2 - e1 * 1000)) / 1000 = e1 + (t3 - t2) / 1000).
  { replace (t3 - (t2 - e1 * 1000)) with (t3 - t2 + e1 * 1000) by lia.
    rewrite Z.div_add by lia. lia. }
  rewrite (step_tick_running sc3 st (t2 - e1 * 1000) t3 stamp w Hrun3)
    by (rewrite Hts3, He3; cbn; exact H3).
  cbn [fst snd TimerScreen.timerState TimerScreen.setTimerState
       TimerState.elapsedSeconds TimerState.remainingSeconds
       TimerState.isRunning].
  rewrite Hts3, He3. cbn [TimerState.targetSeconds]. repeat split.
Qed.

(** Five minutes on the clock, ten minutes of pause, three more minutes. *)
Lemma paused_time_witness :
  TimerState.elapsedSeconds
    (TimerScreen.timerState
       (fst (TimerScreen.run
               [TimerScreen.Tick 301000 "k" true;
                TimerScreen.PressPauseResume 301500;
                TimerScreen.PressPauseResume 901500;
                TimerScreen.Tick 1081500 "k" true]
               (TimerScreen.mount "c_a" 25 TimerScreen.active 1000,
                Scenario.emptyStore))))
  = 480.
Proof.
  assert (Hrun : TimerScreen.runningFrom 1000
                   (TimerScreen.mount "c_a" 25 TimerScreen.active 1000)).
  { repeat split; try reflexivity. discriminate. }
  refine (proj1 (paused_time_does_not_count
                   (TimerScreen.mount "c_a" 25 TimerScreen.active 1000)
                   Scenario.emptyStore 1000 301000 301500 901500 1081500
                   "k" true Hrun _ _ _)).
  - vm_compute. reflexivity.
  - vm_compute. discriminate.
  - vm_compute. reflexivity.
Defined.

(** Reset followed by Resume is a fresh start: whatever the state of the
    run, and also after a cycle with a custom duration, the timer then runs
    from the instant of the Resume with the duration the screen was opened
    with, no second elapsed, and nothing was written for the run that was
    reset. *)
Theorem reset_then_resume_is_a_fresh_start :
  forall (sc : TimerScreen.t) (st : UseStorage.Store) (now : Z),
    TimerScreen.mounted sc = true ->
    let res := TimerScreen.run
                 [TimerScreen.PressReset; TimerScreen.PressPauseResume now]
                 (sc, st) in
    TimerScreen.timerState (fst res)
    = TimerScreen.startedRun (TimerScreen.durationMinutes sc) now
    /\ TimerScreen.tickTarget (fst res)
       = Utils.minutesToSeconds (TimerScreen.durationMinutes sc)
    /\ snd res = st.
Proof.
  intros sc st now Hm res. unfold res, TimerScreen.run. cbn [fold_left].
  assert (H1 : TimerScreen.step TimerScreen.PressReset (sc, st)
               = (TimerScreen.handleReset sc, st)).
  { unfold TimerScreen.step. rewrite Hm. cbn [negb].
    rewrite commit_stopped; reflexivity. }
  rewrite H1. set (sc1 := TimerScreen.handleReset sc).
  assert (H2 : TimerScreen.step (TimerScreen.PressPauseResume now) (sc1, st)
               = (TimerScreen.commit sc1 (TimerScreen.handleResume now sc1), st)).
  { unfold TimerScreen.step. unfold sc1 at 1 2.
    cbn [TimerScreen.mounted TimerScreen.handleReset TimerScreen.setTimerState
         TimerScreen.timerState TimerState.isRunning].
    rewrite Hm. reflexivity. }
  rewrite H2. cbn [fst snd].
  destruct (commit_started sc1 (TimerScreen.handleResume now sc1)
              eq_refl eq_refl) as (Htt & _).
  rewrite Htt, (proj1 (commit_fields _ _)). unfold sc1. cbn.
  unfold TimerScreen.startedRun. split; [|split; reflexivity].
  do 2 f_equal. lia.
Qed.

(** After a cycle of 45 minutes on a screen opened for 20. *)
Lemma reset_then_resume_witness :
  TimerState.targetSeconds
    (TimerScreen.timerState
       (fst (TimerScreen.run
               [TimerScreen.PressReset; TimerScreen.PressPauseResume 9000]
               (TimerScreen.handleCustomTimeSubmit 5000
                  (TimerScreen.setCustomTimeInput "45"
                     (TimerScreen.mount "c_a" 20 TimerScreen.active 1000)),
                Scenario.emptyStore))))
  = 1200.
Proof.
  exact (f_equal TimerState.targetSeconds
           (proj1 (reset_then_resume_is_a_fresh_start
                     (TimerScreen.handleCustomTimeSubmit 5000
                        (TimerScreen.setCustomTimeInput "45"
                           (TimerScreen.mount "c_a" 20 TimerScreen.active 1000)))
                     Scenario.emptyStore 9000 eq_refl))).
Defined.

(** ** The hook as a whole *)

Section HookOps.

Import UseStorage CourseOps.

Lemma apply_mirrors (o : op) (h : UseStorage.t) (st : Store) :
  mirrors h st -> mirrors (fst (apply o (h, st))) (snd (apply o (h, st))).
Proof.
  unfold mirrors, persistedCourses, persisted.
  destruct h as [cs ss e], st as [[pc|] [ps|]]; cbn; intros [Hc Hs]; subst;
    destruct o; cbn; split; reflexivity.
Qed.

End HookOps.

Section ScreensFacts.

Import UseStorage CourseOps Screens.

Lemma setNth_length (i : nat) (h : UseStorage.t) (hs : list UseStorage.t) :
  List.length (setNth i h hs) = List.length hs.
Proof.
  revert i. induction hs as [|x r IH]; intros [|i]; cbn; congruence.
Qed.

Lemma nth_setNth_same (i : nat) (h d : UseStorage.t)
      (hs : list UseStorage.t) :
  (i < List.length hs)%nat -> nth i (setNth i h hs) d = h.
Proof.
  revert i. induction hs as [|x r IH]; intros [|i] Hi; cbn in *; try lia;
    [reflexivity | apply IH; lia].
Qed.

Lemma nth_setNth_other (i j : nat) (h d : UseStorage.t)
      (hs : list UseStorage.t) :
  i <> j -> nth i (setNth j h hs) d = nth i hs d.
Proof.
  revert i j. induction hs as [|x r IH]; intros [|i] [|j] Hne; cbn;
    try reflexivity; try congruence.
  apply IH. congruence.
Qed.

Lemma in_setNth (x h : UseStorage.t) (i : nat) (hs : list UseStorage.t) :
  In x (setNth i h hs) -> x = h \/ In x hs.
Proof.
  revert i. induction hs as [|y r IH]; intros [|i]; cbn; try tauto.
  - intros [H|H]; [left; congruence | right; right; assumption].
  - intros [H|H]; [right; left; assumption|].
    destruct (IH i H); tauto.
Qed.

(** What an operation of the instance at position [i] does to the world. *)
Lemma act_at (i : nat) (o : op) (w : world) :
  (i < List.length (fst w))%nat ->
  act (i, o) w
  = (setNth i (fst (apply o (instance i w, snd w))) (fst w),
     snd (apply o (instance i w, snd w))).
Proof.
  destruct w as [hs st]. cbn [fst snd]. intros Hi. unfold act, instance.
  cbn [fst]. rewrite (nth_error_nth' hs UseStorage.initial Hi).
  destruct (apply o (nth i hs UseStorage.initial, st)); reflexivity.
Qed.

Lemma act_same (i : nat) (o : op) (w : world) :
  (i < List.length (fst w))%nat ->
  instance i (act (i, o) w) = fst (apply o (instance i w, snd w))
  /\ snd (act (i, o) w) = snd (apply o (instance i w, snd w)).
Proof.
  intros Hi. rewrite (act_at i o w Hi). unfold instance at 1. cbn [fst snd].
  split; [now apply nth_setNth_same | reflexivity].
Qed.

Lemma act_length (a : nat * op) (w : world) :
  List.length (fst (act a w)) = List.length (fst w).
Proof.
  destruct a as [i o], w as [hs st]. unfold act.
  destruct (nth_error hs i) as [h|]; [|reflexivity].
  destruct (apply o (h, st)). cbn [fst]. apply setNth_length.
Qed.

Lemma acts_length (l : list (nat * op)) (w : world) :
  List.length (fst (acts l w)) = List.length (fst w).
Proof.
  revert w. induction l as [|a l IH]; intros w; [reflexivity|].
  unfold acts. cbn [fold_left]. fold (acts l (act a w)).
  now rewrite IH, act_length.
Qed.

(** The other instances keep their lists. *)
Lemma act_other (i j : nat) (o : op) (w : world) :
  i <> j -> instance i (act (j, o) w) = instance i w.
Proof.
  intros Hne. destruct w as [hs st]. unfold act, instance.
  destruct (nth_error hs j) as [h|]; [|reflexivity].
  destruct (apply o (h, st)). cbn [fst]. now apply nth_setNth_other.
Qed.

(** No operation removes a key, and a key that stays unwritten stays empty
    in memory. *)
Lemma apply_unwritten (o : op) (h : UseStorage.t) (st : Store) :
  let r := apply o (h, st) in
  (COURSES (snd r) = None -> COURSES st = None)
  /\ (SESSIONS (snd r) = None -> SESSIONS st = None)
  /\ ((COURSES st = None -> courses h = []) ->
      COURSES (snd r) = None -> courses (fst r) = [])
  /\ ((SESSIONS st = None -> sessions h = []) ->
      SESSIONS (snd r) = None -> sessions (fst r) = []).
Proof.
  destruct h as [cs ss e], st as [[pc|] [ps|]], o; cbn;
    repeat split; intros; try discriminate; auto.
Qed.

Lemma act_unwrittenEmpty (a : nat * op) (w : world) :
  unwrittenEmpty w -> unwrittenEmpty (act a w).
Proof.
  destruct a as [j o], w as [hs st]. unfold unwrittenEmpty, act.
  cbn [fst snd]. intros Hinv.
  destruct (nth_error hs j) as [h|] eqn:E; [|exact Hinv].
  apply nth_error_In in E.
  destruct (apply_unwritten o h st) as (Hc & Hs & Hc' & Hs').
  destruct (apply o (h, st)) as [h' st']. cbn [fst snd] in *.
  intros h2 Hin. apply in_setNth in Hin. destruct Hin as [->|Hin].
  - destruct (Hinv h E) as [H1 H2]. split; auto.
  - destruct (Hinv h2 Hin) as [H1 H2]. split; auto.
Qed.

Lemma acts_unwrittenEmpty (l : list (nat * op)) (w : world) :
  unwrittenEmpty w -> unwrittenEmpty (acts l w).
Proof.
  revert w. induction l as [|a l IH]; intros w Hinv; [exact Hinv|].
  unfold acts. cbn [fold_left]. fold (acts l (act a w)).
  now apply IH, act_unwrittenEmpty.
Qed.

Lemma fresh_unwrittenEmpty (n : nat) (st : Store) :
  unwrittenEmpty (fresh n, st).
Proof.
  intros h Hin. apply repeat_spec in Hin. subst. split; reflexivity.
Qed.

(** After an operation, its instance holds what the store holds under the
    keys that the operation wrote or loaded. *)
Lemma apply_touches (o : op) (h : UseStorage.t) (st : Store) :
  (COURSES st = None -> courses h = []) ->
  (SESSIONS st = None -> sessions h = []) ->
  let r := apply o (h, st) in
  (touchesCourses o = true -> mirrorsCourses (fst r) (snd r))
  /\ (touchesSessions o = true -> mirrorsSessions (fst r) (snd r)).
Proof.
  unfold mirrorsCourses, mirrorsSessions, persistedCourses, persisted.
  destruct h as [cs ss e], st as [[pc|] [ps|]], o; cbn; intros Hc Hs;
    split; intros; try discriminate; try reflexivity;
    symmetry; auto.
Qed.

End ScreensFacts.

(** Memory and store, over several screens.  A hook instance that holds
    what the store holds, and is the only instance to operate, still holds
    what the store holds after any sequence of [addCourse], [updateCourse],
    [removeCourse], [addSession] and reloads whose writes resolve.  Among
    several instances, mounted fresh over any store and operating in any
    order, the instance that operated last holds what the store holds under
    the keys that its operation wrote or loaded: both for a reload and for
    [removeCourse], the courses for [addCourse] and [updateCourse], the
    sessions for [addSession].  The other instances are left behind: when
    two instances hold what the store holds and one of them adds a session,
    the store holds one session more than the other instance, which no
    longer mirrors it until it reloads. *)
Theorem instance_mirrors_store_while_it_is_the_only_writer :
  (forall (w : Screens.world) (i : nat) (os : list CourseOps.op),
      (i < List.length (fst w))%nat ->
      CourseOps.mirrors (Screens.instance i w) (snd w) ->
      let w' := Screens.acts (map (fun o => (i, o)) os) w in
      CourseOps.mirrors (Screens.instance i w') (snd w'))
  /\ (forall (n : nat) (st : UseStorage.Store)
             (l : list (nat * CourseOps.op)) (i : nat) (o : CourseOps.op),
        (i < n)%nat ->
        let w := Screens.acts (l ++ [(i, o)]) (Screens.fresh n, st) in
        (Screens.touchesCourses o = true ->
         Screens.mirrorsCourses (Screens.instance i w) (snd w))
        /\ (Screens.touchesSessions o = true ->
            Screens.mirrorsSessions (Screens.instance i w) (snd w)))
  /\ (forall (w : Screens.world) (i j : nat) (stamp : string)
             (d : SessionData),
        i <> j ->
        (i < List.length (fst w))%nat ->
        (j < List.length (fst w))%nat ->
        CourseOps.mirrors (Screens.instance i w) (snd w) ->
        CourseOps.mirrors (Screens.instance j w) (snd w) ->
        let w' := Screens.act (j, CourseOps.AddSession stamp d) w in
        let reloaded := Screens.act (i, CourseOps.Reload) w' in
        CourseOps.mirrors (Screens.instance j w') (snd w')
        /\ UseStorage.persisted (snd w')
           = UseStorage.sessions (Screens.instance i w')
             ++ [Session.mk (Utils.uid "s_" stamp) (d_courseId d)
                   (d_startAt d) (d_durationSeconds d) (d_targetSeconds d)
                   (d_isPartial d)]
        /\ ~ CourseOps.mirrors (Screens.instance i w') (snd w')
        /\ CourseOps.mirrors (Screens.instance i reloaded) (snd reloaded)).
Proof.
  split; [|split].
  - intros w i os. revert w.
    induction os as [|o os IH]; intros w Hi Hm; [exact Hm|].
    cbn [map]. unfold Screens.acts. cbn [fold_left].
    fold (Screens.acts (map (fun o => (i, o)) os) (Screens.act (i, o) w)).
    apply IH.
    + now rewrite act_length.
    + destruct (act_same i o w Hi) as [-> ->]. now apply apply_mirrors.
  - intros n st l i o Hi w. unfold w, Screens.acts. rewrite fold_left_app.
    fold (Screens.acts l (Screens.fresh n, st)). cbn [fold_left].
    pose proof (acts_unwrittenEmpty l _ (fresh_unwrittenEmpty n st)) as Hinv.
    assert (Hlen : (i < List.length
                          (fst (Screens.acts l (Screens.fresh n, st))))%nat).
    { rewrite acts_length. cbn [fst]. unfold Screens.fresh.
      now rewrite repeat_length. }
    set (w0 := Screens.acts l (Screens.fresh n, st)) in *.
    destruct (act_same i o w0 Hlen) as [-> ->].
    destruct (Hinv (Screens.instance i w0)) as [Hc Hs].
    { apply nth_In. exact Hlen. }
    now apply apply_touches.
  - intros w i j stamp d Hne Hi Hj Hmi Hmj w' reloaded.
    assert (Hiw' : Screens.instance i w' = Screens.instance i w).
    { unfold w'. now apply act_other. }
    destruct (act_same j (CourseOps.AddSession stamp d) w Hj) as [Hjw' Hst'].
    fold w' in Hjw', Hst'.
    assert (Hlen' : (i < List.length (fst w'))%nat).
    { unfold w'. now rewrite act_length. }
    destruct (act_same i CourseOps.Reload w' Hlen') as [Hr1 Hr2].
    fold reloaded in Hr1, Hr2. cbn [CourseOps.apply fst snd] in Hr1, Hr2.
    rewrite Hr1, Hr2, Hjw', Hst', Hiw'.
    clear Hr1 Hr2 Hjw' Hst' Hiw' Hlen' reloaded w'.
    destruct Hmi as [Hci Hsi], Hmj as [Hcj Hsj].
    destruct (Screens.instance i w) as [ci si ei],
             (Screens.instance j w) as [cj sj ej],
             (snd w) as [pc ps].
    unfold CourseOps.mirrors, UseStorage.persistedCourses,
      UseStorage.persisted in *.
    cbn in Hci, Hsi, Hcj, Hsj. cbn. subst ci si.
    split; [split; [assumption | reflexivity]|].
    split; [now rewrite Hsj|].
    split.
    + intros [_ H]. rewrite <- Hsj in H. symmetry in H.
      exact (app_one_neq _ _ H).
    + unfold UseStorage.loadData. cbn. destruct pc; cbn; split; reflexivity.
Qed.

Section Integrity.

Import UseStorage CourseOps.

Lemma noOrphans_app_course (cs : list Course.t) (ss : list Session.t)
      (c : Course.t) :
  noOrphans cs ss -> noOrphans (cs ++ [c]) ss.
Proof.
  intros H s Hs. destruct (H s Hs) as (c' & Hc' & Hid).
  exists c'. split; [apply in_or_app; now left | assumption].
Qed.

Lemma noOrphans_rename (cs : list Course.t) (ss : list Session.t)
      (id : string) (u : Updates) :
  u_id u = None ->
  noOrphans cs ss ->
  noOrphans (map (fun course =>
                    if String.eqb (Course.id course) id
                    then merge course u else course) cs) ss.
Proof.
  intros Hu H s Hs. destruct (H s Hs) as (c & Hc & Hid).
  exists (if String.eqb (Course.id c) id then merge c u else c). split.
  - apply in_map_iff. now exists c.
  - destruct (String.eqb (Course.id c) id); [|assumption].
    unfold merge. cbn. now rewrite Hu.
Qed.

End Integrity.

(** Orphans and the operations of the hook, writes resolving.  Adding a
    course, renaming or recolouring one (an update that does not touch the
    id) and removing one keep every session attached to a course.
    [addSession] checks nothing: its result is free of orphans exactly when
    the list was and the course of the new session exists, so a session
    recorded for a course that has been deleted in the meantime is an
    orphan. *)
Theorem hook_operations_and_orphans :
  forall (h : UseStorage.t) (st : UseStorage.Store),
    let clean := fun x : UseStorage.t * UseStorage.Store * UseStorage.outcome =>
      UseStorage.noOrphans (UseStorage.courses (fst (fst x)))
                           (UseStorage.sessions (fst (fst x))) in
    (forall stamp now pick name,
        clean (h, st, UseStorage.Resolved) ->
        clean (CourseOps.addCourse true stamp now pick name h st))
    /\ (forall id u,
          CourseOps.u_id u = None ->
          clean (h, st, UseStorage.Resolved) ->
          clean (CourseOps.updateCourse true id u h st))
    /\ (forall id,
          clean (h, st, UseStorage.Resolved) ->
          clean (UseStorage.removeCourse true true id h st))
    /\ (forall stamp d,
          clean (UseStorage.addSession true stamp d h st)
          <-> clean (h, st, UseStorage.Resolved)
              /\ CourseOps.hasCourse (UseStorage.courses h) (d_courseId d)).
Proof.
  intros h st clean. unfold clean. cbn [fst snd].
  split; [|split; [|split]].
  - intros stamp now pick name H. cbn. now apply noOrphans_app_course.
  - intros id u Hu H. cbn. now apply noOrphans_rename.
  - intros id H. cbn. intros s Hs.
    apply filter_not_course_In in Hs. destruct Hs as [Hs Hne].
    destruct (H s Hs) as (c & Hc & Hid). exists c. split; [|assumption].
    apply filter_not_id_In. split; [assumption | congruence].
  - intros stamp d. cbn. split.
    + intros H. split.
      * intros s Hs. apply H, in_or_app. now left.
      * destruct (H (Session.mk (Utils.uid "s_" stamp) (d_courseId d)
                       (d_startAt d) (d_durationSeconds d)
                       (d_targetSeconds d) (d_isPartial d)))
          as (c & Hc & Hid); [apply in_or_app; right; now left|].
        now exists c.
    + intros [H (c & Hc & Hid)] s Hs. apply in_app_or in Hs.
      destruct Hs as [Hs|[<-|[]]]; [now apply H|]. now exists c.
Qed.

(** The course of a running timer is deleted on another screen; Terminate
    then records a session for a course that is not in the list. *)
Example terminate_after_course_deleted :
  let deleted := fst (fst (UseStorage.removeCourse true true "c_a"
                             Scenario.hookAB Scenario.storeAB)) in
  let after := fst (fst (UseStorage.addSession true "k"
                           (mkData "c_a" 9000 300 1200 true) deleted
                           Scenario.storeAB)) in
  UseStorage.noOrphans (UseStorage.courses deleted)
                       (UseStorage.sessions deleted)
  /\ ~ UseStorage.noOrphans (UseStorage.courses after)
                            (UseStorage.sessions after).
Proof.
  cbn zeta. split.
  - intros s Hs. cbn in Hs. destruct Hs as [<-|[]].
    exists Scenario.courseB. split; [left; reflexivity | reflexivity].
  - intros H.
    destruct (H (Session.mk "s__k" "c_a" 9000 300 1200 true))
      as (c & Hc & Hid); [cbn; right; left; reflexivity|].
    cbn in Hc. destruct Hc as [<-|[]]. discriminate.
Qed.

Section Home.

Import UseStorage CourseOps HomeScreen Text.

Lemma blank_false_trim (s : string) :
  blank s = false -> trim s <> EmptyString.
Proof.
  unfold blank. destruct (String.eqb_spec (trim s) ""); congruence.
Qed.

End Home.

(** A course added from the home screen has a name that is not empty and
    has neither leading nor trailing white space: it is the trimmed text of
    the input, and a blank input adds nothing.  The new course is appended
    after the existing ones, which are unchanged, with an id made from the
    given stamp; the sessions are untouched. *)
Theorem home_screen_adds_trimmed_names :
  forall (w : bool) (stamp : string) (now : Z) (pick : nat)
         (newCourseName : string) (h : UseStorage.t) (st : UseStorage.Store),
    match HomeScreen.handleAddCourse w stamp now pick newCourseName h st with
    | None =>
        Text.trim newCourseName = EmptyString
    | Some (h', st', r) =>
        exists c,
          UseStorage.courses h' = UseStorage.courses h ++ [c]
          /\ Course.name c = Text.trim newCourseName
          /\ Course.name c <> EmptyString
          /\ Text.trim (Course.name c) = Course.name c
          /\ Course.id c = Utils.uid "c_" stamp
          /\ UseStorage.sessions h' = UseStorage.sessions h
          /\ (w = true ->
              UseStorage.COURSES st' = Some (UseStorage.courses h')
              /\ UseStorage.SESSIONS st' = UseStorage.SESSIONS st)
          /\ (w = false -> st' = st /\ r = UseStorage.Rejected)
    end.
Proof.
  intros w stamp now pick newCourseName h st.
  unfold HomeScreen.handleAddCourse.
  destruct (Text.blank newCourseName) eqn:Eb.
  - unfold Text.blank in Eb. now apply String.eqb_eq in Eb.
  - apply blank_false_trim in Eb. unfold CourseOps.addCourse.
    destruct w; cbn; eexists; (split; [reflexivity|]);
      cbn [Course.name Course.id]; rewrite !trim_idempotent.
    + split; [reflexivity|]. split; [assumption|]. split; [reflexivity|].
      split; [reflexivity|]. split; [reflexivity|].
      split; [intros _; split; reflexivity | discriminate].
    + split; [reflexivity|]. split; [assumption|]. split; [reflexivity|].
      split; [reflexivity|]. split; [reflexivity|].
      split; [discriminate | intros _; split; reflexivity].
Qed.

(** The confirm button of the rename dialog changes the name and the colour
    of the courses with the chosen id and nothing else: the list keeps its
    length and order, every course keeps its id and its creation time,
    courses with another id are unchanged, the sessions are untouched, and
    the new name is the trimmed input, never empty.  A blank name does
    nothing. *)
Theorem rename_changes_only_name_and_colour :
  forall (w : bool) (id renameValue renameColor : string)
         (h : UseStorage.t) (st : UseStorage.Store),
    match HomeScreen.confirmRename w (Some id) renameValue renameColor h st with
    | None => Text.trim renameValue = EmptyString \/ id = EmptyString
    | Some (h', st', r) =>
        Text.trim renameValue <> EmptyString
        /\ map Course.id (UseStorage.courses h')
           = map Course.id (UseStorage.courses h)
        /\ map Course.createdAt (UseStorage.courses h')
           = map Course.createdAt (UseStorage.courses h)
        /\ (forall c', In c' (UseStorage.courses h') ->
              (Course.id c' = id
               /\ Course.name c' = Text.trim renameValue
               /\ Course.color c' = Some renameColor)
              \/ (Course.id c' <> id /\ In c' (UseStorage.courses h)))
        /\ UseStorage.sessions h' = UseStorage.sessions h
        /\ (UseStorage.noOrphans (UseStorage.courses h)
                                 (UseStorage.sessions h) ->
            UseStorage.noOrphans (UseStorage.courses h')
                                 (UseStorage.sessions h'))
    end.
Proof.
  intros w id renameValue renameColor h st. unfold HomeScreen.confirmRename.
  destruct (String.eqb_spec (Text.trim renameValue) "") as [E|E]; cbn [orb].
  - now left.
  - destruct (String.eqb_spec id "") as [E'|E']; [now right|].
    set (u := CourseOps.mkUpdates None (Some (Text.trim renameValue)) None
                                  (Some renameColor)).
    assert (Hgen :
      let cs' := map (fun course =>
                        if String.eqb (Course.id course) id
                        then CourseOps.merge course u else course)
                     (UseStorage.courses h) in
      map Course.id cs' = map Course.id (UseStorage.courses h)
      /\ map Course.createdAt cs' = map Course.createdAt (UseStorage.courses h)
      /\ (forall c', In c' cs' ->
            (Course.id c' = id /\ Course.name c' = Text.trim renameValue
             /\ Course.color c' = Some renameColor)
            \/ (Course.id c' <> id /\ In c' (UseStorage.courses h)))).
    { cbn zeta. split; [|split].
      - rewrite map_map. apply map_ext. intros c.
        destruct (String.eqb (Course.id c) id); reflexivity.
      - rewrite map_map. apply map_ext. intros c.
        destruct (String.eqb (Course.id c) id); reflexivity.
      - intros c' Hin. apply in_map_iff in Hin. destruct Hin as (c & <- & Hc).
        destruct (String.eqb_spec (Course.id c) id) as [Ei|Ei].
        + left. cbn. auto.
        + right. auto. }
    destruct Hgen as (H1 & H2 & H3).
    unfold CourseOps.updateCourse. fold u.
    destruct w; cbn [fst snd UseStorage.courses UseStorage.sessions
                     UseStorage.setCourses UseStorage.setError];
      (split; [assumption|]); (split; [exact H1|]); (split; [exact H2|]);
      (split; [exact H3|]); (split; [reflexivity|]);
      intros Hno; now apply noOrphans_rename.
Qed.

(** ** Statistics *)

Section Stats.

Import Sum Analytics.

Lemma fold_left_add {A : Type} (f : A -> Z) (l : list A) (z : Z) :
  fold_left (fun sum x => sum + f x) l z = z + sumZ (map f l).
Proof.
  revert z. induction l as [|x l IH]; intros z; cbn; [lia|].
  rewrite IH. lia.
Qed.

Lemma filter_partition_length {A : Type} (p : A -> bool) (l : list A) :
  (List.length (filter (fun x => negb (p x)) l) + List.length (filter p l)
   = List.length l)%nat.
Proof.
  induction l as [|x l IH]; cbn; [reflexivity|].
  destruct (p x); cbn; lia.
Qed.

(** The [reduce] that looks for the largest time: it returns its start
    value when no entry exceeds it, and otherwise the first entry that
    holds the largest time. *)
Lemma reduce_max (l : list Stat) (acc : Stat) :
  let r := fold_left
             (fun max current => if time max <? time current
                                 then current else max) l acc in
  (r = acc /\ forall x, In x l -> time x <= time acc)
  \/ (exists l1 l2, l = l1 ++ r :: l2
                    /\ time acc < time r
                    /\ (forall x, In x l1 -> time x < time r)
                    /\ (forall x, In x l2 -> time x <= time r)).
Proof.
  revert acc. induction l as [|x l IH]; intros acc; cbn zeta; cbn [fold_left].
  - left. split; [reflexivity | intros x []].
  - destruct (Z.ltb_spec (time acc) (time x)) as [Hlt|Hge].
    + destruct (IH x) as [[Hr Hall]|(l1 & l2 & Hl & Hx & H1 & H2)].
      * right. exists [], l. rewrite Hr. cbn. repeat split; try assumption.
        intros y [].
      * right. exists (x :: l1), l2. rewrite Hl at 1. cbn.
        repeat split; try assumption; [lia|].
        intros y [<-|Hy]; [assumption | now apply H1].
    + destruct (IH acc) as [[Hr Hall]|(l1 & l2 & Hl & Hx & H1 & H2)].
      * left. split; [assumption|]. intros y [<-|Hy]; [assumption | now apply Hall].
      * right. exists (x :: l1), l2. rewrite Hl at 1. cbn.
        repeat split; try assumption.
        intros y [<-|Hy]; [lia | now apply H1].
Qed.

Lemma courseStats_course (courses : list Course.t) (sessions : list Session.t)
      (x : Stat) :
  In x (courseStats courses sessions) -> exists c, course x = Some c /\ In c courses.
Proof.
  unfold courseStats. intros H. apply in_map_iff in H.
  destruct H as (c & <- & Hc). now exists c.
Qed.

(** The times of the courses with a given id add up to the value when
    exactly one course has it. *)
Lemma sum_single (cs : list Course.t) (k : string) (v : Z) :
  NoDup (map Course.id cs) -> In k (map Course.id cs) ->
  sumZ (map (fun c => if String.eqb k (Course.id c) then v else 0) cs) = v.
Proof.
  induction cs as [|c cs IH]; cbn; intros Hnd Hin; [contradiction|].
  inversion Hnd as [|? ? Hnotin Hnd']; subst.
  destruct (String.eqb_spec k (Course.id c)) as [E|E].
  - assert (Hz : sumZ (map (fun c0 => if String.eqb k (Course.id c0)
                                      then v else 0) cs) = 0).
    { clear IH Hnd Hnd' Hin. induction cs as [|c' cs IH]; cbn; [reflexivity|].
      destruct (String.eqb_spec k (Course.id c')) as [E'|E'].
      - exfalso. apply Hnotin. left. congruence.
      - rewrite IH; [lia|]. intros H. apply Hnotin. now right. }
    lia.
  - destruct Hin as [Hin|Hin]; [congruence|]. rewrite IH by assumption. lia.
Qed.

Lemma sum_zero (cs : list Course.t) :
  sumZ (map (fun _ : Course.t => 0) cs) = 0.
Proof. induction cs; cbn; lia. Qed.

Lemma sum_plus (cs : list Course.t) (f g : Course.t -> Z) :
  sumZ (map (fun c => f c + g c) cs) = sumZ (map f cs) + sumZ (map g cs).
Proof. induction cs; cbn; lia. Qed.

(** The per-course times add up to the total when the ids are distinct and
    every session belongs to a course. *)
Lemma breakdown_total (courses : list Course.t) (sessions : list Session.t) :
  NoDup (map Course.id courses) ->
  UseStorage.noOrphans courses sessions ->
  sumZ (map time (courseStats courses sessions)) = totalStudyTime sessions.
Proof.
  intros Hnd Hno. unfold totalStudyTime, courseStats.
  rewrite fold_left_add, map_map. cbn [time].
  induction sessions as [|s ss IH].
  - cbn. apply sum_zero.
  - assert (Hno' : UseStorage.noOrphans courses ss).
    { intros s' Hs'. apply Hno. now right. }
    specialize (IH Hno'). cbn [map sumZ]. rewrite Z.add_0_l in *.
    rewrite <- IH.
    rewrite (map_ext
               (fun c => fold_left (fun sum s0 => sum + Session.durationSeconds s0)
                           (filter (fun s0 => String.eqb (Session.courseId s0)
                                                         (Course.id c))
                                   (s :: ss)) 0)
               (fun c => (if String.eqb (Session.courseId s) (Course.id c)
                          then Session.durationSeconds s else 0)
                         + fold_left
                             (fun sum s0 => sum + Session.durationSeconds s0)
                             (filter (fun s0 => String.eqb (Session.courseId s0)
                                                           (Course.id c)) ss)
                             0)).
    + rewrite sum_plus. f_equal. apply sum_single; [assumption|].
      destruct (Hno s (or_introl eq_refl)) as (c & Hc & Hid).
      apply in_map_iff. now exists c.
    + intros c. cbn [filter].
      destruct (String.eqb (Session.courseId s) (Course.id c)); cbn [fold_left].
      * rewrite !fold_left_add. cbn. lia.
      * lia.
Qed.

End Stats.

(** The analytics of a course list and a session list.  Complete and
    partial sessions together are all sessions.  The most studied course is
    absent exactly when no course has a positive time; otherwise it is the
    first course, in the order of the course list, among those with the
    largest time, and that time is positive.  The times of the courses add
    up to the total study time when the course ids are distinct and every
    session belongs to a course. *)
Theorem analytics_summary :
  forall (courses : list Course.t) (sessions : list Session.t),
    let stats := Analytics.courseStats courses sessions in
    let best := Analytics.mostStudiedCourse stats in
    (Analytics.fullSessions sessions + Analytics.partialSessions sessions
     = Analytics.totalSessions sessions)%nat
    /\ (forall x, In x stats -> Analytics.time x <= Analytics.time best)
    /\ (Analytics.course best = None
        <-> forall x, In x stats -> Analytics.time x <= 0)
    /\ (Analytics.course best <> None ->
        0 < Analytics.time best
        /\ exists before after,
             stats = before ++ best :: after
             /\ (forall x, In x before ->
                           Analytics.time x < Analytics.time best)
             /\ (forall x, In x after ->
                           Analytics.time x <= Analytics.time best))
    /\ (NoDup (map Course.id courses) ->
        UseStorage.noOrphans courses sessions ->
        Sum.sumZ (map Analytics.time stats)
        = Analytics.totalStudyTime sessions).
Proof.
  intros courses sessions stats best.
  split; [apply filter_partition_length|].
  pose proof (reduce_max stats Analytics.noCourse) as Hred.
  cbn zeta in Hred. fold (Analytics.mostStudiedCourse stats) in Hred.
  fold best in Hred.
  assert (Hsome : forall x, In x stats -> Analytics.course x <> None).
  { intros x Hx. destruct (courseStats_course _ _ _ Hx) as (c & Hc & _).
    congruence. }
  destruct Hred as [[Hr Hall]|(l1 & l2 & Hl & Hpos & H1 & H2)].
  - cbn in Hall. rewrite Hr. cbn.
    split; [exact Hall|]. split; [split; [intros _; exact Hall | reflexivity]|].
    split; [intros H; contradiction|]. apply breakdown_total.
  - cbn in Hpos.
    assert (Hin : In best stats) by (rewrite Hl; apply in_or_app; right; now left).
    split; [|split; [|split]].
    + intros x Hx. rewrite Hl in Hx. apply in_app_or in Hx.
      destruct Hx as [Hx|[<-|Hx]]; [apply H1 in Hx; lia | lia | now apply H2].
    + split; [intros H; now apply Hsome in Hin|].
      intros H. specialize (H best Hin). lia.
    + intros _. split; [assumption|]. now exists l1, l2.
    + apply breakdown_total.
Qed.

(** Two courses tie at 900 seconds: the first of the course list wins. *)
Example mostStudiedCourse_tie :
  Analytics.course
    (Analytics.mostStudiedCourse
       (Analytics.courseStats
          [Scenario.courseA; Scenario.courseB]
          [Session.mk "s__1" "c_a" 1000 300 300 false;
           Session.mk "s__2" "c_a" 2000 600 600 false;
           Session.mk "s__3" "c_b" 3000 900 900 false]))
  = Some Scenario.courseA.
Proof. reflexivity. Qed.

Example mostStudiedCourse_no_time :
  Analytics.course
    (Analytics.mostStudiedCourse
       (Analytics.courseStats [Scenario.courseA; Scenario.courseB] []))
  = None.
Proof. reflexivity. Qed.

Section CourseList.

Import UseStorage CourseStats.

Lemma chronological_filter (p : Session.t -> bool) (l : list Session.t) :
  chronological l -> chronological (filter p l).
Proof.
  induction l as [|s l IH]; cbn; [trivial|]. intros [Hs Hl].
  destruct (p s); cbn; [|now apply IH]. split; [|now apply IH].
  intros s' Hs'. apply filter_In in Hs'. now apply Hs.
Qed.

Lemma chronological_app (l1 l2 : list Session.t) :
  chronological (l1 ++ l2) ->
  forall s s', In s l1 -> In s' l2 -> Session.startAt s <= Session.startAt s'.
Proof.
  induction l1 as [|x l1 IH]; cbn; [intros _ s s' []|].
  intros [Hx Hl] s s' [<-|Hs] Hs'.
  - apply Hx, in_or_app. now right.
  - now apply IH.
Qed.

Lemma chronological_snoc (l : list Session.t) (x : Session.t) :
  chronological l ->
  (forall s, In s l -> Session.startAt s <= Session.startAt x) ->
  chronological (l ++ [x]).
Proof.
  induction l as [|y l IH]; cbn; [intros _ _; split; [intros s' []|exact I]|].
  intros [Hy Hl] Hall. split.
  - intros s' Hs'. apply in_app_or in Hs'.
    destruct Hs' as [Hs'|[<-|[]]]; [now apply Hy | apply Hall; now left].
  - apply IH; [assumption|]. intros s Hs. apply Hall. now right.
Qed.

End CourseList.

(** The course screen lists, under "Recent Sessions", the first five
    sessions of the course.  When the session list is in the order of its
    time stamps, these are the oldest: no session left out started before a
    listed one.  [addSession] keeps the list in that order as long as the
    clock does not go back, since it appends. *)
Theorem course_screen_lists_the_oldest_sessions :
  forall (localSessions : list Session.t) (courseId : string),
    CourseStats.chronological localSessions ->
    let all := CourseStats.courseSessions localSessions courseId in
    CourseStats.listedSessions all ++ CourseStats.unlistedSessions all = all
    /\ (List.length (CourseStats.listedSessions all) <= 5)%nat
    /\ (forall s s',
          In s (CourseStats.listedSessions all) ->
          In s' (CourseStats.unlistedSessions all) ->
          Session.startAt s <= Session.startAt s')
    /\ (forall w stamp d st,
          (forall s, In s localSessions ->
                     Session.startAt s <= d_startAt d) ->
          CourseStats.chronological
            (UseStorage.sessions
               (fst (fst (UseStorage.addSession w stamp d
                            (UseStorage.mkHook [] localSessions None) st))))).
Proof.
  intros localSessions courseId Hch all.
  unfold CourseStats.listedSessions, CourseStats.unlistedSessions.
  split; [apply firstn_skipn|]. split; [apply firstn_le_length|]. split.
  - apply chronological_app. rewrite firstn_skipn.
    now apply chronological_filter.
  - intros w stamp d st Hall. unfold UseStorage.addSession.
    destruct w; cbn; apply chronological_snoc; assumption.
Qed.

(** Seven sessions of one course, one a minute: the two latest are the
    ones left out. *)
Lemma course_screen_list_witness :
  CourseStats.unlistedSessions
    (CourseStats.courseSessions
       (map (fun k => Session.mk "s__k" "c_a" (60000 * Z.of_nat k) 60 60 false)
            (seq 1 7)) "c_a")
  = [Session.mk "s__k" "c_a" 360000 60 60 false;
     Session.mk "s__k" "c_a" 420000 60 60 false]
  /\ forall s s',
       In s (CourseStats.listedSessions
               (CourseStats.courseSessions
                  (map (fun k => Session.mk "s__k" "c_a" (60000 * Z.of_nat k)
                                            60 60 false) (seq 1 7)) "c_a")) ->
       In s' (CourseStats.unlistedSessions
                (CourseStats.courseSessions
                   (map (fun k => Session.mk "s__k" "c_a" (60000 * Z.of_nat k)
                                             60 60 false) (seq 1 7)) "c_a")) ->
       Session.startAt s <= Session.startAt s'.
Proof.
  split; [reflexivity|].
  refine (proj1 (proj2 (proj2 (course_screen_lists_the_oldest_sessions
                                 _ "c_a" _)))).
  cbn. repeat split; intros s' Hs';
    repeat (destruct Hs' as [<-|Hs']; [cbn; lia|]); destruct Hs'.
Defined.

(** The home screen adds up [session.durationMinutes], a property that no
    session has: the minutes it shows for a course are zero, whatever the
    sessions of the course. *)
Theorem home_screen_minutes_are_zero :
  forall (sessions : list Session.t) (course : Course.t),
    HomeScreen.totalMinutesForCourse sessions course = 0.
Proof.
  intros sessions course. unfold HomeScreen.totalMinutesForCourse.
  induction (filter (fun s => String.eqb (Session.courseId s) (Course.id course))
                    sessions) as [|s l IH]; [reflexivity|].
  cbn [fold_left]. exact IH.
Qed.

(** ** The streak, day by day *)

Section StreakMore.

Import Utils StreakSpec.

Lemma dateOf_yesterday (now : Z) : dateOf (now - msPerDay) = dateOf now - 1.
Proof.
  unfold dateOf. replace (now - msPerDay) with (now + (-1) * msPerDay) by lia.
  rewrite Z.div_add by (unfold msPerDay; lia). lia.
Qed.

Lemma calculateStreak_bound (zone : JsDate.Zone) (now : Z)
      (sessions : list Session.t) :
  0 <= calculateStreak zone now sessions <= Z.of_nat (List.length sessions).
Proof.
  unfold calculateStreak. destruct sessions as [|s0 rest] eqn:Es; [cbn; lia|].
  rewrite <- Es. replace (List.length sessions =? 0)%nat with false
    by (subst; reflexivity).
  pose proof (uniqueDates_length sessions) as HU.
  set (U := sort (setOf (map (fun s => dateOf (Session.startAt s)) sessions)))
    in *.
  pose proof (streakLoop_bound zone U (dateOf now) (List.length U) 0 0).
  lia.
Qed.

(** Two session lists with sessions on the same days have the same
    streak, in every zone. *)
Lemma calculateStreak_same_days (zone : JsDate.Zone) (now : Z)
      (sessions sessions' : list Session.t) :
  (forall day, hasSessionOn sessions day <-> hasSessionOn sessions' day) ->
  calculateStreak zone now sessions' = calculateStreak zone now sessions.
Proof.
  intros Hsame.
  assert (Hday : forall s : Session.t,
             onDay (Session.startAt s) (dateOf (Session.startAt s))).
  { intros s. now apply dateOf_onDay. }
  unfold calculateStreak.
  destruct sessions as [|s0 rest] eqn:Es, sessions' as [|s0' rest'] eqn:Es'.
  - reflexivity.
  - exfalso.
    assert (H : hasSessionOn (s0' :: rest') (dateOf (Session.startAt s0')))
      by (exists s0'; split; [now left | apply Hday]).
    apply Hsame in H. destruct H as (s & [] & _).
  - exfalso.
    assert (H : hasSessionOn (s0 :: rest) (dateOf (Session.startAt s0)))
      by (exists s0; split; [now left | apply Hday]).
    apply Hsame in H. destruct H as (s & [] & _).
  - rewrite <- Es, <- Es' in *.
    replace (List.length sessions =? 0)%nat with false
      by (subst; reflexivity).
    replace (List.length sessions' =? 0)%nat with false
      by (subst; reflexivity).
    pose proof (uniqueDates_NoDup sessions) as Hnd.
    pose proof (uniqueDates_NoDup sessions') as Hnd'.
    assert (HU : forall d,
               In d (sort (setOf (map (fun s => dateOf (Session.startAt s))
                                      sessions')))
               <-> In d (sort (setOf (map (fun s => dateOf (Session.startAt s))
                                          sessions)))).
    { intros d. rewrite !uniqueDates_In. symmetry. apply Hsame. }
    set (U := sort (setOf (map (fun s => dateOf (Session.startAt s)) sessions)))
      in *.
    set (U' := sort (setOf (map (fun s => dateOf (Session.startAt s))
                                sessions'))) in *.
    assert (Hlen : List.length U' = List.length U).
    { apply Nat.le_antisymm; apply NoDup_incl_length; try assumption;
        intros d Hd; now apply HU. }
    rewrite Hlen. now apply streakLoop_ext.
Qed.

(** The first iteration alone decides two cases: no session today, and
    sessions today only. *)
Lemma calculateStreak_none_today (zone : JsDate.Zone) (now : Z)
      (sessions : list Session.t) :
  keepsDay zone (dateOf now) 0 ->
  ~ hasSessionOn sessions (dateOf now) ->
  calculateStreak zone now sessions = 0.
Proof.
  intros Hk Hno. unfold calculateStreak.
  destruct (List.length sessions =? 0)%nat; [reflexivity|].
  assert (HU : ~ In (dateOf now)
                 (sort (setOf (map (fun s => dateOf (Session.startAt s))
                                   sessions)))).
  { intros Hin. apply Hno. now apply uniqueDates_In. }
  set (U := sort (setOf (map (fun s => dateOf (Session.startAt s)) sessions)))
    in *.
  destruct (List.length U) as [|n]; [reflexivity|].
  cbn [streakLoop]. cbn zeta. rewrite expectedDate_day by assumption.
  rewrite Z.sub_0_r.
  replace (includes (dateOf now) U) with false
    by (symmetry; now apply includes_false).
  reflexivity.
Qed.

Lemma calculateStreak_only_today (zone : JsDate.Zone) (now : Z)
      (sessions : list Session.t) :
  keepsDay zone (dateOf now) 0 ->
  sessions <> [] ->
  (forall s, In s sessions -> onDay (Session.startAt s) (dateOf now)) ->
  calculateStreak zone now sessions = 1.
Proof.
  intros Hk Hne Hall. unfold calculateStreak.
  destruct sessions as [|s0 rest] eqn:Es; [congruence|].
  rewrite <- Es in *. replace (List.length sessions =? 0)%nat with false
    by (subst; reflexivity).
  pose proof (uniqueDates_NoDup sessions) as Hnd.
  assert (Hin : In (dateOf now)
                  (sort (setOf (map (fun s => dateOf (Session.startAt s))
                                    sessions)))).
  { apply uniqueDates_In. exists s0. split; [subst; now left|].
    apply Hall. subst. now left. }
  assert (Honly : forall d,
             In d (sort (setOf (map (fun s => dateOf (Session.startAt s))
                                    sessions))) -> d = dateOf now).
  { intros d Hd. apply uniqueDates_In in Hd. destruct Hd as (s & Hs & Hon).
    apply dateOf_onDay in Hon. rewrite <- Hon. apply dateOf_onDay.
    now apply Hall. }
  set (U := sort (setOf (map (fun s => dateOf (Session.startAt s)) sessions)))
    in *.
  assert (Hlen : List.length U = 1%nat).
  { apply Nat.le_antisymm.
    - apply (NoDup_incl_length (l' := [dateOf now])); [assumption|].
      intros d Hd. left. symmetry. now apply Honly.
    - destruct U; [destruct Hin | cbn; lia]. }
  rewrite Hlen. cbn [streakLoop]. cbn zeta.
  rewrite expectedDate_day by assumption. rewrite Z.sub_0_r.
  replace (includes (dateOf now) U) with true
    by (symmetry; now apply includes_In).
  reflexivity.
Qed.

End StreakMore.

(** The streak day by day.  In a zone whose clocks were not set back over
    the days inspected (the offset of each earlier day is today's or below
    it), [calculateStreak] is the number of consecutive days with a
    session, counting back from today, and with a session today it is one
    more than the streak counted from yesterday.  Where the first iteration
    looks for today, no session today gives zero and sessions today only
    give one, whatever the clocks did before.  In every zone the streak
    depends only on the set of days that have a session, not on the order
    of the sessions nor on their number per day, and it is at most the
    number of sessions.  A zone that never changes its clocks is of the
    first kind on every day. *)
Theorem streak_grows_by_one_a_day :
  forall (zone : JsDate.Zone) (now : Z) (sessions : list Session.t),
    let today := Utils.dateOf now in
    let n := Z.of_nat (List.length sessions) in
    (StreakSpec.keepsDays zone today n ->
     StreakSpec.isStreak sessions today
       (Utils.calculateStreak zone now sessions))
    /\ (StreakSpec.keepsDays zone today n ->
        StreakSpec.keepsDays zone (today - 1) n ->
        StreakSpec.hasSessionOn sessions today ->
        Utils.calculateStreak zone now sessions
        = 1 + Utils.calculateStreak zone (now - Utils.msPerDay) sessions)
    /\ (StreakSpec.keepsDay zone today 0 ->
        ~ StreakSpec.hasSessionOn sessions today ->
        Utils.calculateStreak zone now sessions = 0)
    /\ (StreakSpec.keepsDay zone today 0 ->
        sessions <> [] ->
        (forall s, In s sessions ->
                   StreakSpec.onDay (Session.startAt s) today) ->
        Utils.calculateStreak zone now sessions = 1)
    /\ (forall sessions',
          (forall day, StreakSpec.hasSessionOn sessions day
                       <-> StreakSpec.hasSessionOn sessions' day) ->
          Utils.calculateStreak zone now sessions'
          = Utils.calculateStreak zone now sessions)
    /\ 0 <= Utils.calculateStreak zone now sessions
       <= Z.of_nat (List.length sessions)
    /\ (forall off day m, StreakSpec.keepsDays (JsDate.fixedZone off) day m).
Proof.
  intros zone now sessions today n.
  split; [|split; [|split; [|split; [|split; [|split]]]]].
  - intros Hkeep. now apply calculateStreak_isStreak.
  - intros Hkeep Hkeep1 Htoday.
    pose proof (calculateStreak_isStreak zone now sessions Hkeep) as Hs.
    pose proof (calculateStreak_isStreak zone (now - Utils.msPerDay) sessions)
      as Hy.
    rewrite dateOf_yesterday in Hy. specialize (Hy Hkeep1).
    destruct Hy as (Hk & Hall & Hstop).
    apply (isStreak_unique sessions (Utils.dateOf now)); [exact Hs|].
    set (k := Utils.calculateStreak zone (now - Utils.msPerDay) sessions) in *.
    split; [lia|]. split.
    + intros i Hi. destruct (Z.eq_dec i 0) as [->|Hne].
      * now rewrite Z.sub_0_r.
      * replace (Utils.dateOf now - i)
          with (Utils.dateOf now - 1 - (i - 1)) by lia.
        apply Hall. lia.
    + replace (Utils.dateOf now - (1 + k))
        with (Utils.dateOf now - 1 - k) by lia.
      exact Hstop.
  - intros Hkeep Hno. now apply calculateStreak_none_today.
  - intros Hkeep Hne Hall. now apply calculateStreak_only_today.
  - intros sessions' Hsame. now apply calculateStreak_same_days.
  - apply calculateStreak_bound.
  - intros off day m i _. apply fixedZone_keepsDay.
Qed.

(** ** Failed writes on the timer screen *)

(** A write that fails on the timer screen.  When the write of the
    completing tick rejects, the store is unchanged, the completion dialog
    is not shown, the timer is stopped at zero and the error of the hook is
    set.  When the write of Terminate rejects, the screen stays open and the
    store is unchanged, but the record is already in memory: a second
    Terminate, whose write resolves, persists the partial record of the run
    twice. *)
Theorem failed_writes_on_the_timer_screen :
  (forall (sc : TimerScreen.t) (st : UseStorage.Store) (t0 now : Z)
          (stamp : string),
      TimerScreen.runningFrom t0 sc ->
      TimerState.targetSeconds (TimerScreen.timerState sc)
      <= (now - t0) / 1000 ->
      let res := TimerScreen.step (TimerScreen.Tick now stamp false) (sc, st) in
      snd res = st
      /\ TimerScreen.showCompletionModal (fst res)
         = TimerScreen.showCompletionModal sc
      /\ TimerState.isRunning (TimerScreen.timerState (fst res)) = false
      /\ TimerState.remainingSeconds (TimerScreen.timerState (fst res)) = 0
      /\ UseStorage.error (TimerScreen.storage (fst res))
         = Some "Failed to add session")
  /\ (forall (sc : TimerScreen.t) (st : UseStorage.Store) (now1 now2 : Z)
             (stamp1 stamp2 : string),
        TimerScreen.mounted sc = true ->
        TimerState.elapsedSeconds (TimerScreen.timerState sc) <> 0 ->
        let record := fun stamp now =>
          Session.mk (Utils.uid "s_" stamp) (TimerScreen.courseId sc) now
            (TimerState.elapsedSeconds (TimerScreen.timerState sc))
            (TimerState.targetSeconds (TimerScreen.timerState sc)) true in
        let failed := TimerScreen.step
                        (TimerScreen.PressTerminate now1 stamp1 false)
                        (sc, st) in
        let retried := TimerScreen.step
                         (TimerScreen.PressTerminate now2 stamp2 true)
                         failed in
        snd failed = st
        /\ TimerScreen.mounted (fst failed) = true
        /\ UseStorage.sessions (TimerScreen.storage (fst failed))
           = UseStorage.sessions (TimerScreen.storage sc)
             ++ [record stamp1 now1]
        /\ UseStorage.SESSIONS (snd retried)
           = Some (UseStorage.sessions (TimerScreen.storage sc)
                   ++ [record stamp1 now1; record stamp2 now2])
        /\ TimerScreen.mounted (fst retried) = false).
Proof.
  split.
  - intros sc st t0 now stamp Hrun Hle res. unfold res.
    rewrite (step_tick_complete sc st t0 now stamp false Hrun Hle).
    unfold TimerScreen.handleTimerComplete, UseStorage.addSession. cbn.
    repeat split.
  - intros sc st now1 now2 stamp1 stamp2 Hm He record failed retried.
    assert (Hneq : (TimerState.elapsedSeconds (TimerScreen.timerState sc) =? 0)
                   = false) by now apply Z.eqb_neq.
    assert (Hf : failed
                 = (TimerScreen.setStorage
                      (UseStorage.setError (Some "Failed to add session")
                         (UseStorage.setSessions
                            (UseStorage.sessions (TimerScreen.storage sc)
                             ++ [record stamp1 now1])
                            (TimerScreen.storage sc))) sc, st)).
    { unfold failed, TimerScreen.step. rewrite Hm. cbn [negb].
      unfold TimerScreen.handleTerminate. rewrite Hneq.
      unfold UseStorage.addSession. cbn -[TimerScreen.commit].
      now rewrite commit_same_running. }
    unfold retried. rewrite Hf. cbn [fst snd].
    split; [reflexivity|]. split; [exact Hm|]. split; [reflexivity|].
    unfold TimerScreen.step.
    cbn [TimerScreen.mounted TimerScreen.setStorage]. rewrite Hm. cbn [negb].
    unfold TimerScreen.handleTerminate.
    cbn [TimerScreen.timerState TimerScreen.setStorage]. rewrite Hneq.
    unfold UseStorage.addSession. cbn -[TimerScreen.commit].
    rewrite commit_same_running by reflexivity. cbn.
    rewrite <- app_assoc. split; reflexivity.
Qed.

(** A partial run of five minutes whose first write fails. *)
Lemma failed_terminate_witness :
  UseStorage.SESSIONS
    (snd (TimerScreen.step (TimerScreen.PressTerminate 302000 "k2" true)
            (TimerScreen.step (TimerScreen.PressTerminate 301500 "k1" false)
               Scenario.fiveMinutesIn)))
  = Some [Session.mk "s__k1" "c_a" 301500 300 1200 true;
          Session.mk "s__k2" "c_a" 302000 300 1200 true].
Proof.
  assert (Hm : TimerScreen.mounted (fst Scenario.fiveMinutesIn) = true)
    by reflexivity.
  assert (He : TimerState.elapsedSeconds
                 (TimerScreen.timerState (fst Scenario.fiveMinutesIn)) <> 0)
    by (vm_compute; discriminate).
  exact (proj1 (proj2 (proj2 (proj2
           (proj2 failed_writes_on_the_timer_screen
              (fst Scenario.fiveMinutesIn) (snd Scenario.fiveMinutesIn)
              301500 302000 "k1" "k2" Hm He))))).
Defined.

(** ** Elapsed and remaining time *)

Section Balance.

Import UseStorage TimerScreen TimerFacts.

Lemma tickUpdate_balanced (now : Z) (prev : TimerState.t) :
  balanced (fst (tickUpdate now prev)).
Proof.
  unfold tickUpdate, balanced.
  destruct (Z.leb_spec
              (Z.max 0 (TimerState.targetSeconds prev
                        - elapsedSince (TimerState.startTime prev) now)) 0);
    cbn; lia.
Qed.

End Balance.

Section BalanceSteps.

Import UseStorage TimerScreen TimerFacts.

Lemma step_balanced (e : event) (sc : TimerScreen.t) (st : Store) :
  match e with AppStateChange _ _ => False | _ => True end ->
  balanced (timerState sc) ->
  balanced (timerState (fst (step e (sc, st)))).
Proof.
  intros He Hb. unfold step. destruct (mounted sc); cbn [negb]; [|exact Hb].
  destruct e; try contradiction;
    try (cbn [fst];
         match goal with |- context [commit ?a ?b] =>
           destruct (commit_fields a b) as [-> _] end;
         first [exact Hb | cbn; unfold balanced; cbn; lia]).
  - unfold tick. destruct (TimerState.isRunning (timerState sc)).
    + pose proof (tickUpdate_balanced now (timerState sc)) as Ht.
      destruct (tickUpdate now (timerState sc)) as [ts completed].
      cbn [fst] in Ht. destruct completed.
      * unfold handleTimerComplete, addSession. destruct w; cbn [fst];
          match goal with |- context [commit ?a ?b] =>
            destruct (commit_fields a b) as [-> _] end; exact Ht.
      * cbn [fst]. match goal with |- context [commit ?a ?b] =>
            destruct (commit_fields a b) as [-> _] end. exact Ht.
    + cbn [fst]. destruct (commit_fields sc sc) as [-> _]. exact Hb.
  - cbn [fst]. match goal with |- context [commit ?a ?b] =>
      destruct (commit_fields a b) as [-> _] end.
    destruct (TimerState.isRunning (timerState sc)); exact Hb.
  - unfold handleTerminate, addSession.
    destruct (TimerState.elapsedSeconds (timerState sc) =? 0); [|destruct w];
      cbn [fst]; match goal with |- context [commit ?a ?b] =>
        destruct (commit_fields a b) as [-> _] end; exact Hb.
  - cbn [fst]. match goal with |- context [commit ?a ?b] =>
      destruct (commit_fields a b) as [-> _] end.
    destruct (handleCustomTimeSubmit_spec now sc)
      as [(m & _ & Hm & Hts & _)|(_ & Heq)].
    + rewrite Hts. unfold balanced. cbn. lia.
    + now rewrite Heq.
Qed.

End BalanceSteps.

(** Elapsed and remaining seconds add up to the target when the screen
    opens, and every event other than an app-state change keeps it so.  A
    return to the foreground of a running timer keeps it exactly when the
    real elapsed time has not passed the target; past the target the sum
    exceeds the target, until the next tick restores the balance. *)
Theorem elapsed_plus_remaining_is_the_target :
  (forall courseId m current now,
      TimerFacts.balanced
        (TimerScreen.timerState (TimerScreen.mount courseId m current now)))
  /\ (forall e sc st,
        match e with TimerScreen.AppStateChange _ _ => False | _ => True end ->
        TimerFacts.balanced (TimerScreen.timerState sc) ->
        TimerFacts.balanced
          (TimerScreen.timerState (fst (TimerScreen.step e (sc, st)))))
  /\ (forall sc st t0 now,
        TimerScreen.runningFrom t0 sc ->
        TimerScreen.matchesInactiveOrBackground (TimerScreen.appStateRef sc)
        = true ->
        (TimerFacts.balanced
           (TimerScreen.timerState
              (fst (TimerScreen.step
                      (TimerScreen.AppStateChange TimerScreen.active now)
                      (sc, st))))
         <-> (now - t0) / 1000
             <= TimerState.targetSeconds (TimerScreen.timerState sc)))
  /\ (forall sc st t0 now stamp w,
        TimerScreen.runningFrom t0 sc ->
        TimerFacts.balanced
          (TimerScreen.timerState
             (fst (TimerScreen.step (TimerScreen.Tick now stamp w) (sc, st))))).
Proof.
  split; [|split; [exact step_balanced|split]].
  - intros courseId m current now. unfold TimerFacts.balanced. cbn. lia.
  - intros sc st t0 now Hrun Hbg.
    rewrite (step_appState_running _ _ t0) by assumption. cbn [fst].
    destruct (handleAppStateChange_running TimerScreen.active now t0 sc Hrun)
      as (_ & Htgt & _ & H). destruct (H Hbg eq_refl) as (He & Hr).
    unfold TimerFacts.balanced. rewrite He, Hr, Htgt. lia.
  - intros sc st t0 now stamp w Hrun.
    destruct (tick_recomputes t0 now stamp w sc st Hrun) as (H1 & H2).
    destruct (Z_le_gt_dec (TimerState.targetSeconds (TimerScreen.timerState sc))
                          ((now - t0) / 1000)) as [Hle|Hgt].
    + rewrite (step_tick_complete sc st t0) by assumption.
      unfold TimerScreen.handleTimerComplete, UseStorage.addSession.
      destruct w; unfold TimerFacts.balanced; cbn; lia.
    + rewrite (step_tick_running sc st t0) by first [assumption | lia].
      unfold TimerFacts.balanced. cbn. lia.
Qed.
